(** * fsdb: a record store on the file system

    A shallow embedding of [fsdb/fsdb/fsdb.py] (class [FSDB]) over a model of
    the POSIX file tree the engine manipulates through [pathlib], [os] and
    [shutil].  Tables are directories under a root, records are files,
    secondary indexes are directories of symbolic links and links between
    records are files whose name holds a colon.

    Layout of the development:
    - Python strings and [pathlib] pure paths;
    - the file tree, path resolution with symbolic links, and the calls of
      [os], [pathlib.Path] and [shutil] the engine makes;
    - the engine, method by method, in a state-and-exception monad, and
      its constructor;
    - the vocabulary of the statements: names, the layout of a store and
      its indexes, sequences of calls;
    - a concrete runtime and stores used to run the engine on examples;
    - the properties of the engine, and the examples. *)

From stdpp Require Import gmap strings list fin_maps.
From Stdlib Require Import Ascii String.

Local Open Scope string_scope.
Local Open Scope list_scope.

(** ** Python strings *)

Module Py.

(** [sub in s] for two strings. *)
Fixpoint contains (sub s : string) : bool :=
  String.prefix sub s ||
  match s with
  | EmptyString => false
  | String _ s' => contains sub s'
  end.

(** [s.split(sep)] for a one-character separator. *)
Fixpoint split (sep : ascii) (s : string) : list string :=
  match s with
  | EmptyString => [EmptyString]
  | String a s' =>
      if Ascii.eqb a sep then EmptyString :: split sep s'
      else match split sep s' with
           | [] => [String a EmptyString]
           | w :: ws => String a w :: ws
           end
  end.

(** [s.partition(sep)] for a one-character separator: the text before the
    first separator, the separator, the text after it; [(s, "", "")] when
    the separator does not occur. *)
Fixpoint partition (sep : ascii) (s : string) : string * string * string :=
  match s with
  | EmptyString => (EmptyString, EmptyString, EmptyString)
  | String a s' =>
      if Ascii.eqb a sep then (EmptyString, String sep EmptyString, s')
      else let '(h, m, t) := partition sep s' in (String a h, m, t)
  end.

(** [s.lstrip(c)] for a one-character set. *)
Fixpoint lstrip (c : ascii) (s : string) : string :=
  match s with
  | String a s' => if Ascii.eqb a c then lstrip c s' else s
  | EmptyString => EmptyString
  end.

End Py.

(** ** pathlib: pure POSIX paths

    A pure path is an anchor flag and the list of its components.  Parsing
    splits at slashes and drops empty components and single dots; a double
    dot is kept, as [pathlib] keeps it. *)

Record PurePath := mkPath { anchored : bool; parts : list string }.

#[global] Instance PurePath_eq_dec : EqDecision PurePath.
Proof. solve_decision. Defined.

Definition keep_part (p : string) : bool :=
  negb (String.eqb p "") && negb (String.eqb p ".").

(** [Path(s)] *)
Definition parse_path (s : string) : PurePath :=
  {| anchored := String.prefix "/" s;
     parts := List.filter keep_part (Py.split "/" s) |}.

(** [p / s] *)
Definition joinpath (p : PurePath) (s : string) : PurePath :=
  let q := parse_path s in
  if anchored q then q
  else {| anchored := anchored p; parts := parts p ++ parts q |}.

(** [p / q] for two paths *)
Definition joinpaths (p q : PurePath) : PurePath :=
  if anchored q then q
  else {| anchored := anchored p; parts := parts p ++ parts q |}.

(** [p.name] *)
Definition path_name (p : PurePath) : string := List.last (parts p) "".

(** [str(p)] *)
Definition path_str (p : PurePath) : string :=
  match parts p with
  | [] => if anchored p then "/" else "."
  | ps => (if anchored p then "/" else "") +:+ String.concat "/" ps
  end.

Infix "</>" := joinpath (at level 40, left associativity).

(** ** The file tree

    A tree is a finite map from locations to nodes.  A location is the list
    of names leading from [/] to the node, free of dots and of symbolic
    links; [/] itself, the empty location, is a directory and is not stored.
    The process's working directory is taken to be [/]. *)

Abbreviation loc := (list string).

Inductive node :=
  | File (content : string)
  | Dir
  | Symlink (target : PurePath).

#[global] Instance node_eq_dec : EqDecision node.
Proof. solve_decision. Defined.

Abbreviation tree := (gmap loc node).

Inductive errno := ENOENT | ENOTDIR | EISDIR | EEXIST | ELOOP | EINVAL | EBUSY.

#[global] Instance errno_eq_dec : EqDecision errno.
Proof. solve_decision. Defined.

Definition node_at (t : tree) (l : loc) : option node :=
  match l with
  | [] => Some Dir
  | _ => t !! l
  end.

Definition parent (l : loc) : loc := removelast l.

(** The result of resolving a path: the node it denotes, the location
    where it could be created (the directory above exists, the last name
    does not), or the error of the system call. *)
Inductive resolved :=
  | Found (l : loc) (n : node)
  | Vacant (l : loc)
  | Fail (e : errno).

Inductive walked :=
  | Stop (r : resolved)
  | Follow (cur : loc) (target : PurePath) (rest : list string).

(** One pass over the components of a path from the directory [cur], up to
    the first symbolic link that has to be followed.  [follow] tells whether
    a link in the last position is followed ([stat]) or is the result
    ([lstat], [unlink], [rename], [symlink], [mkdir]). *)
Fixpoint walk (t : tree) (follow : bool) (cur : loc) (ps : list string) : walked :=
  match ps with
  | [] => Stop (Found cur Dir)
  | p :: rest =>
      if String.eqb p ".." then walk t follow (parent cur) rest
      else
        let l := cur ++ [p] in
        match t !! l with
        | None =>
            match rest with
            | [] => Stop (Vacant l)
            | _ => Stop (Fail ENOENT)
            end
        | Some Dir => walk t follow l rest
        | Some (File c) =>
            match rest with
            | [] => Stop (Found l (File c))
            | _ => Stop (Fail ENOTDIR)
            end
        | Some (Symlink tg) =>
            match rest, follow with
            | [], false => Stop (Found l (Symlink tg))
            | _, _ => Follow cur tg rest
            end
        end
  end.

(** The kernel follows at most this many links in one resolution. *)
Definition MAXSYMLINKS : nat := 40.

Fixpoint resolve_from (n : nat) (t : tree) (follow : bool)
    (cur : loc) (ps : list string) : resolved :=
  match walk t follow cur ps with
  | Stop r => r
  | Follow cur' tg rest =>
      match n with
      | O => Fail ELOOP
      | S n' =>
          resolve_from n' t follow
            (if anchored tg then [] else cur') (parts tg ++ rest)
      end
  end.

Definition resolve (t : tree) (follow : bool) (p : PurePath) : resolved :=
  resolve_from MAXSYMLINKS t follow [] (parts p).

(** *** os, pathlib.Path and shutil on the tree *)

(** [p.exists()], [p.is_file()], [p.is_dir()]: [stat], with the errors of a
    failed resolution read as "no".  A resolution fails here for a missing
    name, a file on the way or too many links, which every version of
    [pathlib] reads so.  The tree has no permissions and no limit on the
    length of a name: the errors of these, which [pathlib] before 3.14 lets
    through, do not arise. *)
Definition path_exists (t : tree) (p : PurePath) : bool :=
  match resolve t true p with Found _ _ => true | _ => false end.

Definition is_file (t : tree) (p : PurePath) : bool :=
  match resolve t true p with Found _ (File _) => true | _ => false end.

Definition is_dir (t : tree) (p : PurePath) : bool :=
  match resolve t true p with Found _ Dir => true | _ => false end.

(** [p.is_symlink()]: [lstat]. *)
Definition is_symlink (t : tree) (p : PurePath) : bool :=
  match resolve t false p with Found _ (Symlink _) => true | _ => false end.

(** [p.readlink()] *)
Definition readlink (t : tree) (p : PurePath) : errno + PurePath :=
  match resolve t false p with
  | Found _ (Symlink tg) => inr tg
  | Found _ _ => inl EINVAL
  | Vacant _ => inl ENOENT
  | Fail e => inl e
  end.

(** [open(p, "r").read()] *)
Definition read_file (t : tree) (p : PurePath) : errno + string :=
  match resolve t true p with
  | Found _ (File c) => inr c
  | Found _ _ => inl EISDIR
  | Vacant _ => inl ENOENT
  | Fail e => inl e
  end.

(** [open(p, "w")], the content written, the file closed. *)
Definition write_file (t : tree) (p : PurePath) (c : string) : errno + tree :=
  match resolve t true p with
  | Found l (File _) => inr (<[l := File c]> t)
  | Found _ _ => inl EISDIR
  | Vacant l => inr (<[l := File c]> t)
  | Fail e => inl e
  end.

(** [os.unlink(p)] *)
Definition os_unlink (t : tree) (p : PurePath) : errno + tree :=
  match resolve t false p with
  | Found _ Dir => inl EISDIR
  | Found l _ => inr (delete l t)
  | Vacant _ => inl ENOENT
  | Fail e => inl e
  end.

(** [os.symlink(target, p)] *)
Definition os_symlink (t : tree) (target p : PurePath) : errno + tree :=
  match resolve t false p with
  | Found _ _ => inl EEXIST
  | Vacant l => inr (<[l := Symlink target]> t)
  | Fail e => inl e
  end.

(** [os.mkdir(p)] *)
Definition os_mkdir (t : tree) (p : PurePath) : errno + tree :=
  match resolve t false p with
  | Found _ _ => inl EEXIST
  | Vacant l => inr (<[l := Dir]> t)
  | Fail e => inl e
  end.

(** [os.rename(src, dst)] for a source that is not a directory; source and
    destination are on one file system. *)
Definition os_rename (t : tree) (src dst : PurePath) : errno + tree :=
  match resolve t false src with
  | Found ls Dir => inl EINVAL
  | Found ls n =>
      match resolve t false dst with
      | Found _ Dir => inl EISDIR
      | Found ld _ | Vacant ld =>
          if decide (ls = ld) then inr t else inr (<[ld := n]> (delete ls t))
      | Fail e => inl e
      end
  | Vacant _ => inl ENOENT
  | Fail e => inl e
  end.

(** The name of [k] when [k] is an entry of the directory at [l]. *)
Definition entry_of (l k : loc) : option string :=
  match reverse k with
  | n :: r => if decide (reverse r = l) then Some n else None
  | [] => None
  end.

(** [os.listdir] at a location; the order is the map's. *)
Definition entries (t : tree) (l : loc) : list string :=
  omap (entry_of l) (map_to_list t).*1.

(** [os.listdir(p)] *)
Definition os_listdir (t : tree) (p : PurePath) : errno + list string :=
  match resolve t true p with
  | Found l Dir => inr (entries t l)
  | Found _ _ => inl ENOTDIR
  | Vacant _ => inl ENOENT
  | Fail e => inl e
  end.

(** Removal of the whole subtree at [l]. *)
Definition prune (t : tree) (l : loc) : tree :=
  filter (λ kv, ¬ l `prefix_of` kv.1) t.

(** [shutil.rmtree(p)]: the directory and all below it; a symbolic link is
    refused, and [/] is emptied but cannot be removed. *)
Inductive rmtree_result :=
  | Removed (t : tree)
  | RefusedLink
  | Emptied (t : tree) (e : errno)
  | NotRemoved (e : errno).

Definition rmtree (t : tree) (p : PurePath) : rmtree_result :=
  match resolve t false p with
  | Found [] Dir => Emptied ∅ EBUSY
  | Found l Dir => Removed (prune t l)
  | Found _ (File _) => NotRemoved ENOTDIR
  | Found _ (Symlink _) => RefusedLink
  | Vacant _ => NotRemoved ENOENT
  | Fail e => NotRemoved e
  end.

(** The child of a directory path by an entry name, as [iterdir] and
    [glob] build it (the name is not parsed again). *)
Definition child (dir : PurePath) (n : string) : PurePath :=
  {| anchored := anchored dir; parts := parts dir ++ [n] |}.

(** *** Wildcards

    [fnmatch] on one name, for patterns made of literal characters, [*] and
    [?].  Bracket classes are outside this model. *)
Fixpoint fnmatch (pat : string) : string → bool :=
  match pat with
  | EmptyString => λ s, match s with EmptyString => true | _ => false end
  | String c pat' =>
      if Ascii.eqb c "*" then
        fix star (s : string) : bool :=
          fnmatch pat' s ||
          match s with
          | EmptyString => false
          | String _ s' => star s'
          end
      else if Ascii.eqb c "?" then
        λ s, match s with
             | EmptyString => false
             | String _ s' => fnmatch pat' s'
             end
      else
        λ s, match s with
             | EmptyString => false
             | String a s' => Ascii.eqb a c && fnmatch pat' s'
             end
  end.

(** ** The Python runtime the engine runs on

    What the engine takes from the interpreter and its library and treats
    as opaque: the values a document holds and their [str], the JSON codec,
    and the source of [uuid1] strings.  A document is a [dict] with string
    keys. *)

Class Runtime := {
  value : Type;
  py_str : value → string;
  json_dumps : gmap string value → string;
  json_loads : string → option (gmap string value);
  uuid1 : nat → string;
}.

Abbreviation document := (gmap string value).

(** The truth value of a [dict] or [None]. *)
Definition truthy `{Runtime} (d : option document) : bool :=
  match d with
  | Some m => negb (bool_decide (dom m = ∅))
  | None => false
  end.

(** ** State and exceptions *)

Inductive exn :=
  | ValueError (msg : string)
  | FileNotFoundError (msg : string)
  | FileExistsError (msg : string)
  | OSError (e : errno)
  | LinkError (msg : string)
  | ShutilError (msg : string)
  | Unmodelled.

Record world := mkWorld { files : tree; clock : nat }.

Inductive outcome (A : Type) :=
  | Ret (a : A)
  | Raise (e : exn).
Arguments Ret {A} a.
Arguments Raise {A} e.

Definition M (A : Type) : Type := world → outcome A * world.

#[global] Instance M_ret : MRet M := λ A a w, (Ret a, w).

#[global] Instance M_bind : MBind M := λ A B k m w,
  match m w with
  | (Ret a, w') => k a w'
  | (Raise e, w') => (Raise e, w')
  end.

Definition raise {A} (e : exn) : M A := λ w, (Raise e, w).

(** [try: m except Exception as e: h e] *)
Definition try_except {A} (m : M A) (h : exn → M A) : M A := λ w,
  match m w with
  | (Ret a, w') => (Ret a, w')
  | (Raise e, w') => h e w'
  end.

(** A reading of the tree. *)
Definition ask {A} (f : tree → A) : M A := λ w, (Ret (f (files w)), w).

(** A system call that changes the tree or fails with an [OSError]. *)
Definition syscall (f : tree → errno + tree) : M unit := λ w,
  match f (files w) with
  | inr t' => (Ret (), mkWorld t' (clock w))
  | inl e => (Raise (OSError e), w)
  end.

(** A system call that returns a value or fails with an [OSError]. *)
Definition query {A} (f : tree → errno + A) : M A := λ w,
  match f (files w) with
  | inr a => (Ret a, w)
  | inl e => (Raise (OSError e), w)
  end.

Definition fresh_uuid `{Runtime} : M string := λ w,
  (Ret (uuid1 (clock w)), mkWorld (files w) (S (clock w))).

(** [for x in xs: body x] *)
Fixpoint for_each {A} (xs : list A) (body : A → M unit) : M unit :=
  match xs with
  | [] => mret ()
  | x :: xs' => body x ≫= λ _, for_each xs' body
  end.

(** *** pathlib.Path and shutil as actions *)

(** [p.unlink(missing_ok=True)] *)
Definition unlink_missing_ok (p : PurePath) : M unit := λ w,
  match os_unlink (files w) p with
  | inr t' => (Ret (), mkWorld t' (clock w))
  | inl ENOENT => (Ret (), w)
  | inl e => (Raise (OSError e), w)
  end.

(** [p.mkdir(exist_ok=True)]: an error other than a missing parent is
    dropped when the path is a directory. *)
Definition mkdir_exist_ok (p : PurePath) : M unit := λ w,
  match os_mkdir (files w) p with
  | inr t' => (Ret (), mkWorld t' (clock w))
  | inl ENOENT => (Raise (OSError ENOENT), w)
  | inl e => if is_dir (files w) p then (Ret (), w) else (Raise (OSError e), w)
  end.

(** [shutil.move(src, dst)] for a source that is not a directory: into
    [dst] when [dst] is a directory, over [dst] otherwise.  When the rename
    fails, so does the copy [shutil] falls back on, for the same reason. *)
Definition shutil_move (src dst : PurePath) : M unit :=
  isd ← ask (λ t, is_dir t dst);
  if isd : bool then
    let real_dst := child dst (path_name src) in
    ex ← ask (λ t, path_exists t real_dst);
    if ex : bool then raise (ShutilError ("Destination path '" +:+ path_str real_dst
                                  +:+ "' already exists"))
    else syscall (λ t, os_rename t src real_dst)
  else syscall (λ t, os_rename t src dst).

(** [shutil.rmtree(p)] *)
Definition shutil_rmtree (p : PurePath) : M unit := λ w,
  match rmtree (files w) p with
  | Removed t' => (Ret (), mkWorld t' (clock w))
  | RefusedLink =>
      (Raise (LinkError "Cannot call rmtree on a symbolic link"), w)
  | Emptied t' e => (Raise (OSError e), mkWorld t' (clock w))
  | NotRemoved e => (Raise (OSError e), w)
  end.

(** [dir.glob(pattern)] for a pattern of one path segment without bracket
    classes; other patterns are outside this model.  The directory is
    listed once, when the iteration starts. *)
Definition glob (dir : PurePath) (pattern : string) : M (list PurePath) :=
  if String.eqb pattern "" then raise (ValueError "Unacceptable pattern: ''")
  else if Py.contains "/" pattern || Py.contains "**" pattern
          || Py.contains "[" pattern
          || String.eqb pattern "." || String.eqb pattern ".."
  then raise Unmodelled
  else
    ask (λ t,
      if is_dir t dir then
        match os_listdir t dir with
        | inr ns => child dir <$> List.filter (fnmatch pattern) ns
        | inl _ => []
        end
      else []).

(** ** The engine: class FSDB *)

Record FSDB := mkFSDB { root : PurePath; workdir : PurePath }.

Section Engine.
Context `{Runtime}.
Variable self : FSDB.

Definition _safe_name (name : string) : M unit :=
  if existsb (λ c, Py.contains c name) [".."; "/"; "\"]
  then raise (ValueError ("Unsafe key: " +:+ name))
  else mret ().

(** [if name:] is false for [None] and for the empty string. *)
Definition _target_f (table : string) (name : option string) : M PurePath :=
  _safe_name table;;
  match name with
  | Some n =>
      if String.eqb n "" then mret (root self </> table)
      else _safe_name n;; mret (root self </> table </> n)
  | None => mret (root self </> table)
  end.

Definition _write (table pk : string) (data : document) : M unit :=
  tdir ← _target_f table None;
  ex ← ask (λ t, path_exists t tdir);
  if negb ex then
    raise (FileNotFoundError ("Table " +:+ table +:+ " does not exist"))
  else
    target_f ← _target_f table (Some pk);
    u ← fresh_uuid;
    let tmp := workdir self </> (table +:+ "-" +:+ pk +:+ "-" +:+ u) in
    try_except
      (syscall (λ t, write_file t tmp (json_dumps data));;
       shutil_move tmp target_f)
      (λ e,
        ex ← ask (λ t, path_exists t tmp);
        (if ex : bool then syscall (λ t, os_unlink t tmp) else mret ());;
        raise e).

Definition create (table : string) : M unit :=
  p ← _target_f table None;
  mkdir_exist_ok p.

Definition lsdb : M (list string) :=
  ns ← query (λ t, os_listdir t (root self));
  ask (λ t, List.filter (λ n, is_dir t (child (root self) n)) ns).

Definition lspk (table : string) : M (list string) :=
  let d := root self </> table in
  ex ← ask (λ t, path_exists t d);
  if negb ex then
    raise (FileNotFoundError ("Table " +:+ table +:+ " not found"))
  else
    ns ← query (λ t, os_listdir t d);
    ask (λ t, List.filter
                (λ n, is_file t (child d n) && negb (Py.contains ":" n)) ns).

Definition get (table pk : string) : M (option document) :=
  p ← _target_f table (Some pk);
  ok ← ask (λ t, path_exists t p && is_file t p);
  if ok : bool then
    ask (λ t, match read_file t p with
              | inr c => json_loads c
              | inl _ => None
              end)
  else mret None.

Definition _index (table pk field value : string) : M unit :=
  idxdir ← _target_f table (Some ("@" +:+ field));
  let index := idxdir </> value in
  let target := joinpath (parse_path "..") pk in
  unlink_missing_ok index;;
  syscall (λ t, os_symlink t target index).

Definition _update_index (table pk : string)
    (old new : option document) : M unit :=
  idxdirs ← glob (root self </> table) "@*";
  for_each idxdirs (λ idxdir,
    isd ← ask (λ t, is_dir t idxdir);
    if negb isd then mret ()
    else
      let field := Py.lstrip "@" (path_name idxdir) in
      (match (if truthy old then old else None) ≫= (.!! field) with
       | Some v =>
           let link := idxdir </> py_str v in
           isl ← ask (λ t, is_symlink t link);
           if isl : bool then
             tg ← query (λ t, readlink t link);
             if bool_decide (tg = parse_path ("../" +:+ pk))
             then syscall (λ t, os_unlink t link)
             else mret ()
           else mret ()
       | None => mret ()
       end);;
      match (if truthy new then new else None) ≫= (.!! field) with
      | Some v => _index table pk field (py_str v)
      | None => mret ()
      end).

Definition insert (table pk : string) (data : document) : M unit :=
  p ← _target_f table (Some pk);
  ex ← ask (λ t, path_exists t p);
  if ex : bool then
    raise (FileExistsError
             ("Record " +:+ pk +:+ " already exists in " +:+ table))
  else
    _write table pk data;;
    _update_index table pk None (Some data).

Definition update (table pk : string) (data : document) : M unit :=
  current ← get table pk;
  if negb (truthy current) then
    raise (FileNotFoundError
             ("Record " +:+ pk +:+ " in " +:+ table +:+ " is missing"))
  else
    _write table pk data;;
    _update_index table pk current (Some data).

Definition upsert (table pk : string) (data : document) : M unit :=
  current ← get table pk;
  _write table pk data;;
  _update_index table pk current (Some data).

Definition delete (table pk : string) : M bool :=
  current ← get table pk;
  if negb (truthy current) then mret false
  else
    p ← _target_f table (Some pk);
    ex ← ask (λ t, path_exists t p);
    if ex : bool then
      syscall (λ t, os_unlink t p);;
      _update_index table pk current None;;
      mret true
    else mret false.

Definition drop (table : string) : M bool :=
  let p := root self </> table in
  ex ← ask (λ t, path_exists t p);
  if ex : bool then shutil_rmtree p;; mret true
  else mret false.

Definition has_index (table field : string) : M bool :=
  ask (λ t, is_dir t (root self </> table </> ("@" +:+ field))).

(** The generator [scan], run to its end. *)
Definition scan (table pattern : string) : M (list (string * document)) :=
  dir ← _target_f table None;
  ps ← glob dir pattern;
  ask (λ t,
    omap (λ p,
      if negb (is_file t p) then None
      else if Py.contains ":" (path_name p) then None
      else match read_file t p with
           | inr c => (λ d, (path_name p, d)) <$> json_loads c
           | inl _ => None
           end) ps).

Definition create_index (table field : string) : M unit :=
  d ← scan table "*";
  idxdir ← _target_f table (Some ("@" +:+ field));
  mkdir_exist_ok idxdir;;
  for_each d (λ '(pk, data),
    match data !! field with
    | Some v => _index table pk field (py_str v)
    | None => mret ()
    end).

Definition find (table field value : string) : M (option document) :=
  idxdir ← _target_f table (Some ("@" +:+ field));
  let p := idxdir </> value in
  ex ← ask (λ t, path_exists t p);
  if ex : bool then
    ask (λ t, match read_file t p with
              | inr c => json_loads c
              | inl _ => None
              end)
  else mret None.

Definition link (src_table src_pk dest_table dest_pk : string)
    (data : option document) : M unit :=
  p ← _target_f src_table (Some src_pk);
  ex ← ask (λ t, path_exists t p);
  if negb ex then
    raise (FileNotFoundError
      ("Primary key " +:+ src_pk +:+ " not found in " +:+ src_table +:+ "."))
  else
    q ← _target_f dest_table (Some dest_pk);
    ex ← ask (λ t, path_exists t q);
    if negb ex then
      raise (FileNotFoundError
        ("Primary key " +:+ dest_pk +:+ " not found in "
         +:+ dest_table +:+ "."))
    else
      upsert src_table (src_pk +:+ ":" +:+ dest_pk)
        (if truthy data then default ∅ data else ∅).

Definition query_links (table left right : string)
    : M (list (string * string)) :=
  ps ← glob (root self </> table) (left +:+ ":" +:+ right);
  mret (omap (λ p,
          let name := path_name p in
          if Py.contains ":" name then
            let '(l, _, r) := Py.partition ":" name in Some (l, r)
          else None) ps).

End Engine.

(** ** The constructor of the engine *)

(** [p.parent]: the path without its last component; a path without
    components is its own parent. *)
Definition path_parent (p : PurePath) : PurePath :=
  {| anchored := anchored p; parts := removelast (parts p) |}.

(** [p.mkdir(parents=True, exist_ok=True)]: when the directory above is
    missing it is made first, in the same way, and [p] is made after it;
    an error other than a missing parent is dropped when the path is a
    directory.  The recursion of [pathlib] goes up one parent per call,
    so the number of components of the path bounds it. *)
Fixpoint mkdir_parents (fuel : nat) (p : PurePath) : M unit := λ w,
  match os_mkdir (files w) p with
  | inr t' => (Ret (), mkWorld t' (clock w))
  | inl ENOENT =>
      if bool_decide (path_parent p = p) then (Raise (OSError ENOENT), w)
      else
        match fuel with
        | S fuel' =>
            (mkdir_parents fuel' (path_parent p);; mkdir_exist_ok p) w
        | O => (Raise (OSError ENOENT), w)
        end
  | inl e => if is_dir (files w) p then (Ret (), w) else (Raise (OSError e), w)
  end.

Definition mkdir_parents_exist_ok (p : PurePath) : M unit :=
  mkdir_parents (List.length (parts p)) p.

(** [FSDB(root, workdir)] *)
Definition __init__ (root workdir : PurePath) : M FSDB :=
  mkdir_parents_exist_ok root;;
  mkdir_parents_exist_ok workdir;;
  mret (mkFSDB root workdir).

(** * Vocabulary of the statements *)

(** ** Names and patterns *)

(** The test of [_safe_name]. *)
Definition safe (name : string) : bool :=
  negb (existsb (λ c, Py.contains c name) [".."; "/"; "\"]).

(** A name that is one component of a path: no slash, and neither empty
    nor a dot nor a double dot. *)
Definition plain (name : string) : bool :=
  negb (Py.contains "/" name) && negb (String.eqb name "")
  && negb (String.eqb name ".") && negb (String.eqb name "..").

(** The patterns [glob] is modelled on. *)
Definition one_segment (pat : string) : bool :=
  negb (String.eqb pat "")
  && negb (Py.contains "/" pat || Py.contains "**" pat
           || Py.contains "[" pat
           || String.eqb pat "." || String.eqb pat "..").


(** The name of the temporary file of [_write]. *)
Definition tmp_name `{Runtime} (table pk : string) (n : nat) : string :=
  table +:+ "-" +:+ pk +:+ "-" +:+ uuid1 n.

(** ** Trees and actions *)

(** Every name on the way to [l] is a directory of the tree itself: no
    link is crossed and no name is a double dot. *)
Definition real_dir (t : tree) (l : loc) : Prop :=
  Forall (λ n, String.eqb n ".." = false) l
  ∧ ∀ q, q ≠ [] → q `prefix_of` l → t !! q = Some Dir.

Definition raises_only {A} (P : exn → Prop) (m : M A) : Prop :=
  ∀ w e w', m w = (Raise e, w') → P e.

(** The exceptions of the engine's own [raise] statements that report a
    record already present. *)
Definition not_already_exists (e : exn) : Prop :=
  match e with FileExistsError _ => False | _ => True end.

(** ** Outcomes of calls *)

(** The call is refused by the path guard on [name], and leaves the world
    as it was. *)
Definition rejected {A} (name : string) (m : M A) (w : world) : Prop :=
  m w = (Raise (ValueError ("Unsafe key: " +:+ name)), w).

(** An action that leaves the world as it finds it, whatever it returns or
    raises. *)
Definition reads_only {A} (m : M A) : Prop := ∀ w, (m w).2 = w.

(** The way to [l] is free for [mkdir]: no name is a double dot, and each
    place on the way holds a directory or is missing with all below it. *)
Definition way_clear (t : tree) (l : loc) : Prop :=
  Forall (λ n, String.eqb n ".." = false) l
  ∧ ∀ q, q ≠ [] → q `prefix_of` l →
      t !! q = Some Dir
      ∨ ∀ q', q `prefix_of` q' → q' `prefix_of` l → t !! q' = None.

(** ** The store and its indexes *)

Section Store.
Context `{Runtime}.
Variable self : FSDB.

Local Abbreviation R := (parts (root self)).
Local Abbreviation W := (parts (workdir self)).

(** The node of an index entry for the record [k]: a link to [../k]. *)
Definition link_to (k : string) : node := Symlink (mkPath false [".."; k]).

(** The field an index directory stands for: [idxdir.name.lstrip("@")]. *)
Definition field_of (i : string) : string := Py.lstrip "@" i.

(** The names of index directories the engine makes itself: [@field] for a
    field that passes the path guard and does not start with [@]. *)
Definition index_name (i : string) : bool :=
  match i with
  | String a f => Ascii.eqb a "@" && negb (String.prefix "@" f) && safe i
  | EmptyString => false
  end.

(** The document of the record [k] of a table: the record file parsed. *)
Definition record_doc (t : tree) (tb k : string) : option document :=
  match t !! (R ++ [tb; k]) with
  | Some (File c) => json_loads c
  | _ => None
  end.

(** A document whose values all have a [str] that is one plain name. *)
Definition tame (d : document) : Prop :=
  ∀ f v, d !! f = Some v → plain (py_str v) = true.

(** What may stand at the place [l] below the root: tables are
    directories; a table holds record files and index directories; an index
    directory holds links to records of its table.  The names of tables and
    of their entries pass the path guard. *)
Definition kind_ok (t : tree) (l : loc) (nd : node) : Prop :=
  match l with
  | [tb] => nd = Dir ∧ safe tb = true
  | [tb; n] =>
      t !! (R ++ [tb]) = Some Dir
      ∧ safe n = true
      ∧ match nd with
        | File _ => True
        | Dir => index_name n = true
        | Symlink _ => False
        end
  | [tb; i; v] => t !! (R ++ [tb; i]) = Some Dir ∧ ∃ k, nd = link_to k
  | _ => False
  end.

Record frame_ok (t : tree) : Prop := {
  fr_root : real_dir t R;
  fr_work : real_dir t W;
  fr_scratch : ∀ n, t !! (W ++ [n]) = None;
  fr_apart : ¬ R `prefix_of` W;
  fr_shape : ∀ l nd, l ≠ [] → t !! (R ++ l) = Some nd →
             Forall (λ n, plain n = true) l ∧ kind_ok t l nd;
  fr_tame : ∀ tb k d, record_doc t tb k = Some d → tame d;
}.

(** The index entry [v] of the index [i] of table [tb], a link to the
    record [k], is sound: the record holds a document with the value [v]
    for the field of the index. *)
Definition sound (t : tree) (tb i v k : string) : Prop :=
  ∃ d val, record_doc t tb k = Some d
           ∧ d !! field_of i = Some val ∧ py_str val = v.

Definition store_ok (t : tree) : Prop :=
  frame_ok t
  ∧ ∀ tb i v k, t !! (R ++ [tb; i; v]) = Some (link_to k) → sound t tb i v k.

(** The mutating operations of the engine, as a caller issues them. *)
Inductive op :=
  | Create (table : string)
  | Drop (table : string)
  | Insert (table pk : string) (data : document)
  | Update (table pk : string) (data : document)
  | Upsert (table pk : string) (data : document)
  | Delete (table pk : string)
  | CreateIndex (table field : string)
  | Link (src_table src_pk dest_table dest_pk : string)
         (data : option document).

Definition run_op (o : op) : M unit :=
  match o with
  | Create tb => create self tb
  | Drop tb => drop self tb ≫= λ _, mret ()
  | Insert tb pk d => insert self tb pk d
  | Update tb pk d => update self tb pk d
  | Upsert tb pk d => upsert self tb pk d
  | Delete tb pk => delete self tb pk ≫= λ _, mret ()
  | CreateIndex tb f => create_index self tb f
  | Link st sp dt dp d => link self st sp dt dp d
  end.

(** A sequence of calls by one writer; a call that raises leaves the tree
    as it is at that point, and the next call goes on from there. *)
Definition run_ops (os : list op) (w : world) : world :=
  foldl (λ w o, (run_op o w).2) w os.

(** The names and documents the operations are meant for. *)
Definition key_ok (n : string) : bool := safe n && plain n.

Definition pk_ok (n : string) : bool :=
  key_ok n && negb (String.prefix "@" n).

Definition field_ok (f : string) : bool := index_name ("@" +:+ f).

Definition doc_ok (d : document) : Prop :=
  json_loads (json_dumps d) = Some d ∧ tame d.

Definition link_doc (data : option document) : document :=
  if truthy data then default ∅ data else ∅.

Definition op_ok (o : op) : Prop :=
  match o with
  | Create tb | Drop tb => key_ok tb = true
  | Insert tb pk d | Update tb pk d | Upsert tb pk d =>
      key_ok tb = true ∧ pk_ok pk = true ∧ doc_ok d
  | Delete tb pk => key_ok tb = true ∧ pk_ok pk = true
  | CreateIndex tb f => key_ok tb = true ∧ field_ok f = true
  | Link st sp dt dp d =>
      key_ok st = true ∧ pk_ok sp = true ∧ key_ok dt = true
      ∧ key_ok dp = true ∧ doc_ok (link_doc d)
  end.

(** The body of the loop of [_update_index]. *)
Definition sync_index (table pk : string) (old new : option document)
    (idxdir : PurePath) : M unit :=
  isd ← ask (λ t, is_dir t idxdir);
  if negb isd then mret ()
  else
    let field := Py.lstrip "@" (path_name idxdir) in
    (match (if truthy old then old else None) ≫= (.!! field) with
     | Some v =>
         let link := idxdir </> py_str v in
         isl ← ask (λ t, is_symlink t link);
         if isl : bool then
           tg ← query (λ t, readlink t link);
           if bool_decide (tg = parse_path ("../" +:+ pk))
           then syscall (λ t, os_unlink t link)
           else mret ()
         else mret ()
     | None => mret ()
     end);;
    match (if truthy new then new else None) ≫= (.!! field) with
    | Some v => _index self table pk field (py_str v)
    | None => mret ()
    end.

(** The state of a table while the indexes are brought in line with a
    change of the record [pk] from [old] to [new]: every entry is sound,
    or belongs to [pk], carries the old value and lies in an index that is
    still to do. *)
Definition syncing (tb pk : string) (old new : option document)
    (todo : list string) (t : tree) : Prop :=
  frame_ok t
  ∧ record_doc t tb pk = new
  ∧ ∀ tb' i v k, t !! (R ++ [tb'; i; v]) = Some (link_to k) →
      sound t tb' i v k
      ∨ (tb' = tb ∧ k = pk ∧ i ∈ todo
         ∧ ∃ val, old ≫= (.!! field_of i) = Some val ∧ py_str val = v).

(** What a change of the record [pk] to [new] leaves in place: the links
    to other records, but for the places of the new values of [pk]. *)
Definition kept (tb pk : string) (new : option document) (t t' : tree)
    : Prop :=
  ∀ l k, t !! l = Some (link_to k) → k ≠ pk →
    (∀ i val, new ≫= (.!! field_of i) = Some val →
              l ≠ R ++ [tb; i; py_str val]) →
    t' !! l = Some (link_to k).



End Store.

(** ** A concrete runtime

    Values are strings, [str] of a string is the string, and the codec
    writes a document as [{key=value;...}].  It stands in for the
    interpreter when the engine is run on an example. *)

Module Demo.

Definition dumps (d : gmap string string) : string :=
  "{" +:+ String.concat ""
            ((λ kv, kv.1 +:+ "=" +:+ kv.2 +:+ ";") <$> map_to_list d)
      +:+ "}".

Definition load_item (s : string) : option (string * string) :=
  let '(k, m, v) := Py.partition "=" s in
  if String.eqb m "" then None else Some (k, v).

Definition loads (s : string) : option (gmap string string) :=
  match s with
  | String "{" body =>
      match reverse (Py.split ";" body) with
      | "}" :: items => list_to_map <$> mapM load_item (reverse items)
      | _ => None
      end
  | _ => None
  end.

(** [n] strokes: the part of a [uuid1] string that differs from call to
    call. *)
Fixpoint tally (n : nat) : string :=
  match n with
  | O => EmptyString
  | S n' => String "i" (tally n')
  end.

#[global] Instance runtime : Runtime := {|
  value := string;
  py_str := id;
  json_dumps := dumps;
  json_loads := loads;
  uuid1 := λ n, "0000-" +:+ tally n;
|}.

Definition db : FSDB :=
  {| root := parse_path "/var/lib/fsdb"; workdir := parse_path "/tmp/fsdb" |}.

(** Directories at the given paths and nothing else. *)
Definition dirs (ls : list loc) : tree := list_to_map ((λ l, (l, Dir)) <$> ls).

Definition fresh : world :=
  {| files := dirs [["var"]; ["var"; "lib"]; ["var"; "lib"; "fsdb"];
                    ["tmp"]; ["tmp"; "fsdb"]];
     clock := 0 |}.

(** Runs an action for its state, whatever its outcome. *)
Definition exec {A} (m : M A) (w : world) : world := (m w).2.

End Demo.

(** ** Stores for the examples *)

Module Examples.
Import Demo.

Definition doc (kvs : list (string * string)) : document :=
  list_to_map (M := gmap string string) kvs.

(** A store with one table. *)
Definition one_table : world := exec (create db "t") fresh.

(** The table with the empty document at key [k]. *)
Definition with_empty : world := exec (insert db "t" "k" ∅) one_table.

(** The table with an index on [f]. *)
Definition indexed : world := exec (create_index db "t" "f") one_table.

(** The table with the document [{f: x}] at key [k]. *)
Definition with_record : world :=
  exec (insert db "t" "k" (doc [("f", "x")])) one_table.

(** A directory beside the root of the store, with a file in it. *)
Definition beside : world :=
  {| files := <[["var"; "lib"; "other"; "secret"] := File "data"]>
                (<[["var"; "lib"; "other"] := Dir]> (files fresh));
     clock := 0 |}.

(** A table [people] with the records [a] and [b]. *)
Definition people : world :=
  exec (insert db "people" "b" (doc [("name", "Bo")]))
    (exec (insert db "people" "a" (doc [("name", "Al")]))
       (exec (create db "people") fresh)).


End Examples.

(** ** More stores for the examples *)

Module Cases.
Import Demo Examples.

(** The calls that make the table [t] with an index on [f] and the
    records [k1] and [k2]. *)
Definition indexed_pair : list op :=
  [Create "t"; CreateIndex "t" "f";
   Insert "t" "k1" (doc [("f", "x")]);
   Insert "t" "k2" (doc [("f", "y")])].

Definition two_records : world := run_ops db indexed_pair fresh.

(** The calls that make the table [t] with an index on [f], and nothing
    in it. *)
Definition indexed_table : list op := [Create "t"; CreateIndex "t" "f"].

(** The calls that make the table [t] with the record [k] and no index. *)
Definition plain_table : list op :=
  [Create "t"; Insert "t" "k" (doc [("f", "x")])].

(** A store in which a file stands where the table [t] would be. *)
Definition blocked : world :=
  {| files := <[["var"; "lib"; "fsdb"; "t"] := File "x"]> (files fresh);
     clock := 0 |}.

(** The empty file system. *)
Definition nothing : world := {| files := ∅; clock := 0 |}.

End Cases.

(** * Properties *)

(** ** Names *)

Lemma prefix_char c a s :
  String.prefix (String c "") (String a s) = Ascii.eqb a c.
Proof.
  cbn. destruct (Ascii.ascii_dec c a) as [->|Hne].
  - rewrite Ascii.eqb_refl. by destruct s.
  - symmetry. apply Ascii.eqb_neq. congruence.
Qed.

Lemma contains_char_cons c a s :
  Py.contains (String c "") (String a s)
  = Ascii.eqb a c || Py.contains (String c "") s.
Proof. cbn [Py.contains]. by rewrite prefix_char. Qed.

Lemma contains_char_app c s1 s2 :
  Py.contains (String c "") (s1 +:+ s2)
  = Py.contains (String c "") s1 || Py.contains (String c "") s2.
Proof.
  induction s1 as [|a s1 IH].
  - by destruct s2.
  - change (String a s1 +:+ s2) with (String a (s1 +:+ s2)).
    rewrite !contains_char_cons, IH. by rewrite orb_assoc.
Qed.

Lemma split_no_sep c s :
  Py.contains (String c "") s = false → Py.split c s = [s].
Proof.
  induction s as [|a s IH]; [done|].
  rewrite contains_char_cons. intros [Ha Hs]%orb_false_elim.
  cbn [Py.split]. by rewrite Ha, (IH Hs).
Qed.

Lemma safe_no_slash n : safe n = true → Py.contains "/" n = false.
Proof.
  unfold safe. cbn [existsb]. rewrite negb_true_iff.
  intros H. by destruct (Py.contains ".." n), (Py.contains "/" n).
Qed.

Lemma safe_not_dotdot n : safe n = true → n ≠ "..".
Proof. intros H ->. by vm_compute in H. Qed.

Lemma safe_plain n : safe n = true → n ≠ "" → n ≠ "." → plain n = true.
Proof.
  intros Hs H1 H2. unfold plain. rewrite (safe_no_slash _ Hs). cbn.
  apply safe_not_dotdot in Hs.
  by rewrite !andb_true_iff, !negb_true_iff, !String.eqb_neq.
Qed.

Lemma plain_no_slash n : plain n = true → Py.contains "/" n = false.
Proof. unfold plain. rewrite !andb_true_iff, negb_true_iff. tauto. Qed.

Lemma plain_not_dotdot n : plain n = true → String.eqb n ".." = false.
Proof. unfold plain. rewrite !andb_true_iff, !negb_true_iff. tauto. Qed.

Lemma parse_path_plain n : plain n = true → parse_path n = mkPath false [n].
Proof.
  intros Hp. pose proof Hp as Hp'. unfold plain in Hp'.
  rewrite !andb_true_iff, !negb_true_iff in Hp'.
  destruct Hp' as [[[Hs He] Hd] _].
  unfold parse_path. rewrite (split_no_sep _ _ Hs). cbn [List.filter].
  unfold keep_part. rewrite He, Hd. cbn. f_equal.
  destruct n as [|a n]; [done|]. rewrite prefix_char.
  rewrite contains_char_cons in Hs. by apply orb_false_elim in Hs as [-> _].
Qed.

Lemma joinpath_plain p n : plain n = true → p </> n = child p n.
Proof. intros Hp. unfold joinpath. by rewrite (parse_path_plain _ Hp). Qed.

Lemma joinpath_empty p : p </> "" = p.
Proof. destruct p. unfold joinpath. cbn. by rewrite app_nil_r. Qed.

(** ** Running actions *)

#[global] Arguments resolve : simpl never.
#[global] Arguments entries : simpl never.

Lemma bind_ret {A B} (m : M A) (k : A → M B) w a w' :
  m w = (Ret a, w') → (m ≫= k) w = k a w'.
Proof. unfold mbind, M_bind. by intros ->. Qed.

Lemma bind_raise {A B} (m : M A) (k : A → M B) w e w' :
  m w = (Raise e, w') → (m ≫= k) w = (Raise e, w').
Proof. unfold mbind, M_bind. by intros ->. Qed.

Lemma is_dir_exists t p : is_dir t p = true → path_exists t p = true.
Proof. unfold is_dir, path_exists. by destruct (resolve t true p). Qed.

Lemma is_dir_not_file t p : is_dir t p = true → is_file t p = false.
Proof.
  unfold is_dir, is_file. by destruct (resolve t true p) as [? []| |].
Qed.

Lemma read_file_is_file t p c : read_file t p = inr c → is_file t p = true.
Proof.
  unfold read_file, is_file. by destruct (resolve t true p) as [? []| |].
Qed.

Lemma is_file_exists t p : is_file t p = true → path_exists t p = true.
Proof.
  unfold is_file, path_exists. by destruct (resolve t true p).
Qed.

Lemma read_file_failed t p e :
  read_file t p = inl e → path_exists t p && is_file t p = false.
Proof.
  unfold read_file, is_file, path_exists.
  by destruct (resolve t true p) as [? []| |].
Qed.

Lemma not_exists_read_file t p :
  path_exists t p = false → ∃ e, read_file t p = inl e.
Proof.
  unfold read_file, path_exists.
  destruct (resolve t true p) as [? []| |]; naive_solver.
Qed.

Section EngineFacts.
Context `{Runtime}.
Variable self : FSDB.

Lemma _safe_name_safe n w : safe n = true → _safe_name n w = (Ret (), w).
Proof. unfold _safe_name, safe. intros ->%negb_true_iff. done. Qed.

Lemma _safe_name_unsafe n w :
  safe n = false →
  _safe_name n w = (Raise (ValueError ("Unsafe key: " +:+ n)), w).
Proof. unfold _safe_name, safe. intros ->%negb_false_iff. done. Qed.

Lemma _target_f_table table w :
  safe table = true →
  _target_f self table None w = (Ret (root self </> table), w).
Proof.
  intros Ht. unfold _target_f.
  by rewrite (bind_ret _ _ _ _ _ (_safe_name_safe _ w Ht)).
Qed.

Lemma _target_f_record table n w :
  safe table = true → safe n = true →
  _target_f self table (Some n) w = (Ret (root self </> table </> n), w).
Proof.
  intros Ht Hn. unfold _target_f.
  rewrite (bind_ret _ _ _ _ _ (_safe_name_safe _ w Ht)).
  destruct (String.eqb_spec n "") as [->|_].
  - by rewrite joinpath_empty.
  - by rewrite (bind_ret _ _ _ _ _ (_safe_name_safe _ w Hn)).
Qed.

Lemma _target_f_unsafe_table table name w :
  safe table = false →
  _target_f self table name w
  = (Raise (ValueError ("Unsafe key: " +:+ table)), w).
Proof.
  intros Ht. unfold _target_f.
  by rewrite (bind_raise _ _ _ _ _ (_safe_name_unsafe _ w Ht)).
Qed.

Lemma _target_f_unsafe_name table n w :
  safe table = true → safe n = false →
  _target_f self table (Some n) w
  = (Raise (ValueError ("Unsafe key: " +:+ n)), w).
Proof.
  intros Ht Hn. unfold _target_f.
  rewrite (bind_ret _ _ _ _ _ (_safe_name_safe _ w Ht)).
  destruct (String.eqb_spec n "") as [->|_]; [done|].
  by rewrite (bind_raise _ _ _ _ _ (_safe_name_unsafe _ w Hn)).
Qed.

(** [get] reads and never writes: on safe names it is this function of
    the tree. *)
Lemma get_eq table pk w :
  safe table = true → safe pk = true →
  get self table pk w
  = (Ret (match read_file (files w) (root self </> table </> pk) with
          | inr c => json_loads c
          | inl _ => None
          end), w).
Proof.
  intros Ht Hp. unfold get.
  rewrite (bind_ret _ _ _ _ _ (_target_f_record _ _ w Ht Hp)).
  unfold mbind, M_bind, ask. cbn.
  destruct (read_file _ _) as [e|c] eqn:Hr.
  - by rewrite (read_file_failed _ _ _ Hr).
  - rewrite (read_file_is_file _ _ _ Hr).
    rewrite (is_file_exists _ _ (read_file_is_file _ _ _ Hr)). cbn.
    by rewrite Hr.
Qed.

End EngineFacts.

(** ** Which exceptions an action can raise *)

Section RaisesOnly.
Context (P : exn → Prop).

Lemma raises_only_ret {A} (a : A) : raises_only P (mret a).
Proof. by intros w e w' [=]. Qed.

Lemma raises_only_raise {A} e : P e → raises_only P (@raise A e).
Proof. by intros He w e' w' [= <- _]. Qed.

Lemma raises_only_bind {A B} (m : M A) (k : A → M B) :
  raises_only P m → (∀ a, raises_only P (k a)) → raises_only P (m ≫= k).
Proof.
  intros Hm Hk w e w'. unfold mbind, M_bind.
  destruct (m w) as [[a|e0] w0] eqn:Hmw.
  - apply Hk.
  - intros [= <- <-]. by eapply Hm.
Qed.

Lemma raises_only_ask {A} (f : tree → A) : raises_only P (ask f).
Proof. by intros w e w' [=]. Qed.


Lemma raises_only_for_each {A} (xs : list A) body :
  (∀ x, raises_only P (body x)) → raises_only P (for_each xs body).
Proof.
  intros Hb. induction xs as [|x xs IH]; cbn [for_each].
  - apply raises_only_ret.
  - apply raises_only_bind; [apply Hb|]. by intros _.
Qed.

Hypothesis os_errors : ∀ e, P (OSError e).

Lemma raises_only_syscall f : raises_only P (syscall f).
Proof.
  intros w e w'. unfold syscall. destruct (f (files w)); [|done].
  by intros [= <- _].
Qed.

Lemma raises_only_query {A} (f : tree → errno + A) : raises_only P (query f).
Proof.
  intros w e w'. unfold query. destruct (f (files w)); [|done].
  by intros [= <- _].
Qed.

Lemma raises_only_unlink_missing_ok p : raises_only P (unlink_missing_ok p).
Proof.
  intros w e w'. unfold unlink_missing_ok.
  destruct (os_unlink (files w) p) as [[]|]; by intros [= <- _].
Qed.

Lemma raises_only_mkdir_exist_ok p : raises_only P (mkdir_exist_ok p).
Proof.
  intros w e w'. unfold mkdir_exist_ok.
  destruct (os_mkdir (files w) p) as [[]|]; try destruct (is_dir _ _);
    by intros [= <- _].
Qed.

End RaisesOnly.

Create HintDb quiet discriminated.

Section NoAlreadyExists.
Context `{Runtime}.
Variable self : FSDB.

Local Ltac quiet :=
  repeat first
    [ solve [auto with quiet nocore]
    | apply raises_only_ret
    | apply raises_only_ask
    | apply raises_only_syscall; [done]
    | apply raises_only_query; [done]
    | apply raises_only_unlink_missing_ok; [done]
    | apply raises_only_raise; [done]
    | apply raises_only_bind; [|intros ?]
    | apply raises_only_for_each; intros ?
    | progress case_match ].

Lemma quiet_safe_name n : raises_only not_already_exists (_safe_name n).
Proof. unfold _safe_name. quiet. Qed.
Hint Resolve quiet_safe_name : quiet.

Lemma quiet_target_f table name :
  raises_only not_already_exists (_target_f self table name).
Proof. unfold _target_f. quiet. Qed.
Hint Resolve quiet_target_f : quiet.

Lemma quiet_glob dir pat : raises_only not_already_exists (glob dir pat).
Proof. unfold glob. quiet. Qed.
Hint Resolve quiet_glob : quiet.

Lemma quiet_shutil_move src dst :
  raises_only not_already_exists (shutil_move src dst).
Proof. unfold shutil_move. quiet. Qed.
Hint Resolve quiet_shutil_move : quiet.

Lemma quiet_index table pk field v :
  raises_only not_already_exists (_index self table pk field v).
Proof. unfold _index. quiet. Qed.
Hint Resolve quiet_index : quiet.



End NoAlreadyExists.

(** ** Record store: get and insert *)

(** A resolution fails with one of the errors that [pathlib] reads as
    "no such file": a missing name, a file on the way, too many links. *)
Lemma walk_fail t f cur ps e :
  walk t f cur ps = Stop (Fail e) → e = ENOENT ∨ e = ENOTDIR.
Proof.
  revert cur. induction ps as [|p rest IH]; intros cur; cbn [walk]; [done|].
  destruct (String.eqb p ".."); [apply IH|].
  destruct (t !! (cur ++ [p])) as [[c| |tg]|].
  - destruct rest; [done|]. intros [= <-]. by right.
  - apply IH.
  - by destruct rest, f.
  - destruct rest; [done|]. intros [= <-]. by left.
Qed.

Lemma resolve_from_fail n t f cur ps e :
  resolve_from n t f cur ps = Fail e →
  e = ENOENT ∨ e = ENOTDIR ∨ e = ELOOP.
Proof.
  revert cur ps. induction n as [|n IH]; intros cur ps; cbn [resolve_from];
    destruct (walk t f cur ps) as [r|cur' tg rest] eqn:Hw.
  - intros ->. apply walk_fail in Hw. tauto.
  - intros [= <-]. tauto.
  - intros ->. apply walk_fail in Hw. tauto.
  - apply IH.
Qed.

Lemma resolve_fail t f p e :
  resolve t f p = Fail e → e = ENOENT ∨ e = ENOTDIR ∨ e = ELOOP.
Proof. apply resolve_from_fail. Qed.

Section RecordStore.
Context `{Runtime}.
Variable self : FSDB.

(** C7, amended: on a table and a key that pass the path guard, [get]
    returns the parsed document when the record file can be read and
    parses; it returns [None], never an exception, when nothing exists at
    the path, when what is there cannot be read as a file, or when the
    content does not parse; the three cases give the caller the same
    result, and the tree is left as it was.  The resolution of the path
    fails only with an error that [pathlib] reads as a missing file.  On a
    table name, or a key, that does not pass the guard, [get] raises the
    ValueError of the guard instead. *)
Theorem get_parsed_or_absent (table pk : string) (w : world) :
  let p := root self </> table </> pk in
  (safe table = true → safe pk = true →
   (∀ c d, read_file (files w) p = inr c → json_loads c = Some d →
      get self table pk w = (Ret (Some d), w))
   ∧ (path_exists (files w) p = false → get self table pk w = (Ret None, w))
   ∧ (∀ e, read_file (files w) p = inl e →
        get self table pk w = (Ret None, w))
   ∧ (∀ c, read_file (files w) p = inr c → json_loads c = None →
        get self table pk w = (Ret None, w))
   ∧ (∃ r, get self table pk w = (Ret r, w)))
  ∧ (∀ e, resolve (files w) true p = Fail e →
       e = ENOENT ∨ e = ENOTDIR ∨ e = ELOOP)
  ∧ (safe table = false →
     get self table pk w
     = (Raise (ValueError ("Unsafe key: " +:+ table)), w))
  ∧ (safe table = true → safe pk = false →
     get self table pk w = (Raise (ValueError ("Unsafe key: " +:+ pk)), w)).
Proof.
  intros p. split_and!.
  - intros Ht Hp. rewrite (get_eq _ _ _ _ Ht Hp). fold p.
    repeat split.
    + by intros c d -> ->.
    + by intros [e ->]%not_exists_read_file.
    + by intros e ->.
    + by intros c -> ->.
    + eauto.
  - intros e. apply resolve_fail.
  - intros Ht. unfold get.
    by rewrite (bind_raise _ _ _ _ _ (_target_f_unsafe_table self _ _ w Ht)).
  - intros Ht Hp. unfold get.
    by rewrite (bind_raise _ _ _ _ _
                  (_target_f_unsafe_name self _ _ w Ht Hp)).
Qed.

(** C9: in a table that passes the path guard and is a directory, the
    empty key is not validated and denotes the table directory itself:
    [insert] raises its FileExistsError and changes nothing, and [get]
    returns [None]. *)
Theorem empty_key_is_table_directory (table : string) (data : document)
    (w : world) :
  safe table = true → is_dir (files w) (root self </> table) = true →
  _target_f self table (Some "") w = (Ret (root self </> table), w)
  ∧ insert self table "" data w
    = (Raise (FileExistsError
                ("Record " +:+ "" +:+ " already exists in " +:+ table)), w)
  ∧ get self table "" w = (Ret None, w).
Proof.
  intros Ht Hd.
  assert (_target_f self table (Some "") w = (Ret (root self </> table), w))
    as Htf.
  { unfold _target_f.
    by rewrite (bind_ret _ _ _ _ _ (_safe_name_safe _ w Ht)). }
  split; [done|split].
  - unfold insert. rewrite (bind_ret _ _ _ _ _ Htf).
    unfold mbind, M_bind, ask. cbn. by rewrite (is_dir_exists _ _ Hd).
  - unfold get. rewrite (bind_ret _ _ _ _ _ Htf).
    unfold mbind, M_bind, ask. cbn.
    by rewrite (is_dir_not_file _ _ Hd), andb_false_r.
Qed.

End RecordStore.

(** ** Directory listings *)

Lemma elem_of_bool_filter {A} (f : A → bool) (xs : list A) x :
  x ∈ List.filter f xs ↔ x ∈ xs ∧ f x = true.
Proof. rewrite !list_elem_of_In. apply filter_In. Qed.

Lemma NoDup_bool_filter {A} (f : A → bool) (xs : list A) :
  NoDup xs → NoDup (List.filter f xs).
Proof. rewrite !NoDup_ListNoDup. apply List.NoDup_filter. Qed.

Lemma entry_of_Some l k n : entry_of l k = Some n ↔ k = l ++ [n].
Proof.
  unfold entry_of. split.
  - destruct (reverse k) as [|m r] eqn:Hk; [done|].
    case_decide as Hr; [|done]. intros [= ->].
    rewrite <-Hr, <-reverse_cons, <-Hk. by rewrite reverse_involutive.
  - intros ->. rewrite reverse_app, reverse_singleton.
    cbn [app]. by rewrite decide_True by apply reverse_involutive.
Qed.

Lemma NoDup_omap_inj {A B} (f : A → option B) (xs : list A) :
  (∀ x x' y, f x = Some y → f x' = Some y → x = x') →
  NoDup xs → NoDup (omap f xs).
Proof.
  intros Hinj. induction 1 as [|x xs Hx Hnd IH]; cbn; [constructor|].
  destruct (f x) as [y|] eqn:Hfx; [|done].
  constructor; [|done].
  intros (x' & Hx' & Hfx')%list_elem_of_omap.
  by rewrite (Hinj _ _ _ Hfx Hfx') in Hx.
Qed.

Lemma elem_of_entries (t : tree) l n :
  n ∈ entries t l ↔ is_Some (t !! (l ++ [n])).
Proof.
  unfold entries. rewrite list_elem_of_omap. split.
  - intros (k & Hk & ->%entry_of_Some).
    apply list_elem_of_fmap in Hk as ([k' nd] & -> & Hin).
    apply elem_of_map_to_list in Hin. by exists nd.
  - intros [nd Hnd]. exists (l ++ [n]). split; [|by apply entry_of_Some].
    apply list_elem_of_fmap. exists (l ++ [n], nd).
    split; [done|]. by apply elem_of_map_to_list.
Qed.

Lemma NoDup_entries (t : tree) l : NoDup (entries t l).
Proof.
  apply NoDup_omap_inj; [|apply NoDup_fst_map_to_list].
  intros k k' n ->%entry_of_Some ->%entry_of_Some. done.
Qed.

Section Listing.
Context `{Runtime}.
Variable self : FSDB.

(** C10: [lspk] raises its FileNotFoundError, and returns no list, when
    nothing exists at the path of the table; when that path is a directory
    it returns, each once, the names of the entries of the directory that
    are files and hold no colon. *)
Theorem lspk_missing_or_names (table : string) (w : world) :
  (path_exists (files w) (root self </> table) = false →
     lspk self table w
     = (Raise (FileNotFoundError ("Table " +:+ table +:+ " not found")), w))
  ∧ (∀ l, resolve (files w) true (root self </> table) = Found l Dir →
       ∃ ns, lspk self table w = (Ret ns, w) ∧ NoDup ns ∧
         ∀ n, n ∈ ns ↔
              is_Some (files w !! (l ++ [n]))
              ∧ is_file (files w) (child (root self </> table) n) = true
              ∧ Py.contains ":" n = false).
Proof.
  split.
  - intros Hx. unfold lspk, mbind, M_bind, ask. cbn. by rewrite Hx.
  - intros l Hl. eexists. split; [|split].
    + unfold lspk, mbind, M_bind, ask, query, os_listdir, path_exists.
      cbn. rewrite Hl. cbn. rewrite Hl. reflexivity.
    + apply NoDup_bool_filter, NoDup_entries.
    + intros n. rewrite elem_of_bool_filter, elem_of_entries.
      rewrite andb_true_iff, negb_true_iff. tauto.
Qed.

End Listing.

(** ** Resolution through real directories *)

Lemma prefix_snoc_inv {A} (q l : list A) n :
  q `prefix_of` l ++ [n] → q = l ++ [n] ∨ q `prefix_of` l.
Proof.
  intros [k Hk]. destruct k as [|x k _] using rev_ind.
  - left. by rewrite app_nil_r in Hk.
  - right. rewrite app_assoc in Hk. apply app_inj_tail in Hk as [-> _].
    by exists k.
Qed.

Lemma real_dir_nil t : real_dir t [].
Proof.
  split; [constructor|]. intros q Hq [k Hk].
  symmetry in Hk. by apply app_eq_nil in Hk as [-> _].
Qed.

Lemma real_dir_snoc t l n :
  real_dir t l → String.eqb n ".." = false → t !! (l ++ [n]) = Some Dir →
  real_dir t (l ++ [n]).
Proof.
  intros [Hf Hd] Hn Hl. split.
  - apply Forall_app. split; [done|]. by constructor.
  - intros q Hq Hpre. apply prefix_snoc_inv in Hpre as [->|Hpre]; [done|].
    by apply Hd.
Qed.

Lemma real_dir_lookup t l : real_dir t l → l ≠ [] → t !! l = Some Dir.
Proof. intros [_ Hd] Hl. by apply Hd. Qed.

Lemma real_dir_node_at t l : real_dir t l → node_at t l = Some Dir.
Proof.
  intros Hr. destruct l as [|a l]; [done|]. by apply real_dir_lookup.
Qed.

Lemma walk_real_dir t f cur l rest :
  Forall (λ n, String.eqb n ".." = false) l →
  (∀ q, q ≠ [] → q `prefix_of` l → t !! (cur ++ q) = Some Dir) →
  walk t f cur (l ++ rest) = walk t f (cur ++ l) rest.
Proof.
  revert cur. induction l as [|n l IH]; intros cur Hf Hd.
  - by rewrite app_nil_r.
  - apply Forall_cons in Hf as [Hn Hf]. cbn [app walk]. rewrite Hn.
    rewrite (Hd [n]); [|done|by apply prefix_cons, prefix_nil].
    rewrite IH; [by rewrite <-app_assoc|done|].
    intros q Hq Hpre. rewrite <-app_assoc. apply Hd; [done|].
    by apply prefix_cons.
Qed.

Lemma walk_into_real_dir t f l rest :
  real_dir t l → walk t f [] (l ++ rest) = walk t f l rest.
Proof. intros [Hf Hd]. by apply (walk_real_dir t f [] l rest). Qed.

Lemma resolve_real_dir t f p :
  real_dir t (parts p) → resolve t f p = Found (parts p) Dir.
Proof.
  intros Hr. unfold resolve, MAXSYMLINKS. cbn [resolve_from].
  rewrite <-(app_nil_r (parts p)) at 1.
  by rewrite (walk_into_real_dir _ _ _ _ Hr).
Qed.

(** The entry [n] of a real directory. *)
Lemma resolve_child t f p n :
  real_dir t (parts p) → String.eqb n ".." = false →
  resolve t f (child p n) =
    match t !! (parts p ++ [n]) with
    | None => Vacant (parts p ++ [n])
    | Some (Symlink tg) =>
        if f then
          resolve_from (pred MAXSYMLINKS) t true
            (if anchored tg then [] else parts p) (parts tg ++ [])
        else Found (parts p ++ [n]) (Symlink tg)
    | Some nd => Found (parts p ++ [n]) nd
    end.
Proof.
  intros Hr Hn. unfold resolve, MAXSYMLINKS. cbn [resolve_from parts child].
  rewrite (walk_into_real_dir _ _ _ _ Hr). cbn [walk]. rewrite Hn.
  destruct (t !! (parts p ++ [n])) as [[c| |tg]|]; try done.
  by destruct f.
Qed.

(** A link [../k] met in the real directory [l ++ [d]] leads to the entry
    [k] of [l]. *)
Lemma resolve_from_up t n l d k :
  String.eqb k ".." = false →
  resolve_from n t true (l ++ [d]) ([".."; k] ++ []) =
    match t !! (l ++ [k]) with
    | None => Vacant (l ++ [k])
    | Some (Symlink tg) =>
        match n with
        | O => Fail ELOOP
        | S n' =>
            resolve_from n' t true (if anchored tg then [] else l)
              (parts tg ++ [])
        end
    | Some nd => Found (l ++ [k]) nd
    end.
Proof.
  intros Hk. destruct n; cbn [resolve_from walk app]; cbn [String.eqb];
    unfold parent; rewrite removelast_last, Hk;
    by destruct (t !! (l ++ [k])) as [[c| |tg]|].
Qed.

Lemma real_dir_insert t l k nd :
  real_dir t l → ¬ k `prefix_of` l → real_dir (<[k := nd]> t) l.
Proof.
  intros [Hf Hd] Hk. split; [done|]. intros q Hq Hpre.
  rewrite lookup_insert_ne; [by apply Hd|]. by intros ->.
Qed.

Lemma real_dir_delete t l k :
  real_dir t l → ¬ k `prefix_of` l → real_dir (base.delete k t) l.
Proof.
  intros [Hf Hd] Hk. split; [done|]. intros q Hq Hpre.
  rewrite lookup_delete_ne; [by apply Hd|]. by intros ->.
Qed.

(** A location that holds no directory is not on the way to a real one. *)
Lemma real_dir_not_prefix t l k :
  real_dir t l → k ≠ [] → t !! k ≠ Some Dir → ¬ k `prefix_of` l.
Proof. intros [_ Hd] Hk Hn Hpre. by apply Hn, Hd. Qed.

Lemma string_length_app (a b : string) :
  String.length (a +:+ b) = String.length a + String.length b.
Proof.
  induction a as [|c a IH]; [done|].
  change (String c a +:+ b) with (String c (a +:+ b)).
  cbn [String.length]. by rewrite IH.
Qed.

Lemma try_except_ret {A} (m : M A) h w a w' :
  m w = (Ret a, w') → try_except m h w = (Ret a, w').
Proof. unfold try_except. by intros ->. Qed.

Lemma tmp_name_plain `{Runtime} table pk n :
  Py.contains "/" table = false → Py.contains "/" pk = false →
  Py.contains "/" (uuid1 n) = false → plain (tmp_name table pk n) = true.
Proof.
  intros Ht Hp Hu. unfold plain, tmp_name.
  rewrite !contains_char_app, Ht, Hp, Hu. cbn [orb negb andb].
  assert (∀ s, Py.contains "-" s = false →
               Py.contains "-" (table +:+ "-" +:+ pk +:+ "-" +:+ uuid1 n)
               = true → (table +:+ "-" +:+ pk +:+ "-" +:+ uuid1 n) ≠ s)
    as Hne by (intros s Hs Hc Heq; rewrite Heq in Hc; congruence).
  assert (Py.contains "-" (table +:+ "-" +:+ pk +:+ "-" +:+ uuid1 n) = true)
    as Hc.
  { rewrite !contains_char_app. cbn. by rewrite orb_true_r. }
  rewrite !andb_true_iff, !negb_true_iff, !String.eqb_neq.
  repeat split; by apply Hne.
Qed.

Lemma tmp_name_not_key `{Runtime} table pk n : tmp_name table pk n ≠ pk.
Proof.
  intros Heq. apply (f_equal String.length) in Heq.
  unfold tmp_name in Heq. rewrite !string_length_app in Heq. cbn in Heq. lia.
Qed.

Section WriteFacts.
Context `{Runtime}.
Variable self : FSDB.

Let R := parts (root self).
Let W := parts (workdir self).

Lemma _write_ok table pk data w :
  safe table = true → plain table = true →
  safe pk = true → plain pk = true →
  real_dir (files w) R → files w !! (R ++ [table]) = Some Dir →
  (files w !! (R ++ [table; pk]) = None
   ∨ ∃ c, files w !! (R ++ [table; pk]) = Some (File c)) →
  real_dir (files w) W →
  Py.contains "/" (uuid1 (clock w)) = false →
  files w !! (W ++ [tmp_name table pk (clock w)]) = None →
  _write self table pk data w
  = (Ret (),
     mkWorld (<[R ++ [table; pk] := File (json_dumps data)]> (files w))
             (S (clock w))).
Proof.
  destruct w as [t n]. cbn [files clock].
  intros Hst Hpt Hsp Hpp HR HT Hrec HW Hu Htmp.
  set (tn := tmp_name table pk n) in *.
  assert (plain tn = true) as Hptn
    by (apply tmp_name_plain; auto using safe_no_slash).
  assert (real_dir t (R ++ [table])) as HRT
    by (apply real_dir_snoc; auto using plain_not_dotdot).
  unfold _write.
  erewrite bind_ret; [|by apply _target_f_table].
  rewrite (joinpath_plain _ _ Hpt).
  erewrite bind_ret; [|reflexivity]. cbn [files].
  assert (path_exists t (child (root self) table) = true) as ->.
  { unfold path_exists. rewrite resolve_child by auto using plain_not_dotdot.
    fold R. by rewrite HT. }
  cbn [negb].
  erewrite bind_ret; [|by apply _target_f_record].
  rewrite (joinpath_plain _ _ Hpt), (joinpath_plain _ _ Hpp).
  erewrite bind_ret; [|reflexivity]. cbn [files clock].
  fold (tmp_name table pk n). fold tn.
  rewrite (joinpath_plain _ _ Hptn).
  set (c := json_dumps data).
  set (t1 := <[W ++ [tn] := File c]> t).
  assert (W ++ [tn] ≠ R ++ [table; pk]) as Hne.
  { intros Heq. change [table; pk] with ([table] ++ [pk]) in Heq.
    rewrite app_assoc in Heq. apply app_inj_tail in Heq as [_ Heq].
    by apply tmp_name_not_key in Heq. }
  assert (real_dir t1 (R ++ [table])) as HRT1.
  { apply real_dir_insert; [done|].
    apply (real_dir_not_prefix t); [done| |by rewrite Htmp].
    by destruct W. }
  assert (real_dir t1 W) as HW1.
  { apply real_dir_insert; [done|]. apply prefix_snoc_not. }
  assert (t1 !! (R ++ [table; pk]) = t !! (R ++ [table; pk])) as Hrec1
    by (by apply lookup_insert_ne).
  apply try_except_ret.
  erewrite bind_ret; cycle 1.
  { unfold syscall, write_file. cbn [files].
    rewrite resolve_child by auto using plain_not_dotdot.
    fold W. rewrite Htmp. reflexivity. }
  fold c t1. unfold shutil_move.
  assert (resolve t1 false
            (child (child (root self) table) pk)
          = match t !! (R ++ [table; pk]) with
            | None => Vacant (R ++ [table; pk])
            | Some nd => Found (R ++ [table; pk]) nd
            end) as Hdst.
  { rewrite resolve_child by auto using plain_not_dotdot.
    cbn [parts child]. fold R. rewrite <-app_assoc. cbn [app].
    rewrite Hrec1. by destruct Hrec as [->|[? ->]]. }
  erewrite bind_ret; cycle 1.
  { unfold ask. cbn [files]. reflexivity. }
  cbv beta. cbn [files clock]. fold t1. 
  assert (is_dir t1 (child (child (root self) table) pk) = false) as ->.
  { unfold is_dir. rewrite resolve_child by auto using plain_not_dotdot.
    cbn [parts child]. fold R. rewrite <-app_assoc. cbn [app].
    rewrite Hrec1. by destruct Hrec as [->|[? ->]]. }
  unfold syscall, os_rename. cbn [files clock]. fold t1.
  rewrite (resolve_child t1 false (workdir self) tn)
    by auto using plain_not_dotdot.
  fold W. unfold t1 at 1. rewrite lookup_insert_eq.
  rewrite Hdst.
  assert (base.delete (W ++ [tn]) t1 = t) as Hdel.
  { unfold t1. rewrite delete_insert_eq. by apply delete_id. }
  destruct Hrec as [Hrec|[c' Hrec]]; rewrite Hrec;
    rewrite decide_False by done; by rewrite Hdel.
Qed.

End WriteFacts.

(** ** Wildcards and partition *)

Lemma fnmatch_star p s :
  fnmatch (String "*" p) s
  = fnmatch p s
    || match s with
       | EmptyString => false
       | String _ s' => fnmatch (String "*" p) s'
       end.
Proof. by destruct s. Qed.

Lemma fnmatch_all s : fnmatch "*" s = true.
Proof.
  induction s as [|a s IH]; [done|]. rewrite fnmatch_star, IH.
  apply orb_true_r.
Qed.

Lemma fnmatch_at_star s : fnmatch "@*" s = String.prefix "@" s.
Proof.
  destruct s as [|a s]; [done|]. rewrite prefix_char.
  change (fnmatch "@*" (String a s)) with (Ascii.eqb a "@" && fnmatch "*" s).
  by rewrite fnmatch_all, andb_true_r.
Qed.

Lemma fnmatch_star_colon_star s : fnmatch "*:*" s = Py.contains ":" s.
Proof.
  induction s as [|a s IH]; [done|].
  rewrite fnmatch_star, IH, contains_char_cons.
  change (fnmatch ":*" (String a s)) with (Ascii.eqb a ":" && fnmatch "*" s).
  by rewrite fnmatch_all, andb_true_r.
Qed.



Lemma partition_join sep a b :
  Py.contains (String sep "") a = false →
  Py.partition sep (a +:+ String sep b) = (a, String sep "", b).
Proof.
  induction a as [|c a IH].
  - intros _. change ("" +:+ String sep b) with (String sep b).
    cbn [Py.partition]. by rewrite Ascii.eqb_refl.
  - rewrite contains_char_cons. intros [Hc Ha]%orb_false_elim.
    change (String c a +:+ String sep b) with (String c (a +:+ String sep b)).
    cbn [Py.partition]. by rewrite Hc, (IH Ha).
Qed.

Lemma path_name_child p n : path_name (child p n) = n.
Proof. unfold path_name. cbn. apply last_last. Qed.
(** ** glob, loops and scan *)

Lemma glob_eq dir pat w :
  one_segment pat = true →
  glob dir pat w
  = (Ret (if is_dir (files w) dir then
            match os_listdir (files w) dir with
            | inr ns => child dir <$> List.filter (fnmatch pat) ns
            | inl _ => []
            end
          else []), w).
Proof.
  unfold one_segment, glob.
  intros [->%negb_true_iff ->%negb_true_iff]%andb_true_iff. done.
Qed.

Lemma glob_dir dir pat w l :
  one_segment pat = true →
  resolve (files w) true dir = Found l Dir →
  glob dir pat w
  = (Ret (child dir <$> List.filter (fnmatch pat) (entries (files w) l)), w).
Proof.
  intros Hp Hl. rewrite (glob_eq _ _ _ Hp).
  unfold is_dir, os_listdir. by rewrite Hl.
Qed.

Lemma for_each_skip {A} (xs : list A) body w :
  (∀ x, x ∈ xs → body x w = (Ret (), w)) → for_each xs body w = (Ret (), w).
Proof.
  induction xs as [|x xs IH]; intros Hb; [done|]. cbn [for_each].
  erewrite bind_ret; [|apply Hb; by left].
  apply IH. intros y Hy. apply Hb. by right.
Qed.


Section ScanFacts.
Context `{Runtime}.
Variable self : FSDB.


(** [scan] never yields a name that holds a colon. *)
Lemma scan_no_colon table pat w r w' :
  scan self table pat w = (Ret r, w') →
  ∀ pk d, (pk, d) ∈ r → Py.contains ":" pk = false.
Proof.
  unfold scan, mbind, M_bind, ask.
  destruct (_target_f self table None w) as [[dir|?] w1]; [|done].
  destruct (glob dir pat w1) as [[ps|?] w2]; [|done].
  intros [= <- _] pk d (p & _ & Hp)%list_elem_of_omap.
  destruct (is_file (files w2) p); [|done]. cbn [negb] in Hp.
  destruct (Py.contains ":" (path_name p)) eqn:Hc; [done|].
  destruct (read_file (files w2) p) as [|c]; [done|].
  destruct (json_loads c); [|done]. by injection Hp as <- _.
Qed.

End ScanFacts.

(** ** Links *)

Lemma contains_dotdot_colon a b :
  Py.contains ".." a = false → Py.contains ".." b = false →
  Py.contains ".." (a +:+ ":" +:+ b) = false.
Proof.
  intros Ha Hb. induction a as [|c a IH].
  - change ("" +:+ ":" +:+ b) with (String ":" b).
    cbn [Py.contains]. by rewrite Hb.
  - change (String c a +:+ ":" +:+ b) with (String c (a +:+ ":" +:+ b)).
    cbn [Py.contains] in *. apply orb_false_elim in Ha as [Hp Ha].
    rewrite (IH Ha), orb_false_r.
    cbn [String.prefix] in *. destruct (Ascii.ascii_dec "." c); [|done].
    destruct a as [|d a].
    { change ("" +:+ ":" +:+ b) with (String ":" b).
      by destruct (Ascii.ascii_dec "." ":"). }
    change (String d a +:+ ":" +:+ b) with (String d (a +:+ ":" +:+ b)).
    by rewrite prefix_char in Hp |- *.
Qed.

Lemma safe_link_key a b :
  safe a = true → safe b = true → safe (a +:+ ":" +:+ b) = true.
Proof.
  unfold safe. cbn [existsb]. rewrite !negb_true_iff, !orb_false_r.
  intros [Ha1 [Ha2 Ha3]%orb_false_elim]%orb_false_elim.
  intros [Hb1 [Hb2 Hb3]%orb_false_elim]%orb_false_elim.
  rewrite (contains_dotdot_colon _ _ Ha1 Hb1).
  rewrite !contains_char_app, Ha2, Ha3, Hb2, Hb3. done.
Qed.

Lemma plain_link_key a b :
  Py.contains "/" a = false → Py.contains "/" b = false →
  plain (a +:+ ":" +:+ b) = true.
Proof.
  intros Ha Hb. unfold plain. rewrite !contains_char_app, Ha, Hb.
  cbn [orb negb andb].
  assert (Py.contains ":" (a +:+ ":" +:+ b) = true) as Hc.
  { rewrite !contains_char_app. cbn. by rewrite orb_true_r. }
  rewrite !andb_true_iff, !negb_true_iff, !String.eqb_neq.
  repeat split; intros Heq; by rewrite Heq in Hc.
Qed.

Lemma snoc2 {A} (l : list A) a b : (l ++ [a]) ++ [b] = l ++ [a; b].
Proof. by rewrite <-app_assoc. Qed.

Section Links.
Context `{Runtime}.
Variable self : FSDB.

Let R := parts (root self).
Let W := parts (workdir self).


End Links.

(** ** Records that hold the empty document *)

Section EmptyDocument.
Context `{Runtime}.
Variable self : FSDB.

(** C3: where the record file of a key exists, is read and parses to the
    empty document, [delete] returns [False] and removes nothing: the test
    [if not current] takes the empty [dict] for a missing record.  The
    claim asks for the file to be removed and [True] returned. *)
Theorem delete_keeps_empty_document (table pk : string) (c : string)
    (w : world) :
  safe table = true → safe pk = true →
  read_file (files w) (root self </> table </> pk) = inr c →
  json_loads c = Some ∅ →
  get self table pk w = (Ret (Some ∅), w)
  ∧ delete self table pk w = (Ret false, w)
  ∧ is_file (files w) (root self </> table </> pk) = true.
Proof.
  intros Ht Hp Hr Hc.
  assert (get self table pk w = (Ret (Some ∅), w)) as Hget
    by (by rewrite get_eq, Hr, Hc).
  split; [done|split].
  - unfold delete. by rewrite (bind_ret _ _ _ _ _ Hget).
  - by eapply read_file_is_file.
Qed.

(** C4: where the record file of a key exists, is read and parses to the
    empty document, [update] raises its FileNotFoundError and writes
    nothing, though a record exists at the key. *)
Theorem update_rejects_empty_document (table pk : string) (c : string)
    (data : document) (w : world) :
  safe table = true → safe pk = true →
  read_file (files w) (root self </> table </> pk) = inr c →
  json_loads c = Some ∅ →
  update self table pk data w
  = (Raise (FileNotFoundError
              ("Record " +:+ pk +:+ " in " +:+ table +:+ " is missing")), w)
  ∧ is_file (files w) (root self </> table </> pk) = true.
Proof.
  intros Ht Hp Hr Hc. split; [|by eapply read_file_is_file].
  assert (get self table pk w = (Ret (Some ∅), w)) as Hget
    by (by rewrite get_eq, Hr, Hc).
  unfold update. by rewrite (bind_ret _ _ _ _ _ Hget).
Qed.

End EmptyDocument.


(** ** Index names and link targets *)

Lemma lstrip_no_prefix c s :
  String.prefix (String c "") s = false → Py.lstrip c s = s.
Proof.
  destruct s as [|a s]; [done|]. rewrite prefix_char. cbn. by intros ->.
Qed.

Lemma index_name_inv i :
  index_name i = true →
  i = "@" +:+ field_of i ∧ safe i = true ∧ plain i = true
  ∧ String.prefix "@" i = true.
Proof.
  destruct i as [|a f]; [done|]. cbn [index_name].
  intros [[->%Ascii.eqb_eq Hf%negb_true_iff]%andb_true_iff Hs]%andb_true_iff.
  split; [|split; [done|split]].
  - unfold field_of. cbn [Py.lstrip]. cbn. by rewrite lstrip_no_prefix.
  - by apply safe_plain.
  - by rewrite prefix_char.
Qed.

Lemma index_name_field f :
  field_ok f = true → field_of ("@" +:+ f) = f.
Proof.
  unfold field_ok. change ("@" +:+ f) with (String "@" f).
  cbn [index_name].
  intros [[_ Hf%negb_true_iff]%andb_true_iff _]%andb_true_iff.
  unfold field_of. cbn [Py.lstrip]. cbn. by apply lstrip_no_prefix.
Qed.

Lemma updir_join k :
  plain k = true → joinpath (parse_path "..") k = mkPath false [".."; k].
Proof. intros Hk. by rewrite (joinpath_plain _ _ Hk). Qed.

Lemma updir_parse k :
  plain k = true → parse_path ("../" +:+ k) = mkPath false [".."; k].
Proof.
  intros Hk. pose proof (parse_path_plain _ Hk) as Hp.
  unfold parse_path in *. injection Hp as _ Hp.
  change ("../" +:+ k) with (String "." (String "." (String "/" k))).
  cbn [Py.split]. change (Ascii.eqb "." "/") with false.
  change (Ascii.eqb "/" "/") with true. cbn iota.
  destruct (Py.split "/" k) as [|w ws] eqn:Hsp.
  - by rewrite (split_no_sep _ _ (plain_no_slash _ Hk)) in Hsp.
  - cbn [List.filter] in *. change (keep_part "..") with true. cbn iota.
    by rewrite Hp.
Qed.

Lemma resolve_grandchild_missing t f p a b :
  real_dir t (parts p) → String.eqb a ".." = false →
  t !! (parts p ++ [a]) = None →
  resolve t f (child (child p a) b) = Fail ENOENT.
Proof.
  intros Hr Ha Hl. unfold resolve, MAXSYMLINKS. cbn [resolve_from parts child].
  rewrite <-app_assoc. rewrite (walk_into_real_dir _ _ _ _ Hr).
  cbn [app walk]. by rewrite Ha, Hl.
Qed.

(** ** The frame of the store *)

Lemma app_not_prefix {A} (r l : list A) : l ≠ [] → ¬ r ++ l `prefix_of` r.
Proof.
  intros Hl Hp%prefix_length. rewrite length_app in Hp.
  destruct l; [done|]. cbn in Hp. lia.
Qed.

Lemma app_eq_snoc_prefix {A} (r l w : list A) n :
  l ≠ [] → r ++ l = w ++ [n] → r `prefix_of` w.
Proof.
  intros Hl Heq. destruct l as [|x l _] using rev_ind; [done|].
  rewrite app_assoc in Heq. apply app_inj_tail in Heq as [<- _].
  by exists l.
Qed.

Section StoreFacts.
Context `{Runtime}.
Variable self : FSDB.

Let R := parts (root self).
Let W := parts (workdir self).

Lemma kind_ok_insert t L nd l nd' :
  kind_ok self t l nd' → (t !! L = Some Dir → nd = Dir) →
  kind_ok self (<[L := nd]> t) l nd'.
Proof.
  intros Hk Hd.
  assert (∀ q, t !! q = Some Dir → <[L := nd]> t !! q = Some Dir) as Hmono.
  { intros q Hq. destruct (decide (L = q)) as [->|Hne].
    - by rewrite lookup_insert_eq, (Hd Hq).
    - by rewrite lookup_insert_ne. }
  destruct l as [|a [|b [|c [|??]]]]; try done; cbn in *.
  - destruct Hk as [Hk ?]. split; [by apply Hmono|done].
  - destruct Hk as [Hk ?]. split; [by apply Hmono|done].
Qed.

Lemma kind_ok_delete t L l nd' :
  kind_ok self t l nd' → t !! L ≠ Some Dir →
  kind_ok self (base.delete L t) l nd'.
Proof.
  intros Hk Hd.
  assert (∀ q, t !! q = Some Dir → base.delete L t !! q = Some Dir) as Hmono.
  { intros q Hq. rewrite lookup_delete_ne; [done|]. by intros ->. }
  destruct l as [|a [|b [|c [|??]]]]; try done; cbn in *.
  - destruct Hk as [Hk ?]. split; [by apply Hmono|done].
  - destruct Hk as [Hk ?]. split; [by apply Hmono|done].
Qed.

Lemma frame_insert t l nd :
  frame_ok self t → l ≠ [] → Forall (λ n, plain n = true) l →
  kind_ok self t l nd →
  (t !! (R ++ l) = Some Dir → nd = Dir) →
  (∀ tb k c d, l = [tb; k] → nd = File c → json_loads c = Some d → tame d) →
  frame_ok self (<[R ++ l := nd]> t).
Proof.
  intros [HR HW Hs Ha Hsh Ht] Hl Hpl Hk Hd Htame. split.
  - apply real_dir_insert; [done|]. by apply app_not_prefix.
  - apply real_dir_insert; [done|]. intros Hp. apply Ha.
    by apply prefix_app_l in Hp.
  - intros n. rewrite lookup_insert_ne; [done|].
    intros Heq. apply Ha. by eapply app_eq_snoc_prefix.
  - done.
  - intros l' nd' Hl'. destruct (decide (l = l')) as [<-|Hne].
    + rewrite lookup_insert_eq. intros [= <-]. split; [done|].
      by apply kind_ok_insert.
    + rewrite lookup_insert_ne by (by intros ?%app_inv_head).
      intros [Hp Hk']%Hsh; [|done]. split; [done|].
      by apply kind_ok_insert.
  - intros tb k d. unfold record_doc. fold R.
    destruct (decide (l = [tb; k])) as [->|Hne].
    + rewrite lookup_insert_eq. destruct nd as [c| |]; try done.
      by eapply Htame.
    + rewrite lookup_insert_ne by (by intros ?%app_inv_head).
      apply Ht.
Qed.

Lemma frame_delete t l :
  frame_ok self t → l ≠ [] → t !! (R ++ l) ≠ Some Dir →
  frame_ok self (base.delete (R ++ l) t).
Proof.
  intros [HR HW Hs Ha Hsh Ht] Hl Hd.
  assert (R ++ l ≠ []) as Hne by (by destruct R, l).
  split.
  - apply real_dir_delete; [done|]. by eapply real_dir_not_prefix.
  - apply real_dir_delete; [done|]. by eapply real_dir_not_prefix.
  - intros n. apply lookup_delete_None. by right.
  - done.
  - intros l' nd' Hl' [Hne' Hl2]%lookup_delete_Some.
    destruct (Hsh _ _ Hl' Hl2) as [Hp Hk]. split; [done|].
    by apply kind_ok_delete.
  - intros tb k d. unfold record_doc. fold R.
    destruct (base.delete (R ++ l) t !! (R ++ [tb; k])) as [nd|] eqn:Hl2;
      [|done].
    apply lookup_delete_Some in Hl2 as [_ Hl2].
    intros Hj. apply (Ht tb k). unfold record_doc. fold R. by rewrite Hl2.
Qed.

Lemma record_doc_insert_other t L nd tb k :
  L ≠ R ++ [tb; k] →
  record_doc self (<[L := nd]> t) tb k = record_doc self t tb k.
Proof. intros Hne. unfold record_doc. fold R. by rewrite lookup_insert_ne. Qed.

Lemma record_doc_delete_other t L tb k :
  L ≠ R ++ [tb; k] →
  record_doc self (base.delete L t) tb k = record_doc self t tb k.
Proof. intros Hne. unfold record_doc. fold R. by rewrite lookup_delete_ne. Qed.

Lemma entry_not_record (a b c tb k : string) : R ++ [a; b; c] ≠ R ++ [tb; k].
Proof. by intros ?%app_inv_head. Qed.

Lemma frame_table t tb :
  frame_ok self t →
  t !! (R ++ [tb]) = None ∨ t !! (R ++ [tb]) = Some Dir.
Proof.
  intros Hf. destruct (t !! (R ++ [tb])) as [nd|] eqn:Hl; [|by left].
  right. by destruct (fr_shape _ _ Hf [tb] nd) as [_ [-> _]].
Qed.


Lemma frame_entry_safe t tb n nd :
  frame_ok self t → t !! (R ++ [tb; n]) = Some nd → safe n = true.
Proof.
  intros Hf Hl. by destruct (fr_shape _ _ Hf [tb; n] nd) as [_ (_ & ? & _)].
Qed.

Lemma frame_table_real t tb :
  frame_ok self t → plain tb = true → t !! (R ++ [tb]) = Some Dir →
  real_dir t (R ++ [tb]).
Proof.
  intros Hf Hp Hl. apply real_dir_snoc; [apply Hf|by apply plain_not_dotdot|done].
Qed.

Lemma frame_entry t tb n nd :
  frame_ok self t → t !! (R ++ [tb; n]) = Some nd →
  t !! (R ++ [tb]) = Some Dir ∧ plain tb = true ∧ plain n = true
  ∧ ((∃ c, nd = File c) ∨ (nd = Dir ∧ index_name n = true)).
Proof.
  intros Hf Hl.
  destruct (fr_shape _ _ Hf [tb; n] nd) as [Hp (Ht & _ & Hk)]; try done.
  apply Forall_cons in Hp as [Hp1 [Hp2 _]%Forall_cons].
  repeat split; try done. destruct nd; [left; eauto|by right|done].
Qed.

Lemma frame_index_entry t tb i v nd :
  frame_ok self t → t !! (R ++ [tb; i; v]) = Some nd →
  t !! (R ++ [tb]) = Some Dir ∧ t !! (R ++ [tb; i]) = Some Dir
  ∧ plain tb = true ∧ index_name i = true ∧ plain v = true
  ∧ ∃ k, nd = link_to k.
Proof.
  intros Hf Hl.
  destruct (fr_shape _ _ Hf [tb; i; v] nd) as [Hp [Hi Hk]]; try done.
  apply Forall_cons in Hp as [Hp1 [Hp2 [Hp3 _]%Forall_cons]%Forall_cons].
  destruct (frame_entry _ _ _ _ Hf Hi) as (Ht & _ & _ & [[c [=]]|[_ Hn]]).
  done.
Qed.

Lemma frame_index_real t tb i :
  frame_ok self t → t !! (R ++ [tb; i]) = Some Dir →
  real_dir t (R ++ [tb; i]).
Proof.
  intros Hf Hl. destruct (frame_entry _ _ _ _ Hf Hl) as (Ht & Hp1 & Hp2 & _).
  rewrite <-snoc2. apply real_dir_snoc; [|by apply plain_not_dotdot|].
  - by apply frame_table_real.
  - by rewrite snoc2.
Qed.

(** Under the frame, [get] is the record file parsed. *)
Lemma get_record_doc tb k w :
  frame_ok self (files w) → key_ok tb = true →
  safe k = true → plain k = true →
  get self tb k w = (Ret (record_doc self (files w) tb k), w).
Proof.
  intros Hf [Hst Hpt]%andb_true_iff Hsk Hpk.
  rewrite get_eq by done. do 2 f_equal.
  rewrite (joinpath_plain _ _ Hpt), (joinpath_plain _ _ Hpk).
  unfold read_file, record_doc. fold R.
  destruct (frame_table _ tb Hf) as [Hno|Hdir].
  - rewrite resolve_grandchild_missing;
      [|apply Hf|by apply plain_not_dotdot|done].
    destruct (files w !! (R ++ [tb; k])) as [nd|] eqn:Hl; [|done].
    destruct (frame_entry _ _ _ _ Hf Hl) as [Hd _]. congruence.
  - rewrite resolve_child;
      [|by apply frame_table_real|by apply plain_not_dotdot].
    cbn [parts child]. fold R. rewrite snoc2.
    destruct (files w !! (R ++ [tb; k])) as [nd|] eqn:Hl; [|done].
    by destruct (frame_entry _ _ _ _ Hf Hl) as (_ & _ & _ & [[c ->]|[-> _]]).
Qed.

End StoreFacts.

(** ** The synchronisation of the indexes *)

Lemma truthy_lookup `{Runtime} (o : option document) (f : string) :
  (if truthy o then o else None) ≫= (.!! f) = o ≫= (.!! f).
Proof.
  destruct o as [d|]; [|done]. cbn [truthy].
  destruct (bool_decide (dom d = ∅)) eqn:Hd; [|done]. cbn.
  apply bool_decide_eq_true in Hd. symmetry. apply not_elem_of_dom.
  rewrite Hd. apply not_elem_of_empty.
Qed.

Section Sync.
Context `{Runtime}.
Variable self : FSDB.

Let R := parts (root self).
Let W := parts (workdir self).

Lemma _update_index_eq table pk old new :
  _update_index self table pk old new
  = (glob (root self </> table) "@*" ≫= λ idxdirs,
     for_each idxdirs (sync_index self table pk old new)).
Proof. reflexivity. Qed.

Lemma kept_refl tb pk new t : kept self tb pk new t t.
Proof. by intros l k Hl _ _. Qed.

Lemma kept_trans tb pk new t1 t2 t3 :
  kept self tb pk new t1 t2 → kept self tb pk new t2 t3 → kept self tb pk new t1 t3.
Proof. intros H12 H23 l k Hl Hk Hn. apply H23; [|done|done]. by apply H12. Qed.

Lemma syncing_done tb pk old new t :
  syncing self tb pk old new [] t → store_ok self t.
Proof.
  intros (Hf & _ & He). split; [done|]. intros tb' i v k Hl.
  destruct (He _ _ _ _ Hl) as [?|(_ & _ & []%elem_of_nil & _)]. done.
Qed.

Lemma sound_same t t' tb i v k :
  (∀ tb k, record_doc self t' tb k = record_doc self t tb k) →
  sound self t tb i v k → sound self t' tb i v k.
Proof. intros Hr (d & val & Hd & ?). exists d, val. by rewrite Hr. Qed.

Lemma link_to_inj k k' : link_to k = link_to k' → k = k'.
Proof. by intros [=]. Qed.

(** Removing an entry keeps the table in the same state of
    synchronisation. *)
Lemma syncing_delete tb pk old new todo t a b c :
  syncing self tb pk old new todo t →
  syncing self tb pk old new todo (base.delete (R ++ [a; b; c]) t).
Proof.
  intros (Hf & Hr & He).
  destruct (t !! (R ++ [a; b; c])) as [nd|] eqn:Hl;
    [|by rewrite delete_id].
  destruct (frame_index_entry _ _ _ _ _ _ Hf Hl) as (_ & _ & _ & _ & _ & k & ->).
  split; [|split].
  - apply frame_delete; [done|done|fold R; by rewrite Hl].
  - rewrite record_doc_delete_other by apply entry_not_record. done.
  - intros tb' i v k' [_ Hl']%lookup_delete_Some.
    destruct (He _ _ _ _ Hl') as [Hs|?]; [left|by right].
    eapply sound_same; [|done]. intros ??.
    apply record_doc_delete_other, entry_not_record.
Qed.

(** Writing the entry of the new value of [pk] in an index makes that
    index done. *)
Lemma syncing_insert tb pk old new todo t i val :
  syncing self tb pk old new todo t →
  t !! (R ++ [tb; i]) = Some Dir →
  new ≫= (.!! field_of i) = Some val → plain (py_str val) = true →
  syncing self tb pk old new todo (<[R ++ [tb; i; py_str val] := link_to pk]> t).
Proof.
  intros (Hf & Hr & He) Hi Hnew Hpv.
  destruct (frame_entry _ _ _ _ _ Hf Hi) as (Ht & Hp1 & Hp2 & _).
  assert (∀ tb0 k0, record_doc self
                      (<[R ++ [tb; i; py_str val] := link_to pk]> t) tb0 k0
                    = record_doc self t tb0 k0) as Hrd
    by (intros ??; apply record_doc_insert_other, entry_not_record).
  split; [|split].
  - apply frame_insert; try done.
    + by repeat constructor.
    + split; [done|by exists pk].
    + intros Hl. by destruct (frame_index_entry _ _ _ _ _ _ Hf Hl)
        as (_ & _ & _ & _ & _ & k & ?).
  - by rewrite Hrd.
  - intros tb' i' v k.
    destruct (decide (R ++ [tb; i; py_str val] = R ++ [tb'; i'; v]))
      as [Heq|Hne].
    + rewrite Heq, lookup_insert_eq. intros [= <-]. left.
      apply app_inv_head in Heq. injection Heq as <- <- <-.
      destruct new as [d|]; [|done]. exists d, val. by rewrite Hrd.
    + rewrite lookup_insert_ne by done. intros Hl.
      destruct (He _ _ _ _ Hl) as [Hs|?]; [left|by right].
      by eapply sound_same.
Qed.

End Sync.

Section SyncStep.
Context `{Runtime}.
Variable self : FSDB.

Let R := parts (root self).
Let W := parts (workdir self).

Lemma resolve_index_entry t tb x v :
  frame_ok self t → plain tb = true →
  t !! (R ++ [tb; x]) = Some Dir → plain v = true →
  resolve t false (child (child (child (root self) tb) x) v)
  = match t !! (R ++ [tb; x; v]) with
    | None => Vacant (R ++ [tb; x; v])
    | Some nd => Found (R ++ [tb; x; v]) nd
    end.
Proof.
  intros Hf Hpt Hx Hpv.
  rewrite resolve_child; [|cbn [parts child]; fold R; rewrite snoc2;
                            by apply frame_index_real
                          |by apply plain_not_dotdot].
  cbn [parts child]. fold R. rewrite !snoc2. rewrite <-app_assoc. cbn [app].
  by destruct (t !! (R ++ [tb; x; v])) as [[]|].
Qed.

(** [_index] in an index directory of the engine's making. *)
Lemma _index_ok tb pk x v t n :
  frame_ok self t → key_ok tb = true → plain pk = true →
  t !! (R ++ [tb; x]) = Some Dir → plain v = true →
  _index self tb pk (field_of x) v (mkWorld t n)
  = (Ret (), mkWorld (<[R ++ [tb; x; v] := link_to pk]> t) n).
Proof.
  intros Hf [Hst Hpt]%andb_true_iff Hpk Hx Hpv.
  destruct (frame_entry _ _ _ _ _ Hf Hx) as (Ht & _ & Hpx & [[? [=]]|[_ Hix]]).
  destruct (index_name_inv _ Hix) as (Hxf & Hsx & _ & _).
  pose proof (resolve_index_entry t tb x v Hf Hpt Hx Hpv) as Hres.
  fold R in Hres.
  unfold _index. rewrite <-Hxf.
  erewrite bind_ret; [|by apply _target_f_record].
  rewrite (joinpath_plain _ _ Hpt), (joinpath_plain _ _ Hpx).
  rewrite (joinpath_plain _ _ Hpv), (updir_join _ Hpk).
  set (t2 := base.delete (R ++ [tb; x; v]) t).
  assert (unlink_missing_ok (child (child (child (root self) tb) x) v)
            (mkWorld t n) = (Ret (), mkWorld t2 n)) as Hunl.
  { unfold unlink_missing_ok, os_unlink. cbn [files clock]. rewrite Hres.
    destruct (t !! (R ++ [tb; x; v])) as [nd|] eqn:Hl.
    - by destruct (frame_index_entry _ _ _ _ _ _ Hf Hl)
        as (_ & _ & _ & _ & _ & k & ->).
    - unfold t2. by rewrite delete_id. }
  erewrite bind_ret; [|exact Hunl].
  assert (frame_ok self t2) as Hf2.
  { unfold t2. destruct (t !! (R ++ [tb; x; v])) as [nd|] eqn:Hl;
      [|by rewrite delete_id].
    apply frame_delete; [done|done|]. fold R. rewrite Hl.
    by destruct (frame_index_entry _ _ _ _ _ _ Hf Hl)
      as (_ & _ & _ & _ & _ & k & ->). }
  unfold syscall, os_symlink. cbn [files clock].
  rewrite (resolve_index_entry t2 tb x v Hf2 Hpt); [|
    unfold t2; by rewrite lookup_delete_ne by (by intros ?%app_inv_head)|done].
  fold R. unfold t2. rewrite lookup_delete_eq. by rewrite insert_delete_eq.
Qed.

Lemma syncing_cleared tb pk old new x rest t :
  syncing self tb pk old new (x :: rest) t →
  (∀ val, old ≫= (.!! field_of x) = Some val →
          t !! (R ++ [tb; x; py_str val]) ≠ Some (link_to pk)) →
  syncing self tb pk old new rest t.
Proof.
  intros (Hf & Hr & He) Hc. split; [done|split; [done|]].
  intros tb' i v k Hl.
  destruct (He _ _ _ _ Hl) as [?|(-> & -> & Hi & val & Hv & <-)]; [by left|].
  apply elem_of_cons in Hi as [->|Hi].
  - by destruct (Hc _ Hv).
  - right. eauto 10.
Qed.

(** One turn of the loop of [_update_index], for an index directory:
    the entry of the old value goes if it is a link to [pk], the entry of
    the new value is written; nothing else changes. *)
Lemma sync_index_dir tb pk old new x rest t n :
  key_ok tb = true → plain pk = true →
  (∀ d, old = Some d → tame d) →
  t !! (R ++ [tb; x]) = Some Dir →
  syncing self tb pk old new (x :: rest) t →
  ∃ t', sync_index self tb pk old new (child (child (root self) tb) x)
          (mkWorld t n) = (Ret (), mkWorld t' n)
        ∧ syncing self tb pk old new rest t'
        ∧ kept self tb pk new t t'
        ∧ (∀ val, new ≫= (.!! field_of x) = Some val →
             t' !! (R ++ [tb; x; py_str val]) = Some (link_to pk))
        ∧ (∀ l, (∀ v, l ≠ R ++ [tb; x; v]) → t' !! l = t !! l).
Proof.
  intros [Hst Hpt]%andb_true_iff Hpk Hold Hx Hsync.
  pose proof Hsync as (Hf & Hrec & Hent).
  destruct (frame_entry _ _ _ _ _ Hf Hx) as (Ht & _ & Hpx & [[? [=]]|[_ Hix]]).
  destruct (index_name_inv _ Hix) as (Hxf & Hsx & _ & _).
  set (idxdir := child (child (root self) tb) x).
  unfold sync_index.
  erewrite bind_ret; [|reflexivity]. cbn [files].
  assert (is_dir t idxdir = true) as ->.
  { unfold is_dir, idxdir.
    rewrite resolve_child;
      [|by apply frame_table_real|by apply plain_not_dotdot].
    cbn [parts child]. fold R. rewrite snoc2. by rewrite Hx. }
  cbn [negb].
  replace (path_name idxdir) with x by (symmetry; apply path_name_child).
  fold (field_of x). rewrite !truthy_lookup.
  (* the old value *)
  assert (∃ t1,
    (match old ≫= (.!! field_of x) with
     | Some v =>
         let link := idxdir </> py_str v in
         isl ← ask (λ t, is_symlink t link);
         if isl : bool then
           tg ← query (λ t, readlink t link);
           if bool_decide (tg = parse_path ("../" +:+ pk))
           then syscall (λ t, os_unlink t link)
           else mret ()
         else mret ()
     | None => mret ()
     end) (mkWorld t n) = (Ret (), mkWorld t1 n)
    ∧ syncing self tb pk old new rest t1
    ∧ kept self tb pk new t t1
    ∧ (∀ l, (∀ v, l ≠ R ++ [tb; x; v]) → t1 !! l = t !! l))
    as (t1 & Hrun1 & Hsync1 & Hkept1 & Hsame1).
  { assert (∀ val, old ≫= (.!! field_of x) = Some val →
                   t !! (R ++ [tb; x; py_str val]) ≠ Some (link_to pk) →
              ∃ t1, (mret () : M ()) (mkWorld t n) = (Ret (), mkWorld t1 n)
                ∧ syncing self tb pk old new rest t1
                ∧ kept self tb pk new t t1
                ∧ (∀ l, (∀ v, l ≠ R ++ [tb; x; v]) → t1 !! l = t !! l))
      as Hstay.
    { intros val Hov Hl. exists t.
      split; [done|split; [|split; [apply kept_refl|done]]].
      apply (syncing_cleared _ _ _ _ x); [done|]. intros val'. rewrite Hov.
      by intros [= <-]. }
    destruct (old ≫= (.!! field_of x)) as [val|] eqn:Hov; cycle 1.
    { exists t. split; [done|split; [|split; [apply kept_refl|done]]].
      apply (syncing_cleared _ _ _ _ x); [done|]. intros val.
      by rewrite Hov. }
    assert (plain (py_str val) = true) as Hpv.
    { destruct old as [d|]; [|done]. by apply (Hold d eq_refl (field_of x)). }
    cbn zeta. rewrite (joinpath_plain _ _ Hpv).
    pose proof (resolve_index_entry t tb x (py_str val) Hf Hpt Hx Hpv) as Hres.
    fold idxdir in Hres.
    erewrite bind_ret; [|reflexivity]. cbn [files].
    unfold is_symlink. rewrite Hres.
    destruct (t !! (R ++ [tb; x; py_str val])) as [nd|] eqn:Hl; cycle 1.
    { refine (Hstay val eq_refl _). by rewrite Hl. }
    destruct (frame_index_entry _ _ _ _ _ _ Hf Hl) as (_ & _ & _ & _ & _ & k & ->).
    cbn [link_to].
    erewrite bind_ret; cycle 1.
    { unfold query, readlink. cbn [files]. rewrite Hres. reflexivity. }
    rewrite (updir_parse _ Hpk).
    destruct (decide (k = pk)) as [->|Hne].
    - rewrite bool_decide_eq_true_2 by done.
      exists (base.delete (R ++ [tb; x; py_str val]) t).
      split; [|split; [|split]].
      + unfold syscall, os_unlink. cbn [files clock]. by rewrite Hres.
      + apply (syncing_cleared _ _ _ _ x); [by apply syncing_delete|].
        intros val'. rewrite Hov. intros [= <-].
        by rewrite lookup_delete_eq.
      + intros l k Hlk Hk _. rewrite lookup_delete_ne; [done|].
        intros <-. rewrite Hl in Hlk. by injection Hlk as <-.
      + intros l Hl'. by rewrite lookup_delete_ne.
    - rewrite bool_decide_eq_false_2 by (by intros [=]).
      refine (Hstay val eq_refl _). rewrite Hl. by intros [=]. }
  erewrite bind_ret; [|exact Hrun1].
  assert (t1 !! (R ++ [tb; x]) = Some Dir) as Hx1.
  { rewrite Hsame1; [done|]. by intros v ?%app_inv_head. }
  clear Hrun1 Hsync Hrec Hent Hf Ht.
  pose proof Hsync1 as (Hf & Hrec & Hent).
  destruct (frame_entry _ _ _ _ _ Hf Hx1) as (Ht & _ & _ & _).
  (* the new value *)
  destruct (new ≫= (.!! field_of x)) as [val|] eqn:Hnv; cycle 1.
  { by exists t1. }
  assert (plain (py_str val) = true) as Hpv.
  { destruct new as [d|]; [|done].
    by apply (fr_tame _ _ Hf tb pk d Hrec (field_of x)). }
  exists (<[R ++ [tb; x; py_str val] := link_to pk]> t1).
  split; [|split; [|split; [|split]]].
  - rewrite <-(_index_ok tb pk x (py_str val) t1 n); try done.
    unfold key_ok. by rewrite Hst, Hpt.
  - by apply syncing_insert.
  - eapply kept_trans; [exact Hkept1|]. intros l k Hlk Hk Hnew.
    rewrite lookup_insert_ne; [done|]. intros <-. by eapply Hnew.
  - intros val' [= <-]. by rewrite lookup_insert_eq.
  - intros l Hl. rewrite lookup_insert_ne by (by intros <-; eapply Hl).
    by apply Hsame1.
Qed.

End SyncStep.

Section SyncLoop.
Context `{Runtime}.
Variable self : FSDB.

Let R := parts (root self).
Let W := parts (workdir self).

(** A name of the table that is not a directory is passed over. *)
Lemma sync_index_skip tb pk old new x rest t n :
  plain tb = true → plain x = true →
  t !! (R ++ [tb]) = Some Dir → t !! (R ++ [tb; x]) ≠ Some Dir →
  syncing self tb pk old new (x :: rest) t →
  sync_index self tb pk old new (child (child (root self) tb) x)
    (mkWorld t n) = (Ret (), mkWorld t n)
  ∧ syncing self tb pk old new rest t.
Proof.
  intros Hpt Hpx Ht Hx Hsync. pose proof Hsync as (Hf & _ & _). split.
  - unfold sync_index. erewrite bind_ret; [|reflexivity]. cbn [files].
    assert (is_dir t (child (child (root self) tb) x) = false) as ->; [|done].
    unfold is_dir.
    rewrite resolve_child;
      [|by apply frame_table_real|by apply plain_not_dotdot].
    cbn [parts child]. fold R. rewrite snoc2.
    destruct (t !! (R ++ [tb; x])) as [nd|] eqn:Hl; [|done].
    by destruct (frame_entry _ _ _ _ _ Hf Hl)
      as (_ & _ & _ & [[c ->]|[-> _]]).
  - apply (syncing_cleared _ _ _ _ _ x); [done|]. intros val _ Hl.
    by destruct (frame_index_entry _ _ _ _ _ _ Hf Hl) as (_ & ? & _).
Qed.

Lemma sync_loop tb pk old new names t n :
  key_ok tb = true → plain pk = true →
  (∀ d, old = Some d → tame d) →
  Forall (λ x, plain x = true) names →
  t !! (R ++ [tb]) = Some Dir →
  syncing self tb pk old new names t →
  ∃ t', for_each (child (child (root self) tb) <$> names)
          (sync_index self tb pk old new) (mkWorld t n)
        = (Ret (), mkWorld t' n)
        ∧ store_ok self t' ∧ kept self tb pk new t t'
        ∧ (∀ x val, x ∈ names → t !! (R ++ [tb; x]) = Some Dir →
             new ≫= (.!! field_of x) = Some val →
             t' !! (R ++ [tb; x; py_str val]) = Some (link_to pk))
        ∧ (∀ l, (∀ x v, x ∈ names → l ≠ R ++ [tb; x; v]) →
             t' !! l = t !! l).
Proof.
  intros Hkt Hpk Hold Hnames. revert t.
  induction Hnames as [|x names Hpx _ IH]; intros t Ht Hsync.
  - exists t. split; [done|]. split; [by eapply syncing_done|].
    split; [apply kept_refl|]. split; [|done].
    by intros x val Hx%elem_of_nil.
  - cbn [fmap list_fmap for_each].
    pose proof Hkt as [_ Hpt]%andb_true_iff.
    destruct (decide (t !! (R ++ [tb; x]) = Some Dir)) as [Hx|Hx].
    + destruct (sync_index_dir self tb pk old new x names t n)
        as (t1 & Hrun & Hsync1 & Hkept1 & Hnew1 & Hsame1); try done.
      assert (t1 !! (R ++ [tb]) = Some Dir) as Ht1.
      { rewrite Hsame1; [done|]. by intros v ?%app_inv_head. }
      destruct (IH t1 Ht1 Hsync1) as (t' & Hloop & Hok & Hkept & Hnew & Hsame).
      exists t'. split; [by erewrite bind_ret|]. split; [done|].
      split; [by eapply kept_trans|]. split.
      * intros y val Hy Hyd Hv.
        destruct (decide (y ∈ names)) as [Hin|Hnin].
        -- apply Hnew; [done| |done]. rewrite Hsame1; [done|].
           by intros v ?%app_inv_head.
        -- apply elem_of_cons in Hy as [->|?]; [|done].
           rewrite Hsame; [by apply Hnew1|].
           intros x' v Hx' [= <- _]%app_inv_head. done.
      * intros l Hl. rewrite Hsame, Hsame1; [done| |].
        -- intros v. apply Hl. by left.
        -- intros x' v Hx'. apply Hl. by right.
    + destruct (sync_index_skip tb pk old new x names t n)
        as (Hrun & Hsync1); try done.
      destruct (IH t Ht Hsync1) as (t' & Hloop & Hok & Hkept & Hnew & Hsame).
      exists t'. split; [by erewrite bind_ret|]. split; [done|].
      split; [done|]. split.
      * intros y val Hy Hyd Hv. apply Hnew; [|done|done].
        apply elem_of_cons in Hy as [->|?]; [congruence|done].
      * intros l Hl. apply Hsame. intros x' v Hx'. apply Hl. by right.
Qed.

Lemma resolve_table t f tb :
  frame_ok self t → plain tb = true →
  resolve t f (child (root self) tb)
  = match t !! (R ++ [tb]) with
    | Some _ => Found (R ++ [tb]) Dir
    | None => Vacant (R ++ [tb])
    end.
Proof.
  intros Hf Hpt.
  rewrite resolve_child; [|apply Hf|by apply plain_not_dotdot]. fold R.
  pose proof (frame_table _ t tb Hf) as Hc. fold R in Hc.
  by destruct Hc as [->| ->].
Qed.

(** [_update_index] on a table whose indexes are all still to do brings
    the store back in order; every index of the table gets the entry of
    the new value, and only index entries change. *)
Lemma _update_index_ok tb pk old new t n :
  key_ok tb = true → plain pk = true →
  (∀ d, old = Some d → tame d) →
  t !! (R ++ [tb]) = Some Dir →
  syncing self tb pk old new
    (List.filter (fnmatch "@*") (entries t (R ++ [tb]))) t →
  ∃ t', _update_index self tb pk old new (mkWorld t n)
        = (Ret (), mkWorld t' n)
        ∧ store_ok self t' ∧ kept self tb pk new t t'
        ∧ (∀ x val, t !! (R ++ [tb; x]) = Some Dir →
             new ≫= (.!! field_of x) = Some val →
             t' !! (R ++ [tb; x; py_str val]) = Some (link_to pk))
        ∧ (∀ l, (∀ x v, l ≠ R ++ [tb; x; v]) → t' !! l = t !! l).
Proof.
  intros Hkt Hpk Hold Ht Hsync.
  pose proof Hkt as [_ Hpt]%andb_true_iff.
  pose proof Hsync as (Hf & _ & _).
  rewrite _update_index_eq, (joinpath_plain _ _ Hpt).
  erewrite bind_ret; cycle 1.
  { apply glob_dir; [done|]. cbn [files].
    rewrite resolve_table by done. fold R. by rewrite Ht. }
  cbn [files].
  destruct (sync_loop tb pk old new
              (List.filter (fnmatch "@*") (entries t (R ++ [tb]))) t n)
    as (t' & Hrun & Hok & Hkept & Hnew & Hsame); try done.
  { apply Forall_forall. intros x [Hx _]%elem_of_bool_filter.
    apply elem_of_entries in Hx as [nd Hx]. rewrite snoc2 in Hx.
    by destruct (frame_entry _ _ _ _ _ Hf Hx) as (_ & _ & ? & _). }
  exists t'. split; [done|]. split; [done|]. split; [done|]. split.
  - intros x val Hx Hv. apply Hnew; [|done|done].
    destruct (frame_entry _ _ _ _ _ Hf Hx) as (_ & _ & _ & [[? [=]]|[_ Hix]]).
    apply elem_of_bool_filter. split.
    + apply elem_of_entries. rewrite snoc2, Hx. eauto.
    + rewrite fnmatch_at_star. by apply index_name_inv.
  - intros l Hl. apply Hsame. intros x v _. apply Hl.
Qed.

(** After the record [pk] of [tb] has changed from [old] to [new] and
    nothing else has, every index of the table is to do. *)
Lemma syncing_start tb pk new t0 t1 :
  store_ok self t0 → frame_ok self t1 →
  record_doc self t1 tb pk = new →
  (∀ tb' k, (tb', k) ≠ (tb, pk) →
            record_doc self t1 tb' k = record_doc self t0 tb' k) →
  (∀ a b c, t1 !! (R ++ [a; b; c]) = t0 !! (R ++ [a; b; c])) →
  (∀ i, t0 !! (R ++ [tb; i]) = Some Dir → t1 !! (R ++ [tb; i]) = Some Dir) →
  syncing self tb pk (record_doc self t0 tb pk) new
    (List.filter (fnmatch "@*") (entries t1 (R ++ [tb]))) t1.
Proof.
  intros [Hf0 Hs0] Hf1 Hnew Hrec Hent Hidx. split; [done|split; [done|]].
  intros tb' i v k. rewrite Hent. intros Hl.
  destruct (decide ((tb', k) = (tb, pk))) as [[= -> ->]|Hne].
  - right. split; [done|split; [done|]].
    destruct (frame_index_entry _ _ _ _ _ _ Hf0 Hl)
      as (_ & Hi & _ & Hin & _ & _).
    split.
    + apply elem_of_bool_filter. split.
      * apply elem_of_entries. rewrite snoc2, (Hidx _ Hi). eauto.
      * rewrite fnmatch_at_star. by apply index_name_inv.
    + destruct (Hs0 _ _ _ _ Hl) as (d & val & Hd & Hv & Hstr).
      exists val. by rewrite Hd.
  - left. destruct (Hs0 _ _ _ _ Hl) as (d & val & Hd & Hv & Hstr).
    exists d, val. by rewrite Hrec.
Qed.

End SyncLoop.

Section Operations.
Context `{Runtime}.
Variable self : FSDB.

Local Abbreviation R := (parts (root self)).
Local Abbreviation W := (parts (workdir self)).

Hypothesis uuid_plain : ∀ n, Py.contains "/" (uuid1 n) = false.

Lemma resolve_record t f tb k :
  frame_ok self t → plain tb = true → plain k = true →
  resolve t f (child (child (root self) tb) k)
  = match t !! (R ++ [tb]) with
    | None => Fail ENOENT
    | Some _ =>
        match t !! (R ++ [tb; k]) with
        | None => Vacant (R ++ [tb; k])
        | Some nd => Found (R ++ [tb; k]) nd
        end
    end.
Proof.
  intros Hf Hpt Hpk. destruct (frame_table _ t tb Hf) as [Hno|Hdir].
  - rewrite Hno.
    by rewrite resolve_grandchild_missing;
      [|apply Hf|by apply plain_not_dotdot|].
  - rewrite Hdir.
    rewrite resolve_child;
      [|by apply frame_table_real|by apply plain_not_dotdot].
    cbn [parts child]. rewrite snoc2.
    destruct (t !! (R ++ [tb; k])) as [nd|] eqn:Hl; [|done].
    by destruct (frame_entry _ _ _ _ _ Hf Hl)
      as (_ & _ & _ & [[c ->]|[-> _]]).
Qed.

Lemma path_exists_record t tb k :
  frame_ok self t → plain tb = true → plain k = true →
  path_exists t (child (child (root self) tb) k)
  = bool_decide (is_Some (t !! (R ++ [tb; k]))).
Proof.
  intros Hf Hpt Hpk. unfold path_exists. rewrite resolve_record by done.
  destruct (t !! (R ++ [tb; k])) as [nd|] eqn:Hl.
  - destruct (frame_entry _ _ _ _ _ Hf Hl) as (-> & _).
    by rewrite bool_decide_eq_true_2.
  - rewrite bool_decide_eq_false_2 by (by intros [??]).
    by destruct (t !! (R ++ [tb])).
Qed.

(** A record key is never the name of an index directory. *)
Lemma record_place t tb pk :
  frame_ok self t → pk_ok pk = true →
  t !! (R ++ [tb; pk]) = None ∨ ∃ c, t !! (R ++ [tb; pk]) = Some (File c).
Proof.
  intros Hf [_ Hat%negb_true_iff]%andb_true_iff.
  destruct (t !! (R ++ [tb; pk])) as [nd|] eqn:Hl; [|by left].
  destruct (frame_entry _ _ _ _ _ Hf Hl) as (_ & _ & _ & [[c ->]|[-> Hi]]).
  - right. eauto.
  - apply index_name_inv in Hi as (_ & _ & _ & Hi). congruence.
Qed.

Lemma _write_no_table tb pk data w :
  frame_ok self (files w) → key_ok tb = true →
  files w !! (R ++ [tb]) = None →
  ∃ e, _write self tb pk data w = (Raise e, w).
Proof.
  intros Hf [Hst Hpt]%andb_true_iff Hno. eexists. unfold _write.
  erewrite bind_ret; [|by apply _target_f_table].
  erewrite bind_ret; [|reflexivity].
  rewrite (joinpath_plain _ _ Hpt). unfold path_exists.
  rewrite resolve_table by done. by rewrite Hno.
Qed.

(** Writing a record and bringing the indexes in line keeps the store in
    order; the record file holds the document, and every index of the
    table has the entry of the document's value. *)
Lemma write_sync_ok tb pk data t0 n :
  store_ok self t0 → key_ok tb = true → pk_ok pk = true → doc_ok data →
  t0 !! (R ++ [tb]) = Some Dir →
  ∃ t',
    (_write self tb pk data ≫= λ _,
     _update_index self tb pk (record_doc self t0 tb pk) (Some data))
      (mkWorld t0 n)
    = (Ret (), mkWorld t' (S n))
    ∧ store_ok self t' ∧ kept self tb pk (Some data) t0 t'
    ∧ t' !! (R ++ [tb; pk]) = Some (File (json_dumps data))
    ∧ (∀ x val, t0 !! (R ++ [tb; x]) = Some Dir →
         data !! field_of x = Some val →
         t' !! (R ++ [tb; x; py_str val]) = Some (link_to pk)).
Proof.
  intros Hok Hkt Hkp [Hround Htame] Ht. pose proof Hok as [Hf Hsound].
  pose proof Hkt as [Hst Hpt]%andb_true_iff.
  pose proof Hkp as [[Hsp Hpp]%andb_true_iff _]%andb_true_iff.
  pose proof (record_place _ tb pk Hf Hkp) as Hplace.
  set (t1 := <[R ++ [tb; pk] := File (json_dumps data)]> t0).
  assert (frame_ok self t1) as Hf1.
  { apply frame_insert; try done.
    - by repeat constructor.
    - intros Hl. by destruct Hplace as [?|[c ?]]; congruence.
    - intros ???? _ [= <-]. rewrite Hround. by intros [= <-]. }
  assert (record_doc self t1 tb pk = Some data) as Hrec1.
  { unfold record_doc, t1. by rewrite lookup_insert_eq. }
  assert (∀ i, t0 !! (R ++ [tb; i]) = Some Dir →
               t1 !! (R ++ [tb; i]) = Some Dir) as Hidx.
  { intros i Hi. unfold t1. rewrite lookup_insert_ne; [done|].
    intros [= <-]%app_inv_head. destruct Hplace as [?|[c ?]]; congruence. }
  destruct (_update_index_ok self tb pk (record_doc self t0 tb pk)
              (Some data) t1 (S n))
    as (t' & Hrun & Hok' & Hkept & Hnew & Hsame); try done.
  - intros d Hd. by apply (fr_tame _ _ Hf tb pk).
  - unfold t1. by rewrite lookup_insert_ne by (by intros ?%app_inv_head).
  - apply syncing_start; try done.
    + intros tb' k Hne. apply record_doc_insert_other.
      intros ?%app_inv_head. congruence.
    + intros a b c. unfold t1.
      by rewrite lookup_insert_ne by (by intros ?%app_inv_head).
  - exists t'. split; [|split; [done|split; [|split]]].
    + erewrite bind_ret; [exact Hrun|].
      rewrite (_write_ok self tb pk data (mkWorld t0 n)); try done;
        try apply Hf.
    + intros l k Hl Hk Hn. apply Hkept; [|done|done].
      unfold t1. rewrite lookup_insert_ne; [done|]. intros <-.
      unfold link_to in Hl. destruct Hplace as [?|[c ?]]; congruence.
    + rewrite Hsame by (by intros x v ?%app_inv_head).
      unfold t1. by rewrite lookup_insert_eq.
    + intros x val Hx Hv. apply Hnew; [by apply Hidx|done].
Qed.

Lemma insert_preserves tb pk data w :
  store_ok self (files w) → key_ok tb = true → pk_ok pk = true →
  doc_ok data → store_ok self (files (insert self tb pk data w).2).
Proof.
  destruct w as [t n]. cbn [files]. intros Hok Hkt Hkp Hd.
  pose proof Hok as [Hf _].
  pose proof Hkt as [Hst Hpt]%andb_true_iff.
  pose proof Hkp as [[Hsp Hpp]%andb_true_iff _]%andb_true_iff.
  unfold insert. erewrite bind_ret; [|by apply _target_f_record].
  rewrite (joinpath_plain _ _ Hpt), (joinpath_plain _ _ Hpp).
  erewrite bind_ret; [|reflexivity]. cbn [files].
  rewrite path_exists_record by done.
  destruct (t !! (R ++ [tb; pk])) as [nd|] eqn:Hl.
  { by rewrite bool_decide_eq_true_2. }
  rewrite bool_decide_eq_false_2 by (by intros [??]).
  destruct (frame_table _ t tb Hf) as [Hno|Hdir].
  - destruct (_write_no_table tb pk data (mkWorld t n) Hf Hkt Hno) as [e He].
    by erewrite bind_raise; [|exact He].
  - destruct (write_sync_ok tb pk data t n Hok Hkt Hkp Hd Hdir)
      as (t' & Hrun & Hok' & _).
    unfold record_doc in Hrun. rewrite Hl in Hrun. by rewrite Hrun.
Qed.

Lemma upsert_preserves tb pk data w :
  store_ok self (files w) → key_ok tb = true → pk_ok pk = true →
  doc_ok data →
  store_ok self (files (upsert self tb pk data w).2)
  ∧ kept self tb pk (Some data) (files w) (files (upsert self tb pk data w).2)
  ∧ (files w !! (R ++ [tb]) = Some Dir →
     (upsert self tb pk data w).1 = Ret ()
     ∧ files (upsert self tb pk data w).2 !! (R ++ [tb; pk])
       = Some (File (json_dumps data))
     ∧ ∀ x val, files w !! (R ++ [tb; x]) = Some Dir →
         data !! field_of x = Some val →
         files (upsert self tb pk data w).2 !! (R ++ [tb; x; py_str val])
         = Some (link_to pk)).
Proof.
  destruct w as [t n]. cbn [files]. intros Hok Hkt Hkp Hd.
  pose proof Hok as [Hf _].
  pose proof Hkp as [[Hsp Hpp]%andb_true_iff _]%andb_true_iff.
  unfold upsert. erewrite bind_ret; [|by apply get_record_doc].
  cbn [files].
  destruct (frame_table _ t tb Hf) as [Hno|Hdir].
  - destruct (_write_no_table tb pk data (mkWorld t n) Hf Hkt Hno) as [e He].
    erewrite bind_raise; [|exact He].
    split; [done|split; [apply kept_refl|]]. by rewrite Hno.
  - destruct (write_sync_ok tb pk data t n Hok Hkt Hkp Hd Hdir)
      as (t' & Hrun & Hok' & Hkept & Hrec & Hnew).
    by rewrite Hrun.
Qed.

Lemma update_preserves tb pk data w :
  store_ok self (files w) → key_ok tb = true → pk_ok pk = true →
  doc_ok data → store_ok self (files (update self tb pk data w).2).
Proof.
  destruct w as [t n]. cbn [files]. intros Hok Hkt Hkp Hd.
  pose proof Hok as [Hf _].
  pose proof Hkp as [[Hsp Hpp]%andb_true_iff _]%andb_true_iff.
  unfold update. erewrite bind_ret; [|by apply get_record_doc].
  cbn [files].
  destruct (truthy (record_doc self t tb pk)) eqn:Htr; [|done].
  cbn [negb].
  assert (t !! (R ++ [tb]) = Some Dir) as Hdir.
  { unfold record_doc in Htr.
    destruct (t !! (R ++ [tb; pk])) as [nd|] eqn:Hl; [|done].
    by destruct (frame_entry _ _ _ _ _ Hf Hl). }
  destruct (write_sync_ok tb pk data t n Hok Hkt Hkp Hd Hdir)
    as (t' & Hrun & Hok' & _).
  by rewrite Hrun.
Qed.

Lemma delete_preserves tb pk w :
  store_ok self (files w) → key_ok tb = true → pk_ok pk = true →
  store_ok self (files (delete self tb pk w).2)
  ∧ kept self tb pk None (files w) (files (delete self tb pk w).2).
Proof.
  destruct w as [t n]. cbn [files]. intros Hok Hkt Hkp.
  pose proof Hok as [Hf _].
  pose proof Hkt as [Hst Hpt]%andb_true_iff.
  pose proof Hkp as [[Hsp Hpp]%andb_true_iff _]%andb_true_iff.
  unfold delete. erewrite bind_ret; [|by apply get_record_doc].
  cbn [files].
  destruct (truthy (record_doc self t tb pk)) eqn:Htr;
    [|split; [done|apply kept_refl]].
  cbn [negb].
  assert (∃ c, t !! (R ++ [tb; pk]) = Some (File c)) as [c Hl].
  { unfold record_doc in Htr.
    destruct (t !! (R ++ [tb; pk])) as [[c| |]|] eqn:Hl; eauto; done. }
  destruct (frame_entry _ _ _ _ _ Hf Hl) as (Hdir & _).
  erewrite bind_ret; [|by apply _target_f_record].
  rewrite (joinpath_plain _ _ Hpt), (joinpath_plain _ _ Hpp).
  erewrite bind_ret; [|reflexivity]. cbn [files].
  rewrite path_exists_record by done.
  rewrite bool_decide_eq_true_2 by (by rewrite Hl).
  set (t1 := base.delete (R ++ [tb; pk]) t).
  assert (frame_ok self t1) as Hf1.
  { apply frame_delete; [done|done|by rewrite Hl]. }
  erewrite bind_ret; cycle 1.
  { unfold syscall, os_unlink. cbn [files clock].
    rewrite resolve_record by done. rewrite Hdir, Hl. reflexivity. }
  fold t1.
  destruct (_update_index_ok self tb pk (record_doc self t tb pk) None t1 n)
    as (t' & Hrun & Hok' & Hkept & _); try done.
  - intros d Hd. by apply (fr_tame _ _ Hf tb pk).
  - unfold t1. by rewrite lookup_delete_ne by (by intros ?%app_inv_head).
  - apply syncing_start; try done.
    + unfold record_doc, t1. by rewrite lookup_delete_eq.
    + intros tb' k Hne. apply record_doc_delete_other.
      intros ?%app_inv_head. congruence.
    + intros a b c'. unfold t1.
      by rewrite lookup_delete_ne by (by intros ?%app_inv_head).
    + intros i Hi. unfold t1. rewrite lookup_delete_ne; [done|].
      intros [= <-]%app_inv_head. congruence.
  - erewrite bind_ret; [|exact Hrun]. split; [done|].
    intros l k Hlk Hk Hn. apply Hkept; [|done|done].
    unfold t1. rewrite lookup_delete_ne; [done|]. intros <-.
    unfold link_to in Hlk. congruence.
Qed.

End Operations.

Section Tables.
Context `{Runtime}.
Variable self : FSDB.

Local Abbreviation R := (parts (root self)).
Local Abbreviation W := (parts (workdir self)).

Lemma lookup_prune (t : tree) L l nd :
  prune t L !! l = Some nd ↔ t !! l = Some nd ∧ ¬ L `prefix_of` l.
Proof. unfold prune. by rewrite map_lookup_filter_Some. Qed.

Lemma table_prefix (tb : string) (l : loc) :
  l ≠ [] → R ++ [tb] `prefix_of` R ++ l ↔ ∃ l', l = tb :: l'.
Proof.
  intros Hl. split.
  - intros [k Hk]. rewrite <-app_assoc in Hk. apply app_inv_head in Hk.
    by exists k.
  - intros [l' ->]. exists l'. by rewrite <-app_assoc.
Qed.

Lemma kind_ok_prune t tb l nd :
  kind_ok self t l nd → ¬ R ++ [tb] `prefix_of` R ++ l →
  kind_ok self (prune t (R ++ [tb])) l nd.
Proof.
  intros Hk Hn.
  destruct l as [|a [|b [|c [|??]]]]; try done; cbn in *.
  - destruct Hk as [Hk ?]. split; [|done]. apply lookup_prune.
    split; [done|]. intros [l' [= <-]]%table_prefix; [|done].
    apply Hn. apply table_prefix; [done|eauto].
  - destruct Hk as [Hk ?]. split; [|done]. apply lookup_prune.
    split; [done|]. intros [l' [= <- _]]%table_prefix; [|done].
    apply Hn. apply table_prefix; [done|eauto].
Qed.

Lemma frame_prune t tb :
  frame_ok self t → frame_ok self (prune t (R ++ [tb])).
Proof.
  intros [HR HW Hs Ha Hsh Ht]. split.
  - destruct HR as [HRf HRd]. split; [done|]. intros q Hq Hpre.
    apply lookup_prune. split; [by apply HRd|].
    intros Hp. apply (app_not_prefix R [tb]); [done|]. by etrans.
  - destruct HW as [HWf HWd]. split; [done|]. intros q Hq Hpre.
    apply lookup_prune. split; [by apply HWd|].
    intros Hp. apply Ha. etrans; [|exact Hpre]. etrans; [|exact Hp].
    by apply prefix_app_r.
  - intros n. destruct (prune t (R ++ [tb]) !! (W ++ [n])) eqn:Hl; [|done].
    apply lookup_prune in Hl as [Hl _]. by rewrite Hs in Hl.
  - done.
  - intros l nd Hl [Hl2 Hn]%lookup_prune.
    destruct (Hsh _ _ Hl Hl2) as [Hp Hk]. split; [done|].
    by apply kind_ok_prune.
  - intros tb' k d. unfold record_doc.
    destruct (prune t (R ++ [tb]) !! (R ++ [tb'; k])) as [nd|] eqn:Hl; [|done].
    apply lookup_prune in Hl as [Hl _]. intros Hj.
    apply (Ht tb' k). unfold record_doc. by rewrite Hl.
Qed.

Lemma store_ok_sub t t' :
  store_ok self t → frame_ok self t' →
  (∀ tb i v k, t' !! (R ++ [tb; i; v]) = Some (link_to k) →
     t !! (R ++ [tb; i; v]) = Some (link_to k)
     ∧ record_doc self t' tb k = record_doc self t tb k) →
  store_ok self t'.
Proof.
  intros [Hf Hs] Hf' Hsub. split; [done|]. intros tb i v k Hl.
  destruct (Hsub _ _ _ _ Hl) as [Hl0 Hr].
  destruct (Hs _ _ _ _ Hl0) as (d & val & Hd & ?).
  exists d, val. by rewrite Hr.
Qed.

Lemma create_preserves tb w :
  store_ok self (files w) → key_ok tb = true →
  store_ok self (files (create self tb w).2).
Proof.
  destruct w as [t n]. cbn [files]. intros Hok Hkt.
  pose proof Hok as [Hf _].
  pose proof Hkt as [Hst Hpt]%andb_true_iff.
  unfold create. erewrite bind_ret; [|by apply _target_f_table].
  rewrite (joinpath_plain _ _ Hpt).
  unfold mkdir_exist_ok, os_mkdir, is_dir. cbn [files clock].
  rewrite !resolve_table by done.
  destruct (t !! (R ++ [tb])) as [nd|] eqn:Hl; [done|]. cbn [snd files].
  apply (store_ok_sub t); [done| |].
  - apply (frame_insert self t [tb]); try done.
    by repeat constructor.
  - intros tb' i v k.
    rewrite lookup_insert_ne by (by intros ?%app_inv_head).
    intros Hl'. split; [done|]. apply record_doc_insert_other.
    by intros ?%app_inv_head.
Qed.

Lemma drop_preserves tb w :
  store_ok self (files w) → key_ok tb = true →
  store_ok self (files (drop self tb w).2).
Proof.
  destruct w as [t n]. cbn [files]. intros Hok Hkt.
  pose proof Hok as [Hf _].
  pose proof Hkt as [Hst Hpt]%andb_true_iff.
  unfold drop. rewrite (joinpath_plain _ _ Hpt).
  erewrite bind_ret; [|reflexivity]. cbn [files].
  unfold path_exists. rewrite resolve_table by done.
  destruct (t !! (R ++ [tb])) as [nd|] eqn:Hl; [|done].
  assert (shutil_rmtree (child (root self) tb) (mkWorld t n)
          = (Ret (), mkWorld (prune t (R ++ [tb])) n)) as Hrm.
  { unfold shutil_rmtree, rmtree. cbn [files clock].
    rewrite resolve_table by done. rewrite Hl.
    by destruct (R ++ [tb]) eqn:Heq; [destruct R|]. }
  erewrite bind_ret; [|exact Hrm]. unfold mret, M_ret. cbn [snd files].
  apply (store_ok_sub t); [done|by apply frame_prune|].
  intros tb' i v k [Hl' Hn]%lookup_prune. split; [done|].
  unfold record_doc.
  destruct (t !! (R ++ [tb'; k])) as [nd'|] eqn:Hk.
  - assert (prune t (R ++ [tb]) !! (R ++ [tb'; k]) = Some nd') as ->; [|done].
    apply lookup_prune. split; [done|].
    intros [l' [= <-]]%table_prefix; [|done].
    apply Hn. apply table_prefix; [done|eauto].
  - destruct (prune t (R ++ [tb]) !! (R ++ [tb'; k])) as [nd'|] eqn:Hk';
      [|done].
    apply lookup_prune in Hk' as [Hk' _]. congruence.
Qed.

End Tables.

Section IndexCreation.
Context `{Runtime}.
Variable self : FSDB.

Local Abbreviation R := (parts (root self)).
Local Abbreviation W := (parts (workdir self)).

(** [scan] of a whole table yields records of the table. *)
Lemma scan_records tb w :
  frame_ok self (files w) → key_ok tb = true →
  ∃ r, scan self tb "*" w = (Ret r, w)
       ∧ ∀ pk data, (pk, data) ∈ r →
           record_doc self (files w) tb pk = Some data ∧ plain pk = true.
Proof.
  intros Hf Hkt. pose proof Hkt as [Hst Hpt]%andb_true_iff.
  eexists. split.
  - unfold scan. erewrite bind_ret; [|by apply _target_f_table].
    erewrite bind_ret; [|by apply glob_eq]. reflexivity.
  - intros pk data (p & Hp & Hfp)%list_elem_of_omap.
    rewrite (joinpath_plain _ _ Hpt) in Hp.
    unfold is_dir, os_listdir in Hp. rewrite resolve_table in Hp by done.
    destruct (files w !! (R ++ [tb])) as [nd|] eqn:Ht;
      [|by apply elem_of_nil in Hp].
    apply list_elem_of_fmap in Hp as (n & -> & [Hn _]%elem_of_bool_filter).
    apply elem_of_entries in Hn as [nd' Hn]. rewrite snoc2 in Hn.
    destruct (frame_entry _ _ _ _ _ Hf Hn) as (_ & _ & Hpn & _).
    revert Hfp. unfold is_file, read_file.
    rewrite (resolve_record self _ _ _ _ Hf Hpt Hpn), Ht, Hn.
    rewrite path_name_child.
    destruct nd' as [c| |]; try done. cbn [negb].
    destruct (Py.contains ":" n); [done|].
    destruct (json_loads c) as [d|] eqn:Hc; [|done].
    intros [= <- <-]. unfold record_doc. by rewrite Hn.
Qed.

(** One more sound entry keeps the store in order. *)
Lemma store_ok_entry t tb x pk d val :
  store_ok self t → t !! (R ++ [tb; x]) = Some Dir →
  record_doc self t tb pk = Some d → d !! field_of x = Some val →
  store_ok self (<[R ++ [tb; x; py_str val] := link_to pk]> t).
Proof.
  intros [Hf Hs] Hx Hd Hv.
  apply (syncing_done self tb pk None (Some d)).
  apply syncing_insert; try done.
  - split; [done|split; [done|]]. intros. left. by apply Hs.
  - by apply (fr_tame _ _ Hf tb pk d Hd (field_of x)).
Qed.

Lemma create_index_preserves tb f w :
  store_ok self (files w) → key_ok tb = true → field_ok f = true →
  store_ok self (files (create_index self tb f w).2).
Proof.
  destruct w as [t n]. cbn [files]. intros Hok Hkt Hkf.
  pose proof Hok as [Hf _].
  pose proof Hkt as [Hst Hpt]%andb_true_iff.
  destruct (index_name_inv _ Hkf) as (_ & Hsx & Hpx & _).
  pose proof (index_name_field _ Hkf) as Hfx.
  set (x := "@" +:+ f) in *.
  destruct (scan_records tb (mkWorld t n) Hf Hkt) as (r & Hscan & Hr).
  cbn [files] in Hr.
  unfold create_index. erewrite bind_ret; [|exact Hscan].
  erewrite bind_ret; [|by apply _target_f_record]. fold x.
  rewrite (joinpath_plain _ _ Hpt), (joinpath_plain _ _ Hpx).
  (* the directory of the index *)
  assert ((∃ e, mkdir_exist_ok (child (child (root self) tb) x) (mkWorld t n)
                = (Raise e, mkWorld t n))
          ∨ ∃ t1, mkdir_exist_ok (child (child (root self) tb) x)
                    (mkWorld t n) = (Ret (), mkWorld t1 n)
                  ∧ store_ok self t1
                  ∧ t1 !! (R ++ [tb; x]) = Some Dir
                  ∧ ∀ tb' k, record_doc self t1 tb' k
                             = record_doc self t tb' k)
    as [[e Hmk]|(t1 & Hmk & Hok1 & Hx1 & Hrec1)].
  { unfold mkdir_exist_ok, os_mkdir, is_dir. cbn [files clock].
    rewrite !resolve_record by done.
    destruct (t !! (R ++ [tb])) as [nd|] eqn:Ht; [|left; eauto].
    destruct (t !! (R ++ [tb; x])) as [nd'|] eqn:Hx.
    - destruct nd' as [c| |]; [left; eauto| |left; eauto].
      right. exists t. eauto.
    - right. exists (<[R ++ [tb; x] := Dir]> t).
      split; [done|split; [|split]].
      + apply (store_ok_sub self t); [done| |].
        * apply (frame_insert self t [tb; x]); try done.
          -- by repeat constructor.
          -- destruct (frame_table _ t tb Hf) as [?|?]; [congruence|done].
        * intros tb' i v k.
          rewrite lookup_insert_ne by (by intros ?%app_inv_head).
          intros Hl. split; [done|]. unfold record_doc.
          destruct (decide ([tb; x] = [tb'; k])) as [[= <- <-]|Hne].
          -- by rewrite lookup_insert_eq, Hx.
          -- by rewrite lookup_insert_ne by (by intros ?%app_inv_head).
      + by rewrite lookup_insert_eq.
      + intros tb' k. unfold record_doc.
        destruct (decide ([tb; x] = [tb'; k])) as [[= <- <-]|Hne].
        * by rewrite lookup_insert_eq, Hx.
        * by rewrite lookup_insert_ne by (by intros ?%app_inv_head). }
  { by erewrite bind_raise; [|exact Hmk]. }
  erewrite bind_ret; [|exact Hmk].
  assert (∀ pk data, (pk, data) ∈ r →
            record_doc self t1 tb pk = Some data ∧ plain pk = true) as Hr1.
  { intros pk data Hin. rewrite Hrec1. by apply Hr. }
  clear Hr Hscan Hmk Hrec1 Hok Hf. revert t1 Hok1 Hx1 Hr1.
  induction r as [|[pk data] r IH]; intros t1 Hok1 Hx1 Hr1; [done|].
  cbn [for_each].
  destruct (Hr1 pk data) as [Hd Hpk]; [by left|].
  assert (∀ t2, store_ok self t2 → t2 !! (R ++ [tb; x]) = Some Dir →
            (∀ tb' k, record_doc self t2 tb' k = record_doc self t1 tb' k) →
            store_ok self (files (for_each r
              (λ '(pk, data),
                 match data !! f with
                 | Some v => _index self tb pk f (py_str v)
                 | None => mret ()
                 end) (mkWorld t2 n)).2)) as Hrest.
  { intros t2 Hok2 Hx2 Hrec2. apply IH; try done.
    intros pk' data' Hin. rewrite Hrec2. apply Hr1. by right. }
  destruct (data !! f) as [v|] eqn:Hv.
  - pose proof Hok1 as [Hf1 _].
    erewrite bind_ret; cycle 1.
    { rewrite <-Hfx at 1. apply _index_ok; try done.
      apply (fr_tame _ _ Hf1 tb pk data Hd f v Hv). }
    apply Hrest.
    + apply (store_ok_entry t1 tb x pk data v); try done. by rewrite Hfx.
    + by rewrite lookup_insert_ne by (by intros ?%app_inv_head).
    + intros tb' k. apply record_doc_insert_other, entry_not_record.
  - erewrite bind_ret; [|reflexivity]. by apply Hrest.
Qed.

End IndexCreation.

Section Sequences.
Context `{Runtime}.
Variable self : FSDB.

Local Abbreviation R := (parts (root self)).
Local Abbreviation W := (parts (workdir self)).

Hypothesis uuid_plain : ∀ n, Py.contains "/" (uuid1 n) = false.

Lemma link_key_ok sp dp :
  pk_ok sp = true → key_ok dp = true → pk_ok (sp +:+ ":" +:+ dp) = true.
Proof.
  intros [[Hs1 Hp1]%andb_true_iff Ha%negb_true_iff]%andb_true_iff.
  intros [Hs2 Hp2]%andb_true_iff.
  unfold pk_ok, key_ok.
  rewrite safe_link_key, plain_link_key by auto using safe_no_slash.
  destruct sp as [|a sp]; [done|].
  change (String a sp +:+ ":" +:+ dp) with (String a (sp +:+ ":" +:+ dp)).
  rewrite prefix_char in Ha |- *. by rewrite Ha.
Qed.

Lemma link_preserves st sp dt dp data w :
  store_ok self (files w) → key_ok st = true → pk_ok sp = true →
  key_ok dt = true → key_ok dp = true → doc_ok (link_doc data) →
  store_ok self (files (link self st sp dt dp data w).2).
Proof.
  intros Hok [Hs1 Hp1]%andb_true_iff Hsp [Hs3 Hp3]%andb_true_iff Hdp Hd.
  pose proof Hsp as [[Hs2 Hp2]%andb_true_iff _]%andb_true_iff.
  pose proof Hdp as [Hs4 Hp4]%andb_true_iff.
  unfold link. erewrite bind_ret; [|by apply _target_f_record].
  erewrite bind_ret; [|reflexivity].
  destruct (path_exists (files w) (root self </> st </> sp)); [|done].
  cbn [negb]. erewrite bind_ret; [|by apply _target_f_record].
  erewrite bind_ret; [|reflexivity].
  destruct (path_exists (files w) (root self </> dt </> dp)); [|done].
  cbn [negb]. fold (link_doc data).
  apply upsert_preserves; try done.
  - unfold key_ok. by rewrite Hs1, Hp1.
  - by apply link_key_ok.
Qed.

Lemma run_op_preserves o w :
  op_ok o → store_ok self (files w) →
  store_ok self (files (run_op self o w).2).
Proof.
  intros Ho Hok. destruct o; cbn [op_ok run_op] in *.
  - by apply create_preserves.
  - pose proof (drop_preserves self table w Hok Ho) as Hd.
    unfold mbind, M_bind. by destruct (drop self table w) as [[]].
  - destruct Ho as (? & ? & ?). by apply insert_preserves.
  - destruct Ho as (? & ? & ?). by apply update_preserves.
  - destruct Ho as (? & ? & ?). by apply upsert_preserves.
  - destruct Ho as (? & ?).
    destruct (delete_preserves self table pk w) as [Hd _];
      try done.
    unfold mbind, M_bind. by destruct (delete self table pk w) as [[]].
  - destruct Ho as (? & ?). by apply create_index_preserves.
  - destruct Ho as (? & ? & ? & ? & ?). by apply link_preserves.
Qed.

Lemma run_ops_preserves os w :
  Forall op_ok os → store_ok self (files w) →
  store_ok self (files (run_ops self os w)).
Proof.
  intros Hos. revert w. induction Hos as [|o os Ho _ IH]; intros w Hok.
  - done.
  - cbn [run_ops foldl]. apply IH. by apply run_op_preserves.
Qed.


End Sequences.

(** ** The path guard on the calls that go through [_target_f] *)

Section Guard.
Context `{Runtime}.
Variable self : FSDB.

Lemma scan_eq table pat w :
  safe table = true → one_segment pat = true →
  ∃ r, scan self table pat w = (Ret r, w).
Proof.
  intros Ht Hp. eexists. unfold scan.
  erewrite bind_ret; [|by apply _target_f_table].
  erewrite bind_ret; [|by apply glob_eq]. reflexivity.
Qed.

(** X1: a table name that the path guard refuses is refused by every call
    that builds its path with [_target_f], before anything is read or
    written: the call raises the ValueError of the guard and the world is as
    it was. *)
Theorem unsafe_table_rejected (table : string) (w : world) :
  safe table = false →
  rejected table (create self table) w
  ∧ (∀ pk data, rejected table (insert self table pk data) w
                ∧ rejected table (update self table pk data) w
                ∧ rejected table (upsert self table pk data) w)
  ∧ (∀ pk, rejected table (get self table pk) w
           ∧ rejected table (delete self table pk) w)
  ∧ (∀ pat, rejected table (scan self table pat) w)
  ∧ (∀ f, rejected table (create_index self table f) w)
  ∧ (∀ f v, rejected table (find self table f v) w)
  ∧ (∀ sp dt dp data, rejected table (link self table sp dt dp data) w).
Proof.
  intros Ht.
  assert (∀ pk, rejected table (get self table pk) w) as Hget.
  { intros pk. unfold rejected, get.
    by erewrite bind_raise; [|by apply _target_f_unsafe_table]. }
  assert (∀ pat, rejected table (scan self table pat) w) as Hscan.
  { intros pat. unfold rejected, scan.
    by erewrite bind_raise; [|by apply _target_f_unsafe_table]. }
  unfold rejected in *. repeat split; intros.
  - unfold create. by erewrite bind_raise; [|by apply _target_f_unsafe_table].
  - unfold insert. by erewrite bind_raise; [|by apply _target_f_unsafe_table].
  - unfold update. by erewrite bind_raise; [|apply Hget].
  - unfold upsert. by erewrite bind_raise; [|apply Hget].
  - apply Hget.
  - unfold delete. by erewrite bind_raise; [|apply Hget].
  - apply Hscan.
  - unfold create_index. by erewrite bind_raise; [|apply Hscan].
  - unfold find. by erewrite bind_raise; [|by apply _target_f_unsafe_table].
  - unfold link. by erewrite bind_raise; [|by apply _target_f_unsafe_table].
Qed.

(** X2: in a table whose name passes the guard, a key that the guard refuses
    is refused by every call on records, and a field whose index name
    [@field] is refused is refused by [create_index] and [find]; the
    endpoints of [link] are checked source first, the destination once the
    source is found. The world is as it was. *)
Theorem unsafe_key_rejected (table name : string) (w : world) :
  safe table = true → safe name = false →
  (∀ data, rejected name (insert self table name data) w
           ∧ rejected name (update self table name data) w
           ∧ rejected name (upsert self table name data) w)
  ∧ rejected name (get self table name) w
  ∧ rejected name (delete self table name) w
  ∧ (∀ f, name = "@" +:+ f →
       rejected name (create_index self table f) w
       ∧ ∀ v, rejected name (find self table f v) w)
  ∧ (∀ dt dp data, rejected name (link self table name dt dp data) w)
  ∧ (∀ sp, safe sp = true →
       path_exists (files w) (root self </> table </> sp) = true →
       (∀ dp data, rejected name (link self table sp name dp data) w)
       ∧ (∀ dt data, safe dt = true →
            rejected name (link self table sp dt name data) w)).
Proof.
  intros Ht Hn.
  assert (rejected name (get self table name) w) as Hget.
  { unfold rejected, get.
    by erewrite bind_raise; [|by apply _target_f_unsafe_name]. }
  unfold rejected in *.
  split; [|split; [done|split; [|split; [|split]]]].
  - intros data. repeat split.
    + unfold insert.
      by erewrite bind_raise; [|by apply _target_f_unsafe_name].
    + unfold update. by erewrite bind_raise; [|apply Hget].
    + unfold upsert. by erewrite bind_raise; [|apply Hget].
  - unfold delete. by erewrite bind_raise; [|apply Hget].
  - intros f ->. split.
    + destruct (scan_eq table "*" w Ht eq_refl) as [r Hr].
      unfold create_index. erewrite bind_ret; [|exact Hr].
      by erewrite bind_raise; [|by apply _target_f_unsafe_name].
    + intros v. unfold find.
      by erewrite bind_raise; [|by apply _target_f_unsafe_name].
  - intros dt dp data. unfold link.
    by erewrite bind_raise; [|by apply _target_f_unsafe_name].
  - intros sp Hsp Hex. split.
    + intros dp data. unfold link.
      erewrite bind_ret; [|by apply _target_f_record].
      erewrite bind_ret; [|reflexivity]. rewrite Hex. cbn [negb].
      by erewrite bind_raise; [|by apply _target_f_unsafe_table].
    + intros dt data Hdt. unfold link.
      erewrite bind_ret; [|by apply _target_f_record].
      erewrite bind_ret; [|reflexivity]. rewrite Hex. cbn [negb].
      by erewrite bind_raise; [|by apply _target_f_unsafe_name].
Qed.

End Guard.

(** ** Calls that only read *)

Lemma reads_only_ret {A} (a : A) : reads_only (mret a).
Proof. by intros w. Qed.

Lemma reads_only_raise {A} e : reads_only (@raise A e).
Proof. by intros w. Qed.

Lemma reads_only_ask {A} (f : tree → A) : reads_only (ask f).
Proof. by intros w. Qed.

Lemma reads_only_query {A} (f : tree → errno + A) : reads_only (query f).
Proof. intros w. unfold query. by destruct (f (files w)). Qed.

Lemma reads_only_bind {A B} (m : M A) (k : A → M B) :
  reads_only m → (∀ a, reads_only (k a)) → reads_only (m ≫= k).
Proof.
  intros Hm Hk w. unfold mbind, M_bind. specialize (Hm w).
  destruct (m w) as [[a|e] w']; cbn in Hm; subst w'; [apply Hk|done].
Qed.

Lemma reads_only_glob dir pat : reads_only (glob dir pat).
Proof.
  unfold glob. destruct (String.eqb pat ""); [apply reads_only_raise|].
  case_match; [apply reads_only_raise|apply reads_only_ask].
Qed.

Section Readers.
Context `{Runtime}.
Variable self : FSDB.

Lemma reads_only_safe_name n : reads_only (_safe_name n).
Proof.
  unfold _safe_name. case_match; [apply reads_only_raise|apply reads_only_ret].
Qed.

Lemma reads_only_target_f table name : reads_only (_target_f self table name).
Proof.
  unfold _target_f. apply reads_only_bind; [apply reads_only_safe_name|].
  intros _. destruct name as [n|]; [|apply reads_only_ret].
  destruct (String.eqb n ""); [apply reads_only_ret|].
  apply reads_only_bind; [apply reads_only_safe_name|].
  intros _. apply reads_only_ret.
Qed.

(** X3: the calls that answer questions never change the world, whatever
    their arguments and whether they return or raise: [get], [find], [scan],
    [lspk], [lsdb], [has_index] and [query_links]. *)
Theorem readers_leave_the_world :
  (∀ table pk, reads_only (get self table pk))
  ∧ (∀ table field v, reads_only (find self table field v))
  ∧ (∀ table pattern, reads_only (scan self table pattern))
  ∧ (∀ table, reads_only (lspk self table))
  ∧ reads_only (lsdb self)
  ∧ (∀ table field, reads_only (has_index self table field))
  ∧ (∀ table left right, reads_only (query_links self table left right)).
Proof.
  split_and!; intros.
  - unfold get. apply reads_only_bind; [apply reads_only_target_f|].
    intros p. apply reads_only_bind; [apply reads_only_ask|].
    intros []; [apply reads_only_ask|apply reads_only_ret].
  - unfold find. apply reads_only_bind; [apply reads_only_target_f|].
    intros p. apply reads_only_bind; [apply reads_only_ask|].
    intros []; [apply reads_only_ask|apply reads_only_ret].
  - unfold scan. apply reads_only_bind; [apply reads_only_target_f|].
    intros p. apply reads_only_bind; [apply reads_only_glob|].
    intros ps. apply reads_only_ask.
  - unfold lspk. apply reads_only_bind; [apply reads_only_ask|].
    intros []; cbn [negb]; [|apply reads_only_raise].
    apply reads_only_bind; [apply reads_only_query|].
    intros ns. apply reads_only_ask.
  - unfold lsdb. apply reads_only_bind; [apply reads_only_query|].
    intros ns. apply reads_only_ask.
  - apply reads_only_ask.
  - unfold query_links. apply reads_only_bind; [apply reads_only_glob|].
    intros ps. apply reads_only_ret.
Qed.

End Readers.

(** ** Scanning a table *)

Lemma omap_filter_name {A B} (F : A → option (string * B)) (g : string → A)
    (p : string → bool) (ns : list string) :
  (∀ n kd, F (g n) = Some kd → kd.1 = n) →
  omap F (g <$> List.filter p ns)
  = List.filter (λ kd, p kd.1) (omap F (g <$> ns)).
Proof.
  intros Hname. induction ns as [|n ns IH]; [done|].
  cbn [List.filter fmap list_fmap omap list_omap].
  destruct (F (g n)) as [kd|] eqn:HF.
  - cbn [List.filter]. rewrite (Hname _ _ HF).
    destruct (p n); cbn [fmap list_fmap omap list_omap]; [|done].
    rewrite HF. by f_equal.
  - destruct (p n); cbn [fmap list_fmap omap list_omap]; [|done].
    by rewrite HF.
Qed.

Lemma filter_all {A} (p : A → bool) (xs : list A) :
  (∀ x, p x = true) → List.filter p xs = xs.
Proof.
  intros Hp. induction xs as [|x xs IH]; [done|].
  cbn [List.filter]. by rewrite Hp, IH.
Qed.

Section Scanning.
Context `{Runtime}.
Variable self : FSDB.

(** X4: [scan] with a pattern yields what [scan] of the whole table yields,
    in the same order, restricted to the keys the pattern matches. *)
Theorem scan_pattern_selects (table pat : string) (w : world) :
  safe table = true → one_segment pat = true →
  ∃ r, scan self table "*" w = (Ret r, w)
       ∧ scan self table pat w
         = (Ret (List.filter (λ kd, fnmatch pat kd.1) r), w).
Proof.
  intros Ht Hp. eexists. split.
  - unfold scan. erewrite bind_ret; [|by apply _target_f_table].
    erewrite bind_ret; [|by apply glob_eq]. reflexivity.
  - unfold scan. erewrite bind_ret; [|by apply _target_f_table].
    erewrite bind_ret; [|by apply glob_eq]. unfold ask. f_equal. f_equal.
    destruct (is_dir (files w) (root self </> table)); [|done].
    destruct (os_listdir (files w) (root self </> table)) as [e|ns]; [done|].
    rewrite (filter_all (fnmatch "*")) by apply fnmatch_all.
    apply omap_filter_name. intros n [k d]. rewrite path_name_child.
    destruct (is_file _ _); [|done]. cbn [negb].
    destruct (Py.contains ":" n); [done|].
    destruct (read_file _ _) as [|c]; [done|].
    destruct (json_loads c); [|done]. by intros [= <- _].
Qed.

(** X5: where the path of the table is not a directory (the table is
    missing, or a file stands there), [scan] and [query_links] return the
    empty list; they do not raise. *)
Theorem missing_table_reads_empty (table : string) (w : world) :
  is_dir (files w) (root self </> table) = false →
  (∀ pat, safe table = true → one_segment pat = true →
     scan self table pat w = (Ret [], w))
  ∧ (∀ left right, one_segment (left +:+ ":" +:+ right) = true →
       query_links self table left right w = (Ret [], w)).
Proof.
  intros Hd. split.
  - intros pat Ht Hp. unfold scan.
    erewrite bind_ret; [|by apply _target_f_table].
    erewrite bind_ret; [|by apply glob_eq]. by rewrite Hd.
  - intros l r Hp. unfold query_links.
    erewrite bind_ret; [|by apply glob_eq]. by rewrite Hd.
Qed.

End Scanning.

(** ** Listing the tables *)

Lemma joinpath_dot p : p </> "." = p.
Proof. destruct p. unfold joinpath. cbn. by rewrite app_nil_r. Qed.

Section Tables2.
Context `{Runtime}.
Variable self : FSDB.

Local Abbreviation R := (parts (root self)).

Lemma lsdb_eq w l :
  resolve (files w) true (root self) = Found l Dir →
  lsdb self w
  = (Ret (List.filter (λ n, is_dir (files w) (child (root self) n))
            (entries (files w) l)), w).
Proof.
  intros Hl. unfold lsdb, mbind, M_bind, query, ask, os_listdir.
  by rewrite Hl.
Qed.

(** X6: [lsdb] returns, each once, the names of the entries of the root that
    are directories (links to directories among them); it raises the error
    of the listing when the root is not a directory. In a store laid out by
    the engine these are the names of the tables. *)
Theorem lsdb_lists_directories (w : world) :
  (∀ l, resolve (files w) true (root self) = Found l Dir →
     ∃ ns, lsdb self w = (Ret ns, w) ∧ NoDup ns ∧
       ∀ n, n ∈ ns ↔
            is_Some (files w !! (l ++ [n]))
            ∧ is_dir (files w) (child (root self) n) = true)
  ∧ (is_dir (files w) (root self) = false →
       ∃ e, lsdb self w = (Raise (OSError e), w))
  ∧ (frame_ok self (files w) →
       ∃ ns, lsdb self w = (Ret ns, w) ∧ NoDup ns ∧
         ∀ n, n ∈ ns ↔ files w !! (R ++ [n]) = Some Dir).
Proof.
  split_and!.
  - intros l Hl. eexists. split; [by apply lsdb_eq|split].
    + apply NoDup_bool_filter, NoDup_entries.
    + intros n. by rewrite elem_of_bool_filter, elem_of_entries.
  - intros Hd. unfold lsdb, mbind, M_bind, query, os_listdir.
    unfold is_dir in Hd.
    destruct (resolve (files w) true (root self)) as [l [c| |tg]| |];
      try done; eauto.
  - intros Hf. eexists. split; [|split].
    + apply lsdb_eq. apply resolve_real_dir, Hf.
    + apply NoDup_bool_filter, NoDup_entries.
    + intros n. rewrite elem_of_bool_filter, elem_of_entries. split.
      * intros [[nd Hn] _].
        by destruct (frame_table self _ n Hf) as [?|?]; [congruence|].
      * intros Hn. split; [by eexists|].
        destruct (fr_shape _ _ Hf [n] Dir) as [Hp _]; [done|done|].
        rewrite Forall_singleton in Hp.
        unfold is_dir. rewrite (resolve_table self) by done. by rewrite Hn.
Qed.

(** X7: the path guard lets the empty name and the single dot through, and
    joined to the root they give the root itself: [drop] of such a name
    removes the root directory with every table in it and returns [True],
    and the store cannot be listed any more. *)
Theorem drop_of_empty_name_removes_root (name : string) (w : world) :
  name = "" ∨ name = "." → real_dir (files w) R → R ≠ [] →
  safe name = true
  ∧ drop self name w = (Ret true, mkWorld (prune (files w) R) (clock w))
  ∧ (∀ l, prune (files w) R !! (R ++ l) = None)
  ∧ ∃ e, lsdb self (mkWorld (prune (files w) R) (clock w))
         = (Raise (OSError e), mkWorld (prune (files w) R) (clock w)).
Proof.
  intros Hname Hr Hne.
  assert (root self </> name = root self) as Hj.
  { destruct Hname as [-> | ->]; [apply joinpath_empty|apply joinpath_dot]. }
  split_and!.
  - by destruct Hname as [-> | ->].
  - unfold drop. rewrite Hj. erewrite bind_ret; [|reflexivity].
    unfold path_exists. rewrite (resolve_real_dir _ _ _ Hr).
    erewrite bind_ret; [reflexivity|].
    unfold shutil_rmtree, rmtree. rewrite (resolve_real_dir _ _ _ Hr).
    by destruct R.
  - intros l. destruct (prune (files w) R !! (R ++ l)) as [nd|] eqn:Hl; [|done].
    apply lookup_prune in Hl as [_ Hn]. destruct Hn. by apply prefix_app_r.
  - destruct (root self) as [anc ps] eqn:Hroot. cbn [parts] in *.
    destruct ps as [|x ps' _] using rev_ind; [done|].
    destruct Hr as [Hnd Hd].
    apply Forall_app in Hnd as [Hnd' Hx]. rewrite Forall_singleton in Hx.
    assert (real_dir (prune (files w) (ps' ++ [x])) ps') as Hr'.
    { split; [done|]. intros q Hq Hpre. apply lookup_prune. split.
      - apply Hd; [done|]. by apply prefix_app_r.
      - intros Hp. apply (app_not_prefix ps' [x]); [done|]. by etrans. }
    exists ENOENT. unfold lsdb, mbind, M_bind, query, os_listdir. cbn [files].
    rewrite Hroot.
    change {| anchored := anc; parts := ps' ++ [x] |}
      with (child (mkPath anc ps') x).
    rewrite resolve_child by done. cbn [parts].
    destruct (prune (files w) (ps' ++ [x]) !! (ps' ++ [x])) as [nd|] eqn:Hl;
      [|done].
    apply lookup_prune in Hl as [_ Hn]. by destruct Hn.
Qed.

End Tables2.

(** ** Records: what is written is what is read *)

Lemma truthy_Some `{Runtime} (d : document) : truthy (Some d) = true ↔ d ≠ ∅.
Proof.
  unfold truthy. rewrite negb_true_iff, bool_decide_eq_false.
  by rewrite dom_empty_iff_L.
Qed.

Section Records.
Context `{Runtime}.
Variable self : FSDB.

Local Abbreviation R := (parts (root self)).
Local Abbreviation W := (parts (workdir self)).

Hypothesis uuid_plain : ∀ n, Py.contains "/" (uuid1 n) = false.

(** The run of [_write] and [_update_index] on a store in order, with what
    it changes: the record file, and entries of the indexes of the table. *)
Lemma write_sync_run tb pk data t0 n :
  store_ok self t0 → key_ok tb = true → pk_ok pk = true → doc_ok data →
  t0 !! (R ++ [tb]) = Some Dir →
  ∃ t',
    (_write self tb pk data ≫= λ _,
     _update_index self tb pk (record_doc self t0 tb pk) (Some data))
      (mkWorld t0 n)
    = (Ret (), mkWorld t' (S n))
    ∧ store_ok self t'
    ∧ t' !! (R ++ [tb; pk]) = Some (File (json_dumps data))
    ∧ (∀ x val, t0 !! (R ++ [tb; x]) = Some Dir →
         data !! field_of x = Some val →
         t' !! (R ++ [tb; x; py_str val]) = Some (link_to pk))
    ∧ (∀ l, l ≠ R ++ [tb; pk] → (∀ x v, l ≠ R ++ [tb; x; v]) →
         t' !! l = t0 !! l).
Proof.
  intros Hok Hkt Hkp [Hround Htame] Ht. pose proof Hok as [Hf Hsound].
  pose proof Hkt as [Hst Hpt]%andb_true_iff.
  pose proof Hkp as [[Hsp Hpp]%andb_true_iff _]%andb_true_iff.
  pose proof (record_place self _ tb pk Hf Hkp) as Hplace.
  set (t1 := <[R ++ [tb; pk] := File (json_dumps data)]> t0).
  assert (frame_ok self t1) as Hf1.
  { apply frame_insert; try done.
    - by repeat constructor.
    - intros Hl. by destruct Hplace as [?|[c ?]]; congruence.
    - intros ???? _ [= <-]. rewrite Hround. by intros [= <-]. }
  destruct (_update_index_ok self tb pk (record_doc self t0 tb pk)
              (Some data) t1 (S n))
    as (t' & Hrun & Hok' & _ & Hnew & Hsame); try done.
  - intros d Hd. by apply (fr_tame _ _ Hf tb pk).
  - unfold t1. by rewrite lookup_insert_ne by (by intros ?%app_inv_head).
  - apply syncing_start; try done.
    + unfold record_doc, t1. by rewrite lookup_insert_eq.
    + intros tb' k Hne. apply record_doc_insert_other.
      intros ?%app_inv_head. congruence.
    + intros a b c. unfold t1.
      by rewrite lookup_insert_ne by (by intros ?%app_inv_head).
    + intros i Hi. unfold t1. rewrite lookup_insert_ne; [done|].
      intros [= <-]%app_inv_head. destruct Hplace as [?|[c ?]]; congruence.
  - exists t'. split_and!; [|done| | |].
    + erewrite bind_ret; [exact Hrun|].
      rewrite (_write_ok self tb pk data (mkWorld t0 n)); try done;
        try apply Hf.
    + rewrite Hsame by (by intros x v ?%app_inv_head).
      unfold t1. by rewrite lookup_insert_eq.
    + intros x val Hx Hv. apply Hnew; [|done]. unfold t1.
      rewrite lookup_insert_ne; [done|].
      intros [= <-]%app_inv_head. destruct Hplace as [?|[c ?]]; congruence.
    + intros l Hl Hent. rewrite Hsame by done. unfold t1.
      by rewrite lookup_insert_ne.
Qed.

Lemma get_written tb pk data w :
  frame_ok self (files w) → key_ok tb = true → pk_ok pk = true →
  json_loads (json_dumps data) = Some data →
  files w !! (R ++ [tb; pk]) = Some (File (json_dumps data)) →
  get self tb pk w = (Ret (Some data), w).
Proof.
  intros Hf Hkt [[Hsp Hpp]%andb_true_iff _]%andb_true_iff Hround Hl.
  rewrite get_record_doc by done. unfold record_doc. by rewrite Hl, Hround.
Qed.

Lemma get_elsewhere tb pk tb' k w w' :
  frame_ok self (files w) → frame_ok self (files w') →
  key_ok tb' = true → key_ok k = true → (tb', k) ≠ (tb, pk) →
  (∀ l, l ≠ R ++ [tb; pk] → (∀ x v, l ≠ R ++ [tb; x; v]) →
        files w' !! l = files w !! l) →
  (get self tb' k w').1 = (get self tb' k w).1.
Proof.
  intros Hf Hf' Hkt [Hsk Hpk]%andb_true_iff Hne Hsame.
  rewrite !get_record_doc by done. cbn [fst]. f_equal.
  unfold record_doc. rewrite Hsame; [done| |].
  - intros ?%app_inv_head. congruence.
  - by intros x v ?%app_inv_head.
Qed.

(** X8: round trip of [insert]: in a store in order, for a table that
    exists, a key that is free and a document the codec gives back and whose
    values are plain names, [insert] returns normally and [get] of the key
    then returns the document; [get] of every other record returns what it
    returned before. *)
Theorem insert_then_get (tb pk : string) (data : document) (w : world) :
  store_ok self (files w) → key_ok tb = true → pk_ok pk = true →
  doc_ok data →
  files w !! (R ++ [tb]) = Some Dir → files w !! (R ++ [tb; pk]) = None →
  ∃ w', insert self tb pk data w = (Ret (), w')
        ∧ store_ok self (files w')
        ∧ get self tb pk w' = (Ret (Some data), w')
        ∧ ∀ tb' k, key_ok tb' = true → key_ok k = true →
            (tb', k) ≠ (tb, pk) →
            (get self tb' k w').1 = (get self tb' k w).1.
Proof.
  destruct w as [t n]. cbn [files]. intros Hok Hkt Hkp Hd Ht Hfree.
  pose proof Hok as [Hf _].
  pose proof Hkt as [Hst Hpt]%andb_true_iff.
  pose proof Hkp as [[Hsp Hpp]%andb_true_iff _]%andb_true_iff.
  destruct (write_sync_run tb pk data t n Hok Hkt Hkp Hd Ht)
    as (t' & Hrun & Hok' & Hrec & _ & Hsame).
  exists (mkWorld t' (S n)). split_and!; [|done| |].
  - unfold insert. erewrite bind_ret; [|by apply _target_f_record].
    rewrite (joinpath_plain _ _ Hpt), (joinpath_plain _ _ Hpp).
    erewrite bind_ret; [|reflexivity]. cbn [files].
    rewrite (path_exists_record self) by done.
    rewrite Hfree, bool_decide_eq_false_2 by (by intros [??]).
    unfold record_doc in Hrun. by rewrite Hfree in Hrun.
  - apply get_written; try done; [apply Hok'|apply Hd].
  - intros tb' k Hkt' Hk Hne.
    by apply (get_elsewhere tb pk); try done; apply Hok'.
Qed.

(** X9: round trip of [upsert]: in a store in order, for a table that exists
    and a document the codec gives back and whose values are plain names,
    [upsert] returns normally whether or not the key holds a record, and
    [get] of the key then returns the document; [get] of every other record
    returns what it returned before. *)
Theorem upsert_then_get (tb pk : string) (data : document) (w : world) :
  store_ok self (files w) → key_ok tb = true → pk_ok pk = true →
  doc_ok data → files w !! (R ++ [tb]) = Some Dir →
  ∃ w', upsert self tb pk data w = (Ret (), w')
        ∧ store_ok self (files w')
        ∧ get self tb pk w' = (Ret (Some data), w')
        ∧ ∀ tb' k, key_ok tb' = true → key_ok k = true →
            (tb', k) ≠ (tb, pk) →
            (get self tb' k w').1 = (get self tb' k w).1.
Proof.
  destruct w as [t n]. cbn [files]. intros Hok Hkt Hkp Hd Ht.
  pose proof Hok as [Hf _].
  pose proof Hkp as [[Hsp Hpp]%andb_true_iff _]%andb_true_iff.
  destruct (write_sync_run tb pk data t n Hok Hkt Hkp Hd Ht)
    as (t' & Hrun & Hok' & Hrec & _ & Hsame).
  exists (mkWorld t' (S n)). split_and!; [|done| |].
  - unfold upsert. erewrite bind_ret; [|by apply get_record_doc]. done.
  - apply get_written; try done; [apply Hok'|apply Hd].
  - intros tb' k Hkt' Hk Hne.
    by apply (get_elsewhere tb pk); try done; apply Hok'.
Qed.

(** X10: [update] of a key at which no file can be read raises its
    FileNotFoundError and leaves the world as it was; in a store in order,
    on a record that holds a document other than the empty one, with a new
    document the codec gives back and whose values are plain names, it
    returns normally, [get] of the key then returns the new document, and
    [get] of every other record returns what it returned before. *)
Theorem update_missing_or_replaces (tb pk : string) (data : document)
    (w : world) :
  (safe tb = true → safe pk = true →
   is_file (files w) (root self </> tb </> pk) = false →
   update self tb pk data w
   = (Raise (FileNotFoundError
               ("Record " +:+ pk +:+ " in " +:+ tb +:+ " is missing")), w))
  ∧ (store_ok self (files w) → key_ok tb = true → pk_ok pk = true →
     doc_ok data →
     ∀ d, get self tb pk w = (Ret (Some d), w) → d ≠ ∅ →
     ∃ w', update self tb pk data w = (Ret (), w')
           ∧ store_ok self (files w')
           ∧ get self tb pk w' = (Ret (Some data), w')
           ∧ ∀ tb' k, key_ok tb' = true → key_ok k = true →
               (tb', k) ≠ (tb, pk) →
               (get self tb' k w').1 = (get self tb' k w).1).
Proof.
  split.
  - intros Ht Hp Hfile. unfold update.
    erewrite bind_ret; [|by apply get_eq].
    unfold read_file. unfold is_file in Hfile.
    by destruct (resolve (files w) true (root self </> tb </> pk))
      as [? []| |].
  - destruct w as [t n]. cbn [files]. intros Hok Hkt Hkp Hd d Hget Hne.
    pose proof Hok as [Hf _].
    pose proof Hkp as [[Hsp Hpp]%andb_true_iff _]%andb_true_iff.
    rewrite get_record_doc in Hget by done. cbn [files] in Hget.
    injection Hget as Hdoc.
    assert (t !! (R ++ [tb]) = Some Dir) as Ht.
    { unfold record_doc in Hdoc.
      destruct (t !! (R ++ [tb; pk])) as [nd|] eqn:Hl; [|done].
      by destruct (frame_entry self _ _ _ _ Hf Hl). }
    destruct (write_sync_run tb pk data t n Hok Hkt Hkp Hd Ht)
      as (t' & Hrun & Hok' & Hrec & _ & Hsame).
    exists (mkWorld t' (S n)). split_and!; [|done| |].
    + unfold update. erewrite bind_ret; [|by apply get_record_doc].
      cbn [files]. rewrite Hdoc in Hrun |- *.
      by rewrite (proj2 (truthy_Some d) Hne).
    + apply get_written; try done; [apply Hok'|apply Hd].
    + intros tb' k Hkt' Hk Hne'.
      by apply (get_elsewhere tb pk); try done; apply Hok'.
Qed.

(** X11: in a store in order, [insert], [upsert] and [update] into a table
    that does not exist raise a FileNotFoundError, that of [_write] for the
    first two and that of the missing record for [update], and leave the
    world as it was: a table is never made by writing a record. *)
Theorem writes_need_the_table (tb pk : string) (data : document) (w : world) :
  frame_ok self (files w) → key_ok tb = true → pk_ok pk = true →
  files w !! (R ++ [tb]) = None →
  insert self tb pk data w
  = (Raise (FileNotFoundError ("Table " +:+ tb +:+ " does not exist")), w)
  ∧ upsert self tb pk data w
    = (Raise (FileNotFoundError ("Table " +:+ tb +:+ " does not exist")), w)
  ∧ update self tb pk data w
    = (Raise (FileNotFoundError
                ("Record " +:+ pk +:+ " in " +:+ tb +:+ " is missing")), w).
Proof.
  intros Hf Hkt Hkp Hno.
  pose proof Hkt as [Hst Hpt]%andb_true_iff.
  pose proof Hkp as [[Hsp Hpp]%andb_true_iff _]%andb_true_iff.
  assert (files w !! (R ++ [tb; pk]) = None) as Hrec.
  { destruct (files w !! (R ++ [tb; pk])) as [nd|] eqn:Hl; [|done].
    destruct (frame_entry self _ _ _ _ Hf Hl) as [? _]. congruence. }
  assert (_write self tb pk data w
          = (Raise (FileNotFoundError
                      ("Table " +:+ tb +:+ " does not exist")), w)) as Hw.
  { unfold _write. erewrite bind_ret; [|by apply _target_f_table].
    erewrite bind_ret; [|reflexivity].
    rewrite (joinpath_plain _ _ Hpt). unfold path_exists.
    rewrite (resolve_table self) by done. by rewrite Hno. }
  assert (get self tb pk w = (Ret None, w)) as Hget.
  { rewrite get_record_doc by done. unfold record_doc. by rewrite Hrec. }
  split_and!.
  - unfold insert. erewrite bind_ret; [|by apply _target_f_record].
    rewrite (joinpath_plain _ _ Hpt), (joinpath_plain _ _ Hpp).
    erewrite bind_ret; [|reflexivity].
    rewrite (path_exists_record self) by done.
    rewrite Hrec, bool_decide_eq_false_2 by (by intros [??]).
    by erewrite bind_raise; [|exact Hw].
  - unfold upsert. erewrite bind_ret; [|exact Hget].
    by erewrite bind_raise; [|exact Hw].
  - unfold update. by erewrite bind_ret; [|exact Hget].
Qed.

(** The run of [delete] on a record that holds a document. *)
Lemma delete_run tb pk c t n :
  store_ok self t → key_ok tb = true → pk_ok pk = true →
  t !! (R ++ [tb; pk]) = Some (File c) → truthy (json_loads c) = true →
  ∃ t', delete self tb pk (mkWorld t n) = (Ret true, mkWorld t' n)
        ∧ store_ok self t'
        ∧ t' !! (R ++ [tb; pk]) = None
        ∧ (∀ l, l ≠ R ++ [tb; pk] → (∀ x v, l ≠ R ++ [tb; x; v]) →
             t' !! l = t !! l).
Proof.
  intros Hok Hkt Hkp Hl Htr. pose proof Hok as [Hf _].
  pose proof Hkt as [Hst Hpt]%andb_true_iff.
  pose proof Hkp as [[Hsp Hpp]%andb_true_iff _]%andb_true_iff.
  destruct (frame_entry self _ _ _ _ Hf Hl) as (Hdir & _).
  assert (record_doc self t tb pk = json_loads c) as Hdoc.
  { unfold record_doc. by rewrite Hl. }
  set (t1 := base.delete (R ++ [tb; pk]) t).
  assert (frame_ok self t1) as Hf1.
  { apply frame_delete; [done|done|by rewrite Hl]. }
  destruct (_update_index_ok self tb pk (record_doc self t tb pk) None t1 n)
    as (t' & Hrun & Hok' & _ & _ & Hsame); try done.
  - intros d Hd. by apply (fr_tame _ _ Hf tb pk).
  - unfold t1. by rewrite lookup_delete_ne by (by intros ?%app_inv_head).
  - apply syncing_start; try done.
    + unfold record_doc, t1. by rewrite lookup_delete_eq.
    + intros tb' k Hne. apply record_doc_delete_other.
      intros ?%app_inv_head. congruence.
    + intros a b c'. unfold t1.
      by rewrite lookup_delete_ne by (by intros ?%app_inv_head).
    + intros i Hi. unfold t1. rewrite lookup_delete_ne; [done|].
      intros [= <-]%app_inv_head. congruence.
  - exists t'. split_and!; [|done| |].
    + unfold delete. erewrite bind_ret; [|by apply get_record_doc].
      cbn [files]. rewrite Hdoc, Htr. cbn [negb].
      erewrite bind_ret; [|by apply _target_f_record].
      rewrite (joinpath_plain _ _ Hpt), (joinpath_plain _ _ Hpp).
      erewrite bind_ret; [|reflexivity]. cbn [files].
      rewrite (path_exists_record self) by done.
      rewrite bool_decide_eq_true_2 by (by rewrite Hl).
      erewrite bind_ret; cycle 1.
      { unfold syscall, os_unlink. cbn [files clock].
        rewrite (resolve_record self) by done. rewrite Hdir, Hl.
        reflexivity. }
      fold t1. rewrite <-Hdoc. by erewrite bind_ret; [|exact Hrun].
    + rewrite Hsame by (by intros x v ?%app_inv_head).
      unfold t1. by rewrite lookup_delete_eq.
    + intros l Hne Hent. rewrite Hsame by done. unfold t1.
      by rewrite lookup_delete_ne.
Qed.

(** X12: [delete] of a key at which no file can be read returns [False] and
    leaves the world as it was. In a store in order, [delete] of a record
    that holds a document other than the empty one returns [True]; then
    [get] of the key returns [None], a second [delete] returns [False] and
    changes nothing, no index entry of the table points at the key any more,
    and [get] of every other record returns what it returned before. *)
Theorem delete_absent_or_removes (tb pk : string) (w : world) :
  (safe tb = true → safe pk = true →
   is_file (files w) (root self </> tb </> pk) = false →
   delete self tb pk w = (Ret false, w))
  ∧ (store_ok self (files w) → key_ok tb = true → pk_ok pk = true →
     ∀ d, get self tb pk w = (Ret (Some d), w) → d ≠ ∅ →
     ∃ w', delete self tb pk w = (Ret true, w')
           ∧ store_ok self (files w')
           ∧ get self tb pk w' = (Ret None, w')
           ∧ delete self tb pk w' = (Ret false, w')
           ∧ (∀ i v, files w' !! (R ++ [tb; i; v]) ≠ Some (link_to pk))
           ∧ ∀ tb' k, key_ok tb' = true → key_ok k = true →
               (tb', k) ≠ (tb, pk) →
               (get self tb' k w').1 = (get self tb' k w).1).
Proof.
  split.
  { intros Ht Hp Hfile. unfold delete.
    erewrite bind_ret; [|by apply get_eq].
    unfold read_file. unfold is_file in Hfile.
    by destruct (resolve (files w) true (root self </> tb </> pk))
      as [? []| |]. }
  destruct w as [t n]. cbn [files]. intros Hok Hkt Hkp d Hget Hne.
  pose proof Hok as [Hf _].
  pose proof Hkp as [[Hsp Hpp]%andb_true_iff _]%andb_true_iff.
  rewrite get_record_doc in Hget by done. cbn [files] in Hget.
  injection Hget as Hdoc.
  assert (∃ c, t !! (R ++ [tb; pk]) = Some (File c) ∧ json_loads c = Some d)
    as (c & Hl & Hc).
  { unfold record_doc in Hdoc.
    destruct (t !! (R ++ [tb; pk])) as [[c| |]|]; eauto; done. }
  destruct (delete_run tb pk c t n Hok Hkt Hkp Hl)
    as (t' & Hrun & Hok' & Hgone & Hsame).
  { rewrite Hc. by apply truthy_Some. }
  pose proof Hok' as [Hf' Hs'].
  assert (get self tb pk (mkWorld t' n) = (Ret None, mkWorld t' n)) as Hget'.
  { rewrite get_record_doc by done. unfold record_doc. cbn [files].
    by rewrite Hgone. }
  exists (mkWorld t' n). split_and!; try done.
  - unfold delete. by erewrite bind_ret; [|exact Hget'].
  - intros i v Hl'. destruct (Hs' _ _ _ _ Hl') as (d' & _ & Hd' & _).
    unfold record_doc in Hd'. by rewrite Hgone in Hd'.
  - intros tb' k Hkt' Hk Hne'.
    by apply (get_elsewhere tb pk); try done.
Qed.

End Records.

(** ** Looking a record up by an indexed value *)

Lemma resolve_missing_below t f p a b rest :
  real_dir t (parts p) → String.eqb a ".." = false →
  t !! (parts p ++ [a]) = None →
  resolve t f (mkPath (anchored p) (parts p ++ a :: b :: rest)) = Fail ENOENT.
Proof.
  intros Hr Ha Hl. unfold resolve, MAXSYMLINKS. cbn [resolve_from parts].
  rewrite (walk_into_real_dir _ _ _ _ Hr). cbn [walk]. by rewrite Ha, Hl.
Qed.

Lemma resolve_below_file t f p a b c :
  real_dir t (parts p) → String.eqb a ".." = false →
  t !! (parts p ++ [a]) = Some (File c) →
  resolve t f (child (child p a) b) = Fail ENOTDIR.
Proof.
  intros Hr Ha Hl. unfold resolve, MAXSYMLINKS. cbn [resolve_from parts child].
  rewrite <-app_assoc. rewrite (walk_into_real_dir _ _ _ _ Hr).
  cbn [app walk]. by rewrite Ha, Hl.
Qed.

Lemma NoDup_omap_names {A B} (F : A → option (string * B)) (g : string → A)
    (ns : list string) :
  (∀ n kd, F (g n) = Some kd → kd.1 = n) →
  NoDup ns → NoDup (omap F (g <$> ns)).*1.
Proof.
  intros Hname. induction 1 as [|n ns Hn Hnd IH]; [constructor|].
  cbn [fmap list_fmap omap list_omap].
  destruct (F (g n)) as [kd|] eqn:HF; [|done].
  cbn [fmap list_fmap]. constructor; [|done].
  rewrite (Hname _ _ HF).
  intros (kd' & Hk & Hin)%list_elem_of_fmap.
  apply list_elem_of_omap in Hin as (p & Hp & HF').
  apply list_elem_of_fmap in Hp as (n' & -> & Hn').
  rewrite (Hname _ _ HF') in Hk. by subst n'.
Qed.

Section Lookup.
Context `{Runtime}.
Variable self : FSDB.

Local Abbreviation R := (parts (root self)).

(** An index entry leads to the record file it names. *)
Lemma resolve_entry_target t tb x v k c :
  frame_ok self t →
  t !! (R ++ [tb; x; v]) = Some (link_to k) →
  t !! (R ++ [tb; k]) = Some (File c) →
  resolve t true (child (child (child (root self) tb) x) v)
  = Found (R ++ [tb; k]) (File c).
Proof.
  intros Hf Hl Hk.
  destruct (frame_index_entry self _ _ _ _ _ Hf Hl)
    as (Ht & Hx & Hpt & _ & Hpv & _).
  destruct (frame_entry self _ _ _ _ Hf Hk) as (_ & _ & Hpk & _).
  rewrite resolve_child; [|cbn [parts child]; rewrite snoc2;
                            by apply frame_index_real
                          |by apply plain_not_dotdot].
  cbn [parts child]. rewrite !snoc2. rewrite <-app_assoc. cbn [app].
  rewrite Hl. unfold link_to. cbn [anchored parts].
  rewrite <-snoc2.
  rewrite resolve_from_up by (by apply plain_not_dotdot).
  by rewrite snoc2, Hk.
Qed.

(** Where the index has no entry, nothing exists at the path of the
    entry. *)
Lemma resolve_entry_missing t tb x v :
  frame_ok self t → plain tb = true → plain x = true → plain v = true →
  t !! (R ++ [tb; x; v]) = None →
  path_exists t (child (child (child (root self) tb) x) v) = false.
Proof.
  intros Hf Hpt Hpx Hpv Hl. unfold path_exists.
  destruct (frame_table self t tb Hf) as [Hno|Hdir].
  - unfold child. cbn [parts anchored]. rewrite <-!app_assoc. cbn [app].
    rewrite (resolve_missing_below t true (root self));
      [done|apply Hf|by apply plain_not_dotdot|done].
  - destruct (t !! (R ++ [tb; x])) as [nd|] eqn:Hx.
    + destruct (frame_entry self _ _ _ _ Hf Hx)
        as (_ & _ & _ & [[c ->]|[-> _]]).
      * rewrite (resolve_below_file _ _ _ _ _ c);
          [done|by apply frame_table_real|by apply plain_not_dotdot|].
        cbn [parts child]. by rewrite snoc2.
      * rewrite resolve_child; [|cbn [parts child]; rewrite snoc2;
                                  by apply frame_index_real
                                |by apply plain_not_dotdot].
        cbn [parts child]. rewrite !snoc2. rewrite <-app_assoc. cbn [app].
        by rewrite Hl.
    + rewrite resolve_grandchild_missing;
        [done|by apply frame_table_real|by apply plain_not_dotdot|].
      cbn [parts child]. by rewrite snoc2.
Qed.

(** [find] in a store in order: the record the entry of the value points
    at, as [get] returns it. *)
Lemma find_run tb f v w :
  store_ok self (files w) → key_ok tb = true → field_ok f = true →
  plain v = true →
  find self tb f v w
  = (Ret (match files w !! (R ++ [tb; "@" +:+ f; v]) with
          | Some (Symlink tg) => record_doc self (files w) tb (path_name tg)
          | _ => None
          end), w).
Proof.
  intros [Hf Hs] [Hst Hpt]%andb_true_iff Hkf Hpv.
  destruct (index_name_inv _ Hkf) as (_ & Hsx & Hpx & _).
  set (x := "@" +:+ f) in *.
  unfold find. erewrite bind_ret; [|by apply _target_f_record]. fold x.
  rewrite (joinpath_plain _ _ Hpt), (joinpath_plain _ _ Hpx).
  rewrite (joinpath_plain _ _ Hpv).
  erewrite bind_ret; [|reflexivity].
  destruct (files w !! (R ++ [tb; x; v])) as [nd|] eqn:Hl.
  - destruct (frame_index_entry self _ _ _ _ _ Hf Hl)
      as (_ & _ & _ & _ & _ & k & ->).
    destruct (Hs _ _ _ _ Hl) as (d & val & Hd & _).
    assert (∃ c, files w !! (R ++ [tb; k]) = Some (File c)) as [c Hk].
    { unfold record_doc in Hd.
      destruct (files w !! (R ++ [tb; k])) as [[c| |]|]; eauto; done. }
    unfold path_exists, ask, read_file.
    rewrite (resolve_entry_target _ _ _ _ _ _ Hf Hl Hk). cbv beta iota.
    cbn [files]. rewrite (resolve_entry_target _ _ _ _ _ _ Hf Hl Hk).
    unfold link_to, path_name, record_doc. cbn [parts List.last].
    by rewrite Hk.
  - by rewrite resolve_entry_missing.
Qed.

(** X13: in a store in order, for a value that is one plain name, [find]
    returns a record exactly when the index of the field has an entry for
    the value, and the record it returns is one that [get] returns under the
    key the entry names and that holds the value for the field: the index
    never answers with a record that has since changed its value or was
    deleted. *)
Theorem find_returns_current_record (tb f v : string) (w : world) :
  store_ok self (files w) → key_ok tb = true → field_ok f = true →
  plain v = true →
  ∃ r, find self tb f v w = (Ret r, w)
       ∧ (is_Some r ↔ is_Some (files w !! (R ++ [tb; "@" +:+ f; v])))
       ∧ ∀ d, r = Some d →
           ∃ k val, files w !! (R ++ [tb; "@" +:+ f; v]) = Some (link_to k)
                    ∧ get self tb k w = (Ret (Some d), w)
                    ∧ d !! f = Some val ∧ py_str val = v.
Proof.
  intros Hok Hkt Hkf Hpv. pose proof Hok as [Hf Hs].
  eexists. split; [by apply find_run|].
  destruct (files w !! (R ++ [tb; "@" +:+ f; v])) as [nd|] eqn:Hl.
  - destruct (frame_index_entry self _ _ _ _ _ Hf Hl)
      as (_ & _ & _ & _ & _ & k & ->).
    destruct (Hs _ _ _ _ Hl) as (d & val & Hd & Hv & Hstr).
    rewrite (index_name_field f Hkf) in Hv.
    unfold link_to, path_name. cbn [parts List.last]. rewrite Hd.
    split; [by split; eauto|].
    intros d' [= <-]. exists k, val. split_and!; try done.
    assert (∃ c, files w !! (R ++ [tb; k]) = Some (File c)) as [c Hk].
    { unfold record_doc in Hd.
      destruct (files w !! (R ++ [tb; k])) as [[c| |]|]; eauto; done. }
    destruct (frame_entry self _ _ _ _ Hf Hk) as (_ & _ & Hpk & _).
    rewrite get_record_doc; try done; [by rewrite Hd|].
    by eapply frame_entry_safe.
  - split; [|done]. by split; intros [??].
Qed.

Lemma has_index_eq tb f w :
  frame_ok self (files w) → key_ok tb = true → field_ok f = true →
  has_index self tb f w
  = (Ret (bool_decide (files w !! (R ++ [tb; "@" +:+ f]) = Some Dir)), w).
Proof.
  intros Hf [Hst Hpt]%andb_true_iff Hkf.
  destruct (index_name_inv _ Hkf) as (_ & _ & Hpx & _).
  unfold has_index, ask, is_dir.
  rewrite (joinpath_plain _ _ Hpt), (joinpath_plain _ _ Hpx).
  rewrite (resolve_record self) by done.
  destruct (files w !! (R ++ [tb; "@" +:+ f])) as [nd|] eqn:Hx.
  - destruct (frame_entry self _ _ _ _ Hf Hx) as (-> & _ & _ & [[c ->]|[-> _]]).
    + by rewrite bool_decide_eq_false_2.
    + by rewrite bool_decide_eq_true_2.
  - rewrite bool_decide_eq_false_2 by done.
    by destruct (files w !! (R ++ [tb])).
Qed.

End Lookup.

Section LookupAfterWrite.
Context `{Runtime}.
Variable self : FSDB.

Local Abbreviation R := (parts (root self)).

Hypothesis uuid_plain : ∀ n, Py.contains "/" (uuid1 n) = false.

(** X14: in a store in order, when [insert], [update] or [upsert] of a
    document the codec gives back and whose values are plain names returns
    normally in a table that has an index on a field of the document, [find]
    of the document's value for that field returns the document: the index
    answers with the last writer of a value. *)
Theorem written_value_is_found (tb pk f : string) (data : document)
    (val : value) (o : op) (w w' : world) :
  store_ok self (files w) → key_ok tb = true → pk_ok pk = true →
  doc_ok data → field_ok f = true →
  has_index self tb f w = (Ret true, w) → data !! f = Some val →
  o ∈ [Insert tb pk data; Update tb pk data; Upsert tb pk data] →
  run_op self o w = (Ret (), w') →
  find self tb f (py_str val) w' = (Ret (Some data), w').
Proof.
  destruct w as [t n]. intros Hok Hkt Hkp Hd Hkf Hidx Hv Ho Hret.
  cbn [files] in Hok. pose proof Hok as [Hf _].
  pose proof Hkt as [Hst Hpt]%andb_true_iff.
  pose proof Hkp as [[Hsp Hpp]%andb_true_iff _]%andb_true_iff.
  rewrite has_index_eq in Hidx by done. cbn [files] in Hidx.
  injection Hidx as Hidx. apply bool_decide_eq_true in Hidx.
  destruct (frame_entry self _ _ _ _ Hf Hidx) as (Ht & _).
  destruct (write_sync_run self uuid_plain tb pk data t n Hok Hkt Hkp Hd Ht)
    as (t' & Hrun & Hok' & Hrec & Hnew & _).
  assert (w' = mkWorld t' (S n)) as ->.
  { apply elem_of_cons in Ho as [->|Ho];
      [|apply elem_of_cons in Ho as [->|Ho];
        [|apply elem_of_cons in Ho as [->|Ho];
          [|by apply elem_of_nil in Ho]]];
      cbn [run_op] in Hret.
    - unfold insert in Hret.
      erewrite bind_ret in Hret; [|by apply _target_f_record].
      rewrite (joinpath_plain _ _ Hpt), (joinpath_plain _ _ Hpp) in Hret.
      erewrite bind_ret in Hret; [|reflexivity]. cbn [files] in Hret.
      rewrite (path_exists_record self) in Hret by done.
      destruct (t !! (R ++ [tb; pk])) as [nd|] eqn:Hl.
      { by rewrite bool_decide_eq_true_2 in Hret. }
      rewrite bool_decide_eq_false_2 in Hret by (by intros [??]).
      unfold record_doc in Hrun. rewrite Hl in Hrun.
      rewrite Hrun in Hret. by injection Hret as <-.
    - unfold update in Hret.
      erewrite bind_ret in Hret; [|by apply get_record_doc].
      cbn [files] in Hret.
      destruct (truthy (record_doc self t tb pk)); [|done].
      cbn [negb] in Hret. rewrite Hrun in Hret. by injection Hret as <-.
    - unfold upsert in Hret.
      erewrite bind_ret in Hret; [|by apply get_record_doc].
      cbn [files] in Hret. rewrite Hrun in Hret. by injection Hret as <-. }
  rewrite find_run; try done; [|exact (proj2 Hd f val Hv)].
  cbn [files]. rewrite (Hnew ("@" +:+ f) val Hidx)
    by (by rewrite (index_name_field f Hkf)).
  unfold link_to, path_name, record_doc. cbn [parts List.last].
  rewrite Hrec. by destruct Hd as [-> _].
Qed.

End LookupAfterWrite.

(** ** What [scan] yields *)

Section ScanRecords.
Context `{Runtime}.
Variable self : FSDB.

Local Abbreviation R := (parts (root self)).

(** What [get] returns is the document of a record file under a plain
    name. *)
Lemma get_Some_record tb pk d w :
  frame_ok self (files w) → key_ok tb = true →
  get self tb pk w = (Ret (Some d), w) →
  safe pk = true ∧ plain pk = true
  ∧ record_doc self (files w) tb pk = Some d.
Proof.
  intros Hf Hkt Hget. pose proof Hkt as [Hst Hpt]%andb_true_iff.
  destruct (safe pk) eqn:Hsp; cycle 1.
  { unfold get in Hget.
    by rewrite (bind_raise _ _ _ _ _
                  (_target_f_unsafe_name self tb pk w Hst Hsp)) in Hget. }
  assert (∀ p, p = child (root self) tb →
            match read_file (files w) p with
            | inr c => json_loads c
            | inl _ => None
            end = None) as Hdir.
  { intros p ->. unfold read_file. rewrite (resolve_table self) by done.
    by destruct (files w !! (R ++ [tb])). }
  destruct (decide (pk = "")) as [->|Hne1].
  { rewrite get_eq in Hget by done.
    rewrite joinpath_empty, (joinpath_plain _ _ Hpt) in Hget.
    by rewrite Hdir in Hget. }
  destruct (decide (pk = ".")) as [->|Hne2].
  { rewrite get_eq in Hget by done.
    rewrite joinpath_dot, (joinpath_plain _ _ Hpt) in Hget.
    by rewrite Hdir in Hget. }
  pose proof (safe_plain _ Hsp Hne1 Hne2) as Hpp.
  rewrite get_record_doc in Hget by done. by injection Hget as ->.
Qed.

Lemma scan_star_run tb w :
  safe tb = true →
  ∃ ns, NoDup ns
    ∧ (∀ l, resolve (files w) true (root self </> tb) = Found l Dir →
            ns = entries (files w) l)
    ∧ scan self tb "*" w
      = (Ret (omap (λ p,
                if negb (is_file (files w) p) then None
                else if Py.contains ":" (path_name p) then None
                else match read_file (files w) p with
                     | inr c => (λ d, (path_name p, d)) <$> json_loads c
                     | inl _ => None
                     end) (child (root self </> tb) <$> ns)), w).
Proof.
  intros Hst.
  exists (if is_dir (files w) (root self </> tb) then
            match os_listdir (files w) (root self </> tb) with
            | inr ns => ns
            | inl _ => []
            end
          else []).
  split_and!.
  - unfold os_listdir.
    destruct (is_dir _ _); [|constructor].
    destruct (resolve _ _ _) as [? []| |]; try constructor.
    apply NoDup_entries.
  - intros l Hl. unfold is_dir, os_listdir. by rewrite Hl.
  - unfold scan. erewrite bind_ret; [|by apply _target_f_table].
    erewrite bind_ret; [|by apply glob_eq]. unfold ask. do 3 f_equal.
    destruct (is_dir _ _); [|done].
    destruct (os_listdir _ _); [done|].
    by rewrite (filter_all (fnmatch "*")) by apply fnmatch_all.
Qed.

(** [scan] of a table that is no directory. *)
Lemma scan_not_dir tb pat w :
  safe tb = true → one_segment pat = true →
  is_dir (files w) (root self </> tb) = false →
  scan self tb pat w = (Ret [], w).
Proof.
  intros Ht Hp Hd. unfold scan.
  erewrite bind_ret; [|by apply _target_f_table].
  erewrite bind_ret; [|by apply glob_eq]. by rewrite Hd.
Qed.

(** [scan] of a whole table, by the record files of the table. *)
Lemma scan_star_records tb w :
  frame_ok self (files w) → key_ok tb = true →
  ∃ r, scan self tb "*" w = (Ret r, w)
       ∧ NoDup r.*1
       ∧ ∀ pk d, (pk, d) ∈ r ↔
           record_doc self (files w) tb pk = Some d
           ∧ plain pk = true ∧ Py.contains ":" pk = false.
Proof.
  intros Hf Hkt. pose proof Hkt as [Hst Hpt]%andb_true_iff.
  destruct (scan_star_run tb w Hst) as (ns & Hnd & Hns & Hscan).
  eexists. split; [exact Hscan|split].
  - apply NoDup_omap_names; [|done]. intros n [k d].
    rewrite path_name_child.
    destruct (is_file _ _); [|done]. cbn [negb].
    destruct (Py.contains ":" n); [done|].
    destruct (read_file _ _) as [|c]; [done|].
    destruct (json_loads c); [|done]. by intros [= <- _].
  - intros pk d. split.
    + intros Hin.
      destruct (scan_records self tb w Hf Hkt) as (r' & Hscan' & Hr').
      rewrite Hscan in Hscan'. injection Hscan' as <-.
      destruct (Hr' _ _ Hin) as [Hd Hpp]. split_and!; try done.
      by eapply scan_no_colon.
    + intros (Hd & Hpp & Hcolon).
      assert (∃ c, files w !! (R ++ [tb; pk]) = Some (File c)
                   ∧ json_loads c = Some d) as (c & Hl & Hc).
      { unfold record_doc in Hd.
        destruct (files w !! (R ++ [tb; pk])) as [[c| |]|]; eauto; done. }
      destruct (frame_entry self _ _ _ _ Hf Hl) as (Ht & _).
      apply list_elem_of_omap. exists (child (root self </> tb) pk). split.
      * apply list_elem_of_fmap. exists pk. split; [done|].
        rewrite (Hns (R ++ [tb])).
        -- apply elem_of_entries. rewrite snoc2, Hl. eauto.
        -- rewrite (joinpath_plain _ _ Hpt), (resolve_table self) by done.
           by rewrite Ht.
      * rewrite path_name_child, Hcolon, (joinpath_plain _ _ Hpt).
        unfold is_file, read_file.
        rewrite (resolve_record self) by done. rewrite Ht, Hl. cbn [negb].
        by rewrite Hc.
Qed.

(** X15: in a store laid out by the engine, [scan] of a whole table yields
    exactly the pairs of a key without a colon and the document that [get]
    returns for the key, each key once: files that do not parse, link
    records and index directories are passed over in silence. *)
Theorem scan_yields_the_records (tb : string) (w : world) :
  frame_ok self (files w) → key_ok tb = true →
  ∃ r, scan self tb "*" w = (Ret r, w)
       ∧ NoDup r.*1
       ∧ ∀ pk d, (pk, d) ∈ r ↔
           get self tb pk w = (Ret (Some d), w)
           ∧ Py.contains ":" pk = false.
Proof.
  intros Hf Hkt.
  destruct (scan_star_records tb w Hf Hkt) as (r & Hscan & Hnd & Hr).
  exists r. split; [done|split; [done|]].
  intros pk d. rewrite Hr. split.
  - intros (Hd & Hpp & Hcolon). split; [|done].
    assert (safe pk = true) as Hsp.
    { unfold record_doc in Hd.
      destruct (files w !! (R ++ [tb; pk])) as [nd|] eqn:Hl; [|done].
      by eapply frame_entry_safe. }
    rewrite get_record_doc by done. by rewrite Hd.
  - intros [Hget Hcolon].
    by destruct (get_Some_record _ _ _ _ Hf Hkt Hget) as (Hsp & Hpp & Hd).
Qed.

End ScanRecords.

(** ** Making an index *)

Section MakeIndex.
Context `{Runtime}.
Variable self : FSDB.

Local Abbreviation R := (parts (root self)).

(** Where the index has an entry for a value, [find] returns a record
    that holds the value. *)
Lemma find_entry tb f v w :
  store_ok self (files w) → key_ok tb = true → field_ok f = true →
  plain v = true →
  is_Some (files w !! (R ++ [tb; "@" +:+ f; v])) →
  ∃ d val, find self tb f v w = (Ret (Some d), w)
           ∧ d !! f = Some val ∧ py_str val = v.
Proof.
  intros Hok Hkt Hkf Hpv [nd Hl]. pose proof Hok as [Hf Hs].
  destruct (frame_index_entry self _ _ _ _ _ Hf Hl)
    as (_ & _ & _ & _ & _ & k & ->).
  destruct (Hs _ _ _ _ Hl) as (d & val & Hd & Hv & Hstr).
  rewrite (index_name_field f Hkf) in Hv.
  exists d, val. split; [|done].
  rewrite find_run by done. rewrite Hl.
  unfold link_to, path_name. cbn [parts List.last]. by rewrite Hd.
Qed.

(** The loop of [create_index] over the records that [scan] yielded. *)
Lemma index_loop tb f r t1 n :
  key_ok tb = true → field_ok f = true →
  store_ok self t1 → t1 !! (R ++ [tb; "@" +:+ f]) = Some Dir →
  (∀ pk data, (pk, data) ∈ r →
     record_doc self t1 tb pk = Some data ∧ plain pk = true) →
  ∃ t2,
    for_each r (λ '(pk, data),
      match data !! f with
      | Some v => _index self tb pk f (py_str v)
      | None => mret ()
      end) (mkWorld t1 n) = (Ret (), mkWorld t2 n)
    ∧ store_ok self t2
    ∧ (∀ l, (∀ v, l ≠ R ++ [tb; "@" +:+ f; v]) → t2 !! l = t1 !! l)
    ∧ (∀ v, is_Some (t1 !! (R ++ [tb; "@" +:+ f; v])) →
            is_Some (t2 !! (R ++ [tb; "@" +:+ f; v])))
    ∧ (∀ pk data val, (pk, data) ∈ r → data !! f = Some val →
         is_Some (t2 !! (R ++ [tb; "@" +:+ f; py_str val]))).
Proof.
  intros Hkt Hkf. pose proof (index_name_field _ Hkf) as Hfx.
  set (x := "@" +:+ f) in *.
  revert t1. induction r as [|[pk data] r IH]; intros t1 Hok1 Hx1 Hr1.
  { exists t1. split_and!; try done. by intros ??? ?%elem_of_nil. }
  cbn [for_each].
  destruct (Hr1 pk data) as [Hd Hpk]; [by left|].
  destruct (data !! f) as [v|] eqn:Hv.
  - pose proof Hok1 as [Hf1 _].
    set (t1' := <[R ++ [tb; x; py_str v] := link_to pk]> t1).
    destruct (IH t1') as (t2 & Hrun & Hok2 & Hsame & Hmono & Hall).
    + apply (store_ok_entry self t1 tb x pk data v); try done.
      by rewrite Hfx.
    + unfold t1'.
      by rewrite lookup_insert_ne by (by intros ?%app_inv_head).
    + intros pk' data' Hin. unfold t1'.
      rewrite record_doc_insert_other by apply entry_not_record.
      apply Hr1. by right.
    + exists t2. split_and!; try done.
      * erewrite bind_ret; [exact Hrun|].
        rewrite <-Hfx at 1. apply _index_ok; try done.
        apply (fr_tame _ _ Hf1 tb pk data Hd f v Hv).
      * intros l Hl. rewrite Hsame by done. unfold t1'.
        by rewrite lookup_insert_ne.
      * intros v' [nd Hv']. apply Hmono. unfold t1'.
        destruct (decide (py_str v = v')) as [<-|Hne].
        -- rewrite lookup_insert_eq. eauto.
        -- rewrite lookup_insert_ne by (intros ?%app_inv_head; congruence).
           eauto.
      * intros pk' data' val [[= -> ->]|Hin]%elem_of_cons Hval.
        -- assert (val = v) as -> by congruence.
           apply Hmono. unfold t1'. rewrite lookup_insert_eq. eauto.
        -- by eapply Hall.
  - destruct (IH t1) as (t2 & Hrun & Hok2 & Hsame & Hmono & Hall); try done.
    { intros pk' data' Hin. apply Hr1. by right. }
    exists t2. split_and!; try done.
    intros pk' data' val [[= -> ->]|Hin]%elem_of_cons Hval;
      [congruence|by eapply Hall].
Qed.

(** X16: in a store in order, [create_index] on a table that exists, for a
    field at whose index name no record file stands, returns normally; then
    [has_index] answers [True], the records are as they were, and for every
    record without a colon in its key that holds a value for the field,
    [find] of that value returns a record that holds it. *)
Theorem create_index_covers_the_table (tb f : string) (w : world) :
  store_ok self (files w) → key_ok tb = true → field_ok f = true →
  files w !! (R ++ [tb]) = Some Dir →
  (∀ c, files w !! (R ++ [tb; "@" +:+ f]) ≠ Some (File c)) →
  ∃ w', create_index self tb f w = (Ret (), w')
        ∧ store_ok self (files w')
        ∧ has_index self tb f w' = (Ret true, w')
        ∧ (∀ tb' k, key_ok tb' = true → key_ok k = true →
             (get self tb' k w').1 = (get self tb' k w).1)
        ∧ ∀ pk d val,
            get self tb pk w = (Ret (Some d), w) →
            Py.contains ":" pk = false → d !! f = Some val →
            ∃ d' val', find self tb f (py_str val) w' = (Ret (Some d'), w')
                       ∧ d' !! f = Some val'
                       ∧ py_str val' = py_str val.
Proof.
  destruct w as [t n]. cbn [files]. intros Hok Hkt Hkf Ht Hnofile.
  pose proof Hok as [Hf _].
  pose proof Hkt as [Hst Hpt]%andb_true_iff.
  destruct (index_name_inv _ Hkf) as (_ & Hsx & Hpx & _).
  pose proof (index_name_field _ Hkf) as Hfx.
  set (x := "@" +:+ f) in *.
  destruct (scan_star_records self tb (mkWorld t n) Hf Hkt)
    as (r & Hscan & _ & Hr).
  cbn [files] in Hr.
  (* the directory of the index *)
  set (t1 := <[R ++ [tb; x] := Dir]> t).
  assert (mkdir_exist_ok (child (child (root self) tb) x) (mkWorld t n)
          = (Ret (), mkWorld t1 n)) as Hmk.
  { unfold mkdir_exist_ok, os_mkdir, is_dir. cbn [files clock].
    rewrite !(resolve_record self) by done. rewrite Ht.
    destruct (t !! (R ++ [tb; x])) as [nd|] eqn:Hx; [|done].
    destruct (frame_entry self _ _ _ _ Hf Hx) as (_ & _ & _ & [[c ->]|[-> _]]).
    - by destruct (Hnofile c).
    - unfold t1. by rewrite insert_id. }
  assert (∀ l, l ≠ R ++ [tb; x] → t1 !! l = t !! l) as Hsame1.
  { intros l Hl. unfold t1. by rewrite lookup_insert_ne. }
  assert (∀ tb' k, record_doc self t1 tb' k = record_doc self t tb' k)
    as Hrec1.
  { intros tb' k. unfold record_doc, t1.
    destruct (decide ([tb; x] = [tb'; k])) as [[= <- <-]|Hne].
    - rewrite lookup_insert_eq.
      destruct (t !! (R ++ [tb; x])) as [[c| |]|] eqn:Hx; try done.
      by destruct (Hnofile c).
    - by rewrite lookup_insert_ne by (by intros ?%app_inv_head). }
  assert (store_ok self t1) as Hok1.
  { apply (store_ok_sub self t); [done| |].
    - apply (frame_insert self t [tb; x]); try done.
      by repeat constructor.
    - intros tb' i v k. unfold t1.
      by rewrite lookup_insert_ne by (by intros ?%app_inv_head). }
  destruct (index_loop tb f r t1 n Hkt Hkf Hok1)
    as (t2 & Hloop & Hok2 & Hsame2 & _ & Hall).
  { unfold t1. by rewrite lookup_insert_eq. }
  { intros pk data Hin. rewrite Hrec1. by apply Hr in Hin as (? & ? & _). }
  pose proof Hok2 as [Hf2 _].
  assert (∀ tb' k, record_doc self t2 tb' k = record_doc self t tb' k)
    as Hrec2.
  { intros tb' k. rewrite <-Hrec1. unfold record_doc.
    by rewrite Hsame2 by (by intros v ?%app_inv_head). }
  exists (mkWorld t2 n). split_and!; try done.
  - unfold create_index. erewrite bind_ret; [|exact Hscan].
    erewrite bind_ret; [|by apply _target_f_record]. fold x.
    rewrite (joinpath_plain _ _ Hpt), (joinpath_plain _ _ Hpx).
    by erewrite bind_ret; [|exact Hmk].
  - rewrite has_index_eq by done. cbn [files]. fold x.
    rewrite Hsame2 by (by intros v ?%app_inv_head).
    unfold t1. by rewrite lookup_insert_eq, bool_decide_eq_true_2.
  - intros tb' k Hkt' [Hsk Hpk]%andb_true_iff.
    rewrite !get_record_doc by done. cbn [fst files]. by rewrite Hrec2.
  - intros pk d val Hget Hcolon Hv.
    destruct (get_Some_record self tb pk d (mkWorld t n) Hf Hkt Hget)
      as (Hsp & Hpp & Hd).
    cbn [files] in Hd.
    pose proof (fr_tame _ _ Hf tb pk d Hd f val Hv) as Hpv.
    by apply find_entry, (Hall pk d val); [..|apply Hr|].
Qed.

(** X17: [create_index] on a table that does not exist raises the error of
    [mkdir] for the missing directory above, and makes nothing. *)
Theorem create_index_needs_the_table (tb f : string) (w : world) :
  frame_ok self (files w) → key_ok tb = true → field_ok f = true →
  files w !! (R ++ [tb]) = None →
  create_index self tb f w = (Raise (OSError ENOENT), w).
Proof.
  intros Hf Hkt Hkf Hno.
  pose proof Hkt as [Hst Hpt]%andb_true_iff.
  destruct (index_name_inv _ Hkf) as (_ & Hsx & Hpx & _).
  unfold create_index. erewrite bind_ret; cycle 1.
  { apply scan_not_dir; try done.
    rewrite (joinpath_plain _ _ Hpt). unfold is_dir.
    rewrite (resolve_table self) by done. by rewrite Hno. }
  erewrite bind_ret; [|by apply _target_f_record].
  rewrite (joinpath_plain _ _ Hpt), (joinpath_plain _ _ Hpx).
  cbn [for_each]. erewrite bind_raise; [done|].
  unfold mkdir_exist_ok, os_mkdir.
  rewrite (resolve_record self) by done. by rewrite Hno.
Qed.

End MakeIndex.

(** ** Making and dropping tables *)

Lemma lookup_prune_None (t : tree) L l :
  prune t L !! l = None ↔ t !! l = None ∨ L `prefix_of` l.
Proof.
  unfold prune. rewrite map_lookup_filter_None. cbn. split.
  - intros [?|Hn]; [by left|].
    destruct (t !! l) as [nd|] eqn:Hl; [|by left].
    right. apply dec_stable. intros Hp. by apply (Hn nd).
  - intros [?|Hp]; [by left|]. right. intros nd _ Hn. by apply Hn.
Qed.

Lemma lookup_prune_other (t : tree) L l :
  ¬ L `prefix_of` l → prune t L !! l = t !! l.
Proof.
  intros Hn. destruct (t !! l) as [nd|] eqn:Hl.
  - by apply lookup_prune.
  - apply lookup_prune_None. by left.
Qed.

Section MakeAndDrop.
Context `{Runtime}.
Variable self : FSDB.

Local Abbreviation R := (parts (root self)).

(** X18: in a store laid out by the engine, [create] returns normally and
    the table is a directory afterwards, listed by [lsdb]; nothing else
    changes, and when the table was there already nothing changes at all, so
    that [create] can be repeated freely. *)
Theorem create_makes_the_table (tb : string) (w : world) :
  frame_ok self (files w) → key_ok tb = true →
  ∃ w', create self tb w = (Ret (), w')
        ∧ frame_ok self (files w')
        ∧ files w' !! (R ++ [tb]) = Some Dir
        ∧ (∀ l, l ≠ R ++ [tb] → files w' !! l = files w !! l)
        ∧ (files w !! (R ++ [tb]) = Some Dir → w' = w)
        ∧ create self tb w' = (Ret (), w')
        ∧ ∃ ns, lsdb self w' = (Ret ns, w') ∧ tb ∈ ns.
Proof.
  destruct w as [t n]. cbn [files]. intros Hf Hkt.
  pose proof Hkt as [Hst Hpt]%andb_true_iff.
  assert (∀ t0 : tree, frame_ok self t0 →
            create self tb (mkWorld t0 n)
            = (Ret (), mkWorld match t0 !! (R ++ [tb]) with
                               | Some _ => t0
                               | None => <[R ++ [tb] := Dir]> t0
                               end n)) as Hrun.
  { intros t0 Hf0. unfold create.
    erewrite bind_ret; [|by apply _target_f_table].
    rewrite (joinpath_plain _ _ Hpt).
    unfold mkdir_exist_ok, os_mkdir, is_dir. cbn [files clock].
    rewrite !(resolve_table self) by done.
    by destruct (t0 !! (R ++ [tb])). }
  set (t' := match t !! (R ++ [tb]) with
             | Some _ => t
             | None => <[R ++ [tb] := Dir]> t
             end).
  assert (t' !! (R ++ [tb]) = Some Dir) as Hdir.
  { unfold t'. destruct (frame_table self t tb Hf) as [Hno|Hd].
    - by rewrite Hno, lookup_insert_eq.
    - by rewrite Hd. }
  assert (frame_ok self t') as Hf'.
  { unfold t'. destruct (t !! (R ++ [tb])) eqn:Hl; [done|].
    apply (frame_insert self t [tb]); try done. by repeat constructor. }
  exists (mkWorld t' n). cbn [files]. split_and!; try done.
  - by apply Hrun.
  - intros l Hl. unfold t'. destruct (t !! (R ++ [tb])); [done|].
    by rewrite lookup_insert_ne.
  - intros Hd. unfold t'. by rewrite Hd.
  - rewrite (Hrun t' Hf'). by rewrite Hdir.
  - eexists. split.
    + apply lsdb_eq. apply resolve_real_dir, Hf'.
    + apply elem_of_bool_filter. cbn [files]. split.
      * apply elem_of_entries. rewrite Hdir. eauto.
      * unfold is_dir. rewrite (resolve_table self) by done.
        by rewrite Hdir.
Qed.

(** X19: in a store laid out by the engine, [drop] of a table that does not
    exist returns [False] and changes nothing; [drop] of a table that exists
    returns [True] and removes the table with all its records and indexes,
    and nothing else: afterwards [get] finds no record in it, [lspk] raises
    its FileNotFoundError, and a second [drop] returns [False]. *)
Theorem drop_removes_the_table (tb : string) (w : world) :
  frame_ok self (files w) → key_ok tb = true →
  (files w !! (R ++ [tb]) = None → drop self tb w = (Ret false, w))
  ∧ (files w !! (R ++ [tb]) = Some Dir →
     ∃ w', drop self tb w = (Ret true, w')
           ∧ frame_ok self (files w')
           ∧ (∀ l, files w' !! (R ++ tb :: l) = None)
           ∧ (∀ l, ¬ R ++ [tb] `prefix_of` l → files w' !! l = files w !! l)
           ∧ (∀ k, key_ok k = true → get self tb k w' = (Ret None, w'))
           ∧ lspk self tb w'
             = (Raise (FileNotFoundError ("Table " +:+ tb +:+ " not found")),
                w')
           ∧ drop self tb w' = (Ret false, w')).
Proof.
  destruct w as [t n]. cbn [files]. intros Hf Hkt.
  pose proof Hkt as [Hst Hpt]%andb_true_iff.
  assert (∀ t0 : tree, frame_ok self t0 → t0 !! (R ++ [tb]) = None →
            drop self tb (mkWorld t0 n) = (Ret false, mkWorld t0 n)) as Hno.
  { intros t0 Hf0 Hl. unfold drop. rewrite (joinpath_plain _ _ Hpt).
    erewrite bind_ret; [|reflexivity]. cbn [files].
    unfold path_exists. rewrite (resolve_table self) by done.
    by rewrite Hl. }
  split; [by apply Hno|].
  intros Hl. set (t' := prune t (R ++ [tb])).
  assert (frame_ok self t') as Hf' by by apply frame_prune.
  assert (∀ l, t' !! (R ++ tb :: l) = None) as Hgone.
  { intros l. apply lookup_prune_None. right. exists l.
    by rewrite <-app_assoc. }
  exists (mkWorld t' n). cbn [files]. split_and!; try done.
  - unfold drop. rewrite (joinpath_plain _ _ Hpt).
    erewrite bind_ret; [|reflexivity]. cbn [files].
    unfold path_exists. rewrite (resolve_table self) by done. rewrite Hl.
    erewrite bind_ret; [reflexivity|].
    unfold shutil_rmtree, rmtree. cbn [files clock].
    rewrite (resolve_table self) by done. rewrite Hl.
    by destruct (R ++ [tb]) eqn:Heq; [destruct R|].
  - intros l Hn. by apply lookup_prune_other.
  - intros k [Hsk Hpk]%andb_true_iff.
    rewrite get_record_doc by done. unfold record_doc. cbn [files].
    by rewrite (Hgone [k]).
  - unfold lspk. rewrite (joinpath_plain _ _ Hpt).
    erewrite bind_ret; [|reflexivity]. cbn [files].
    unfold path_exists. rewrite (resolve_table self) by done.
    by rewrite (Hgone []).
  - apply Hno; [done|]. apply (Hgone []).
Qed.

End MakeAndDrop.

(** ** Links between records *)

Section LinkRecords.
Context `{Runtime}.
Variable self : FSDB.

Local Abbreviation R := (parts (root self)).

Hypothesis uuid_plain : ∀ n, Py.contains "/" (uuid1 n) = false.

(** X20: [link] needs both endpoints: when nothing exists at the path of the
    source, or of the destination, it raises its FileNotFoundError for that
    endpoint and leaves the world as it was. In a store in order, with both
    endpoints there, when the document to store (the one given, or the empty
    document when none or an empty one was given) is one the codec gives
    back and whose values are plain names, it returns normally and the link
    is a record of the source table under the key [src_pk:dest_pk] that
    [get] returns with that document. *)
Theorem link_stores_a_record (st sp dt dp : string)
    (data : option document) (w : world) :
  (safe st = true → safe sp = true →
   path_exists (files w) (root self </> st </> sp) = false →
   link self st sp dt dp data w
   = (Raise (FileNotFoundError
        ("Primary key " +:+ sp +:+ " not found in " +:+ st +:+ ".")), w))
  ∧ (safe st = true → safe sp = true → safe dt = true → safe dp = true →
     path_exists (files w) (root self </> st </> sp) = true →
     path_exists (files w) (root self </> dt </> dp) = false →
     link self st sp dt dp data w
     = (Raise (FileNotFoundError
          ("Primary key " +:+ dp +:+ " not found in " +:+ dt +:+ ".")), w))
  ∧ (store_ok self (files w) → key_ok st = true → pk_ok sp = true →
     key_ok dt = true → key_ok dp = true → doc_ok (link_doc data) →
     path_exists (files w) (root self </> st </> sp) = true →
     path_exists (files w) (root self </> dt </> dp) = true →
     ∃ w', link self st sp dt dp data w = (Ret (), w')
           ∧ store_ok self (files w')
           ∧ get self st (sp +:+ ":" +:+ dp) w'
             = (Ret (Some (link_doc data)), w')
           ∧ (∀ tb' k, key_ok tb' = true → key_ok k = true →
                (tb', k) ≠ (st, sp +:+ ":" +:+ dp) →
                (get self tb' k w').1 = (get self tb' k w).1)
           ∧ (Py.contains ":" sp = false →
              ∃ ls, query_links self st "*" "*" w' = (Ret ls, w')
                    ∧ (sp, dp) ∈ ls)).
Proof.
  split_and!.
  - intros Hst Hsp Hex. unfold link.
    erewrite bind_ret; [|by apply _target_f_record].
    erewrite bind_ret; [|reflexivity]. by rewrite Hex.
  - intros Hst Hsp Hdt Hdp Hex1 Hex2. unfold link.
    erewrite bind_ret; [|by apply _target_f_record].
    erewrite bind_ret; [|reflexivity]. rewrite Hex1. cbn [negb].
    erewrite bind_ret; [|by apply _target_f_record].
    erewrite bind_ret; [|reflexivity]. by rewrite Hex2.
  - destruct w as [t n]. cbn [files].
    intros Hok Hkt Hkp Hkdt Hkdp Hd Hex1 Hex2.
    pose proof Hok as [Hf _].
    pose proof Hkt as [Hst Hpt]%andb_true_iff.
    pose proof Hkp as [[Hsp Hpp]%andb_true_iff _]%andb_true_iff.
    pose proof Hkdt as [Hsdt Hpdt]%andb_true_iff.
    pose proof Hkdp as [Hsdp Hpdp]%andb_true_iff.
    pose proof (link_key_ok sp dp Hkp Hkdp) as Hkl.
    assert (t !! (R ++ [st]) = Some Dir) as Ht.
    { revert Hex1. rewrite (joinpath_plain _ _ Hpt), (joinpath_plain _ _ Hpp).
      rewrite (path_exists_record self) by done.
      intros [nd Hl]%bool_decide_eq_true.
      by destruct (frame_entry self _ _ _ _ Hf Hl). }
    destruct (write_sync_run self uuid_plain st (sp +:+ ":" +:+ dp)
                (link_doc data) t n Hok Hkt Hkl Hd Ht)
      as (t' & Hrun & Hok' & Hrec & _ & Hsame).
    exists (mkWorld t' (S n)). split_and!; [|done| | |].
    + unfold link. erewrite bind_ret; [|by apply _target_f_record].
      erewrite bind_ret; [|reflexivity]. cbn [files]. rewrite Hex1.
      cbn [negb]. erewrite bind_ret; [|by apply _target_f_record].
      erewrite bind_ret; [|reflexivity]. cbn [files]. rewrite Hex2.
      cbn [negb]. fold (link_doc data). unfold upsert.
      pose proof Hkl as [[Hsl Hpl]%andb_true_iff _]%andb_true_iff.
      erewrite bind_ret; [|by apply get_record_doc]. done.
    + apply get_written; try done; [apply Hok'|apply Hd].
    + intros tb' k Hkt' Hk Hne.
      by apply (get_elsewhere self st (sp +:+ ":" +:+ dp)); try done;
        apply Hok'.
    + intros Hcolon. pose proof Hok' as [Hf' _].
      destruct (frame_entry self _ _ _ _ Hf' Hrec) as (Ht' & _).
      eexists. split.
      * unfold query_links. rewrite (joinpath_plain _ _ Hpt).
        erewrite bind_ret; [reflexivity|]. apply glob_dir; [done|].
        cbn [files]. rewrite (resolve_table self) by done.
        by rewrite Ht'.
      * apply list_elem_of_omap.
        exists (child (child (root self) st) (sp +:+ ":" +:+ dp)).
        assert (Py.contains ":" (sp +:+ ":" +:+ dp) = true) as Hc.
        { rewrite !contains_char_app. cbn. by rewrite orb_true_r. }
        split.
        -- apply list_elem_of_fmap. eexists. split; [done|].
           apply elem_of_bool_filter. cbn [files]. split.
           ++ apply elem_of_entries. rewrite snoc2, Hrec. eauto.
           ++ change ("*" +:+ ":" +:+ "*") with "*:*".
              by rewrite fnmatch_star_colon_star.
        -- rewrite path_name_child, Hc.
           change (sp +:+ ":" +:+ dp) with (sp +:+ String ":" dp).
           by rewrite (partition_join _ _ _ Hcolon).
Qed.

End LinkRecords.

(** ** A write that fails *)

Lemma syscall_raise f w e w' : syscall f w = (Raise e, w') → w' = w.
Proof. unfold syscall. destruct (f (files w)); [|done]. by intros [= _ <-]. Qed.

Lemma shutil_move_raise src dst w e w' :
  shutil_move src dst w = (Raise e, w') → w' = w.
Proof.
  unfold shutil_move, mbind, M_bind, ask, raise.
  destruct (is_dir (files w) dst).
  - destruct (path_exists (files w) _); [by intros [= _ <-]|].
    apply syscall_raise.
  - apply syscall_raise.
Qed.

Section FailedWrite.
Context `{Runtime}.
Variable self : FSDB.

Local Abbreviation W := (parts (workdir self)).

(** X21: when [_write] raises, the file tree is as it was before the call:
    the temporary file it made in the work directory is removed again, and
    nothing is written at the path of the record. This holds whatever stands
    at the path of the table and of the record, given a work directory that
    is a directory and does not hold the temporary name yet. *)
Theorem failed_write_leaves_no_trace (table pk : string) (data : document)
    (w w' : world) (e : exn) :
  safe table = true → safe pk = true →
  Py.contains "/" (uuid1 (clock w)) = false →
  real_dir (files w) W →
  files w !! (W ++ [tmp_name table pk (clock w)]) = None →
  _write self table pk data w = (Raise e, w') →
  files w' = files w.
Proof.
  destruct w as [t n]. cbn [files clock]. intros Hst Hsp Hu HW Htmp Hrun.
  set (tn := tmp_name table pk n) in *.
  assert (plain tn = true) as Hptn
    by (apply tmp_name_plain; auto using safe_no_slash).
  unfold _write in Hrun.
  erewrite bind_ret in Hrun; [|by apply _target_f_table].
  erewrite bind_ret in Hrun; [|reflexivity]. cbn [files] in Hrun.
  destruct (path_exists t (root self </> table)); cbn [negb] in Hrun;
    [|by injection Hrun as _ <-].
  erewrite bind_ret in Hrun; [|by apply _target_f_record].
  erewrite bind_ret in Hrun; [|reflexivity]. cbn [files clock] in Hrun.
  fold (tmp_name table pk n) in Hrun. fold tn in Hrun.
  rewrite (joinpath_plain _ _ Hptn) in Hrun.
  set (c := json_dumps data) in *.
  set (t1 := <[W ++ [tn] := File c]> t).
  assert (real_dir t1 W) as HW1.
  { apply real_dir_insert; [done|]. apply prefix_snoc_not. }
  assert (syscall (λ t0, write_file t0 (child (workdir self) tn) c)
            (mkWorld t (S n)) = (Ret (), mkWorld t1 (S n))) as Hwr.
  { unfold syscall, write_file. cbn [files].
    rewrite resolve_child by auto using plain_not_dotdot.
    by rewrite Htmp. }
  unfold try_except in Hrun.
  erewrite bind_ret in Hrun; [|exact Hwr].
  destruct (shutil_move (child (workdir self) tn) (root self </> table </> pk)
              (mkWorld t1 (S n))) as [[[]|e0] w2] eqn:Hmv; [done|].
  apply shutil_move_raise in Hmv as ->.
  assert (resolve t1 true (child (workdir self) tn) = Found (W ++ [tn]) (File c)
          ∧ resolve t1 false (child (workdir self) tn)
            = Found (W ++ [tn]) (File c)) as [Hres1 Hres2].
  { rewrite !resolve_child by auto using plain_not_dotdot.
    unfold t1. by rewrite lookup_insert_eq. }
  unfold mbind, M_bind, ask, syscall, os_unlink, path_exists in Hrun.
  cbn [files clock] in Hrun. rewrite Hres1 in Hrun.
  cbv beta iota in Hrun. cbn [files clock] in Hrun. rewrite Hres2 in Hrun.
  injection Hrun as _ <-. cbn [files]. unfold t1.
  rewrite delete_insert_eq. by apply delete_id.
Qed.

End FailedWrite.

(** ** The constructor *)

Lemma removelast_snoc_ne {A} (l : list A) x : removelast (l ++ [x]) ≠ l ++ [x].
Proof.
  rewrite removelast_last. intros Heq%(f_equal List.length).
  rewrite length_app in Heq. cbn in Heq. lia.
Qed.

Lemma real_dir_way_clear t l : real_dir t l → way_clear t l.
Proof. intros [Hn Hd]. split; [done|]. intros q Hq Hp. left. by apply Hd. Qed.

Lemma way_clear_snoc t l x : way_clear t (l ++ [x]) → way_clear t l.
Proof.
  intros [Hn Hc]. apply Forall_app in Hn as [Hn _]. split; [done|].
  intros q Hq Hp. destruct (Hc q Hq) as [?|Hnone]; [by apply prefix_app_r|
    by left|].
  right. intros q' Hqq' Hq'. apply Hnone; [done|by apply prefix_app_r].
Qed.

(** A clear way is a real directory followed by names that are missing. *)
Lemma way_clear_split t l :
  way_clear t l →
  ∃ a b, l = a ++ b ∧ real_dir t a
         ∧ ∀ q, q ≠ [] → q `prefix_of` b → t !! (a ++ q) = None.
Proof.
  induction l as [|x l IH] using rev_ind; intros Hc.
  { exists [], []. split_and!; [done|apply real_dir_nil|].
    intros q Hq Hp. by apply prefix_nil_inv in Hp. }
  destruct (IH (way_clear_snoc _ _ _ Hc)) as (a & b & -> & Ha & Hb).
  destruct Hc as [Hn Hc]. apply Forall_app in Hn as [_ Hx].
  rewrite Forall_singleton in Hx.
  destruct b as [|y b].
  - rewrite app_nil_r in *.
    destruct (Hc (a ++ [x])) as [Hd|Hnone]; [by destruct a|done|..].
    + exists (a ++ [x]), []. rewrite app_nil_r. split_and!; [done| |].
      * by apply real_dir_snoc.
      * intros q Hq Hp. by apply prefix_nil_inv in Hp.
    + exists a, [x]. split_and!; [done|done|].
      intros q Hq Hp. apply Hnone; [|by apply prefix_app].
      destruct q as [|z q]; [done|].
      pose proof (prefix_cons_inv_1 _ _ _ _ Hp) as ->.
      pose proof (prefix_cons_inv_2 _ _ _ _ Hp) as Hq'.
      apply prefix_nil_inv in Hq' as ->. done.
  - exists a, ((y :: b) ++ [x]). rewrite <-app_assoc. split_and!; [done|done|].
    intros q Hq Hp. apply prefix_snoc_inv in Hp as [->|Hp]; [|by apply Hb].
    destruct (Hc (a ++ [y])) as [Hd|Hnone]; [by destruct a| |..].
    + rewrite <-app_assoc. apply prefix_app. cbn.
      apply prefix_cons, prefix_nil.
    + rewrite (Hb [y]) in Hd; [done|done|]. apply prefix_cons, prefix_nil.
    + apply Hnone; [|by rewrite !app_assoc].
      apply prefix_app. cbn. apply prefix_cons, prefix_nil.
Qed.

(** [mkdir] with parents below a real directory, where nothing stands
    yet. *)
Lemma mkdir_parents_below t n anc a b fuel :
  real_dir t a → Forall (λ x, String.eqb x ".." = false) b →
  (∀ q, q ≠ [] → q `prefix_of` b → t !! (a ++ q) = None) →
  (List.length b ≤ fuel)%nat →
  ∃ t', mkdir_parents fuel (mkPath anc (a ++ b)) (mkWorld t n)
        = (Ret (), mkWorld t' n)
        ∧ real_dir t' (a ++ b)
        ∧ ∀ k, (∀ q, q ≠ [] → q `prefix_of` b → k ≠ a ++ q) →
               t' !! k = t !! k.
Proof.
  intros Ha. revert fuel.
  induction b as [|x b IH] using rev_ind; intros fuel Hn Hb Hfuel.
  { exists t. rewrite app_nil_r. split_and!; [|done|done].
    destruct fuel; cbn [mkdir_parents]; unfold os_mkdir, is_dir; cbn [files];
      by rewrite !(resolve_real_dir t _ (mkPath anc a)) by exact Ha. }
  apply Forall_app in Hn as [Hn Hx].
  apply (proj1 (Forall_singleton _ _)) in Hx.
  rewrite length_app in Hfuel. cbn in Hfuel.
  destruct fuel as [|fuel]; [lia|].
  assert (t !! (a ++ b ++ [x]) = None) as Hlast
    by (apply Hb; [by destruct b|done]).
  destruct (decide (b = [])) as [->|Hne].
  - cbn [app] in Hlast. exists (<[a ++ [x] := Dir]> t). split_and!.
    + cbn [mkdir_parents app]. unfold os_mkdir. cbn [files clock].
      change (mkPath anc (a ++ [x])) with (child (mkPath anc a) x).
      rewrite resolve_child by done. cbn [parts]. by rewrite Hlast.
    + apply real_dir_snoc; [|done|by rewrite lookup_insert_eq].
      apply real_dir_insert; [done|]. apply prefix_snoc_not.
    + intros k Hk. rewrite lookup_insert_ne; [done|].
      intros <-. by apply (Hk [x]).
  - destruct (IH fuel) as (t1 & Hrun & Hr1 & Hsame1); [done| |lia|].
    { intros q Hq Hp. apply Hb; [done|]. by apply prefix_app_r. }
    exists (<[a ++ b ++ [x] := Dir]> t1). split_and!.
    + cbn [mkdir_parents]. unfold os_mkdir at 1. cbn [files clock].
      assert (resolve t false (mkPath anc (a ++ b ++ [x])) = Fail ENOENT)
        as ->.
      { destruct b as [|y b0]; [done|].
        destruct (b0 ++ [x]) as [|z rest] eqn:Hbx; [by destruct b0|].
        change ((y :: b0) ++ [x]) with (y :: (b0 ++ [x])). rewrite Hbx.
        apply (resolve_missing_below t false (mkPath anc a)); [done| |].
        - by apply Forall_cons in Hn as [? _].
        - apply (Hb [y]); [done|]. apply prefix_cons, prefix_nil. }
      rewrite bool_decide_eq_false_2; cycle 1.
      { unfold path_parent. cbn [parts anchored]. intros [= Heq].
        rewrite app_assoc in Heq. by apply removelast_snoc_ne in Heq. }
      assert (path_parent (mkPath anc (a ++ b ++ [x])) = mkPath anc (a ++ b))
        as ->.
      { unfold path_parent. cbn [parts anchored].
        by rewrite app_assoc, removelast_last. }
      erewrite bind_ret; [|exact Hrun].
      unfold mkdir_exist_ok, os_mkdir. cbn [files clock].
      rewrite app_assoc.
      change (mkPath anc ((a ++ b) ++ [x]))
        with (child (mkPath anc (a ++ b)) x).
      rewrite resolve_child by done. cbn [parts].
      rewrite Hsame1, <-app_assoc, Hlast; [done|].
      intros q Hq Hp Heq. rewrite <-app_assoc in Heq.
      apply app_inv_head in Heq.
      apply prefix_length in Hp. rewrite <-Heq, length_app in Hp.
      cbn in Hp. lia.
    + rewrite app_assoc. apply real_dir_snoc; [|done|].
      * apply real_dir_insert; [done|]. apply prefix_snoc_not.
      * by rewrite lookup_insert_eq.
    + intros k Hk. rewrite lookup_insert_ne; cycle 1.
      { intros <-. apply (Hk (b ++ [x])); [by destruct b|done|done]. }
      apply Hsame1. intros q Hq Hp. apply Hk; [done|].
      by apply prefix_app_r.
Qed.

(** [mkdir] with parents where the way is clear: the directory is there
    afterwards, and only places on the way to it have changed. *)
Lemma mkdir_parents_clear t n p :
  way_clear t (parts p) →
  ∃ t', mkdir_parents_exist_ok p (mkWorld t n) = (Ret (), mkWorld t' n)
        ∧ real_dir t' (parts p)
        ∧ (∀ k, ¬ (k ≠ [] ∧ k `prefix_of` parts p) → t' !! k = t !! k)
        ∧ (real_dir t (parts p) → t' = t).
Proof.
  intros Hc. destruct (way_clear_split _ _ Hc) as (a & b & Hab & Ha & Hb).
  destruct p as [anc l]. cbn [parts] in *. subst l.
  destruct Hc as [Hn Hc]. apply Forall_app in Hn as [_ Hnb].
  destruct (mkdir_parents_below t n anc a b (List.length (a ++ b)))
    as (t' & Hrun & Hr & Hsame); try done.
  { rewrite length_app. lia. }
  exists t'. split_and!; [done|done| |].
  - intros k Hk. apply Hsame. intros q Hq Hp ->. apply Hk. split.
    + by destruct a, q.
    + by apply prefix_app.
  - intros Hreal. apply map_eq. intros k. apply Hsame.
    intros q Hq Hp ->. destruct Hreal as [_ Hd].
    assert (t !! (a ++ q) = Some Dir) as Hdq.
    { apply Hd; [by destruct a, q|by apply prefix_app]. }
    by rewrite Hb in Hdq.
Qed.

(** The run of the constructor where the ways to the root and to the work
    directory are clear. *)
Lemma init_run (rt wd : PurePath) (t : tree) (n : nat) :
  way_clear t (parts rt) → way_clear t (parts wd) →
  ∃ t', __init__ rt wd (mkWorld t n)
        = (Ret (mkFSDB rt wd), mkWorld t' n)
        ∧ real_dir t' (parts rt) ∧ real_dir t' (parts wd)
        ∧ (∀ k, ¬ (k ≠ [] ∧ k `prefix_of` parts rt) →
                ¬ (k ≠ [] ∧ k `prefix_of` parts wd) →
                t' !! k = t !! k)
        ∧ (real_dir t (parts rt) → real_dir t (parts wd) → t' = t).
Proof.
  intros HR HW.
  destruct (mkdir_parents_clear t n rt HR)
    as (t1 & Hrun1 & Hr1 & Hsame1 & Hid1).
  assert (way_clear t1 (parts wd)) as HW1.
  { destruct HW as [Hn Hc]. split; [done|]. intros q Hq Hp.
    destruct (decide (q `prefix_of` parts rt)) as [Hqr|Hqr].
    { left. by apply Hr1. }
    rewrite Hsame1 by (by intros [_ ?]).
    destruct (Hc q Hq Hp) as [?|Hnone]; [by left|right].
    intros q' Hqq' Hq'. rewrite Hsame1; [by apply Hnone|].
    intros [_ Hq'r]. apply Hqr. by etrans. }
  destruct (mkdir_parents_clear t1 n wd HW1)
    as (t2 & Hrun2 & Hr2 & Hsame2 & Hid2).
  exists t2. split_and!; [|  |done| |].
  - unfold __init__. erewrite bind_ret; [|exact Hrun1].
    by erewrite bind_ret; [|exact Hrun2].
  - destruct Hr1 as [Hn1 Hd1]. split; [done|]. intros q Hq Hp.
    destruct (decide (q `prefix_of` parts wd)) as [Hqw|Hqw].
    + by apply Hr2.
    + rewrite Hsame2 by (by intros [_ ?]). by apply Hd1.
  - intros k Hk1 Hk2. by rewrite Hsame2, Hsame1.
  - intros Hreal1 Hreal2. rewrite (Hid1 Hreal1) in Hid2.
    by rewrite (Hid2 Hreal2).
Qed.

(** X22: the constructor makes the root and the work directory, with the
    directories above them that are missing, and leaves every file and
    directory that exists as it is; on directories that exist already it
    changes nothing. This holds where nothing but directories stands on the
    two ways. *)
Theorem init_makes_the_directories (rt wd : PurePath) (t : tree)
    (n : nat) :
  way_clear t (parts rt) → way_clear t (parts wd) →
  ∃ t', __init__ rt wd (mkWorld t n)
        = (Ret (mkFSDB rt wd), mkWorld t' n)
        ∧ is_dir t' rt = true ∧ is_dir t' wd = true
        ∧ (∀ k nd, t !! k = Some nd → t' !! k = Some nd)
        ∧ (∀ k, ¬ (k ≠ [] ∧ k `prefix_of` parts rt) →
                ¬ (k ≠ [] ∧ k `prefix_of` parts wd) →
                t' !! k = t !! k)
        ∧ (real_dir t (parts rt) → real_dir t (parts wd) → t' = t).
Proof.
  intros HR HW.
  destruct (init_run rt wd t n HR HW)
    as (t' & Hrun & Hr1 & Hr2 & Hsame & Hid).
  exists t'. split_and!; try done.
  - unfold is_dir. by rewrite resolve_real_dir.
  - unfold is_dir. by rewrite resolve_real_dir.
  - intros k nd Hk.
    assert (∀ l, way_clear t l → real_dir t' l → k ≠ [] → k `prefix_of` l →
                 t' !! k = Some nd) as Hway.
    { intros l [_ Hc] [_ Hd] Hne Hp. rewrite (Hd k Hne Hp).
      destruct (Hc k Hne Hp) as [Hdir|Hnone]; [congruence|].
      rewrite Hnone in Hk; done. }
    destruct (decide (k ≠ [] ∧ k `prefix_of` parts rt)) as [[??]|Hn1];
      [by apply (Hway (parts rt))|].
    destruct (decide (k ≠ [] ∧ k `prefix_of` parts wd)) as [[??]|Hn2];
      [by apply (Hway (parts wd))|].
    by rewrite Hsame.
Qed.

Section Constructed.
Context `{Runtime}.

(** X23: a store made by the constructor is in order, and stays in order
    under every sequence of well-formed calls: this holds where the ways to
    the root and to the work directory are clear, neither directory lies in
    the other, and nothing stands below the root or in the work directory
    yet. *)
Theorem constructed_store_in_order (rt wd : PurePath) (t : tree)
    (n : nat) :
  (∀ k, Py.contains "/" (uuid1 k) = false) →
  way_clear t (parts rt) → way_clear t (parts wd) →
  ¬ parts rt `prefix_of` parts wd →
  ¬ parts wd `prefix_of` parts rt →
  (∀ l, l ≠ [] → t !! (parts rt ++ l) = None) →
  (∀ x, t !! (parts wd ++ [x]) = None) →
  ∃ self w', __init__ rt wd (mkWorld t n) = (Ret self, w')
             ∧ self = mkFSDB rt wd
             ∧ store_ok self (files w')
             ∧ ∀ os, Forall op_ok os →
                 store_ok self (files (run_ops self os w')).
Proof.
  intros Hu HR HW Hrw Hwr Hbelow Hin.
  destruct (init_run rt wd t n HR HW)
    as (t' & Hrun & Hr1 & Hr2 & Hsame & _).
  assert (∀ l, l ≠ [] → t' !! (parts rt ++ l) = None) as Hbelow'.
  { intros l Hl. rewrite Hsame; [by apply Hbelow| |].
    - intros [_ Hp]. by apply (app_not_prefix (parts rt) l).
    - intros [_ Hp]. apply Hrw. etrans; [|exact Hp]. by apply prefix_app_r. }
  assert (store_ok (mkFSDB rt wd) t') as Hok.
  { split; [split|]; cbn [root workdir].
    - done.
    - done.
    - intros x. rewrite Hsame; [done| |].
      + intros [_ Hp]. apply Hwr. etrans; [|exact Hp].
        by apply prefix_app_r.
      + intros [_ Hp]. by apply (app_not_prefix (parts wd) [x]).
    - done.
    - intros l nd Hl Hk. by rewrite Hbelow' in Hk.
    - intros tb k d. unfold record_doc. cbn [root].
      by rewrite Hbelow'.
    - intros tb i v k Hk. by rewrite Hbelow' in Hk. }
  exists (mkFSDB rt wd), (mkWorld t' n). split_and!; try done.
  intros os Hos. by apply run_ops_preserves.
Qed.

End Constructed.

(** More fuel than the path has components changes nothing: the recursion
    of [mkdir_parents] ends where the path has no component left. *)
Lemma mkdir_parents_fuel (k : nat) (p : PurePath) (w : world) :
  mkdir_parents (List.length (parts p) + k) p w
  = mkdir_parents (List.length (parts p)) p w.
Proof.
  destruct p as [anc l]. cbn [parts]. revert w.
  induction l as [|x l IH] using rev_ind; intros w.
  - assert (path_parent (mkPath anc []) = mkPath anc []) as Hp by done.
    destruct k; cbn [List.length Nat.add mkdir_parents]; [done|].
    by rewrite Hp, bool_decide_eq_true_2.
  - rewrite length_app. cbn [List.length].
    replace (List.length l + 1 + k) with (S (List.length l + k)) by lia.
    replace (List.length l + 1) with (S (List.length l)) by lia.
    cbn [mkdir_parents].
    assert (path_parent (mkPath anc (l ++ [x])) = mkPath anc l) as ->.
    { unfold path_parent. cbn [parts anchored]. by rewrite removelast_last. }
    destruct (os_mkdir (files w) _) as [[]|]; try done.
    case_bool_decide; [done|].
    unfold mbind, M_bind. by rewrite (IH w).
Qed.


(** ** The empty key on the write path *)

Section EmptyKeyWrite.
Context `{Runtime}.
Variable self : FSDB.

Local Abbreviation R := (parts (root self)).
Local Abbreviation W := (parts (workdir self)).

(** X24: [upsert] with the empty key does not fail as [insert] does: the
    path of the record is the table directory, so the temporary file is
    moved into the table and stays there under its own name. In a store laid
    out by the engine, for a table without indexes, [upsert] returns
    normally, the document is a record under the name of the temporary file,
    and [get] of the empty key still returns [None]. *)
Theorem upsert_of_empty_key_keeps_temporary_name (tb : string)
    (data : document) (w : world) :
  frame_ok self (files w) → key_ok tb = true →
  files w !! (R ++ [tb]) = Some Dir →
  (∀ x, files w !! (R ++ [tb; x]) ≠ Some Dir) →
  Py.contains "/" (uuid1 (clock w)) = false →
  files w !! (R ++ [tb; tmp_name tb "" (clock w)]) = None →
  json_loads (json_dumps data) = Some data →
  ∃ w', upsert self tb "" data w = (Ret (), w')
        ∧ files w'
          = <[R ++ [tb; tmp_name tb "" (clock w)] := File (json_dumps data)]>
              (files w)
        ∧ get self tb "" w' = (Ret None, w')
        ∧ (safe (tmp_name tb "" (clock w)) = true →
           get self tb (tmp_name tb "" (clock w)) w'
           = (Ret (Some data), w')).
Proof.
  destruct w as [t n]. cbn [files clock].
  intros Hf Hkt Ht Hnoidx Hu Hfree Hround.
  pose proof Hkt as [Hst Hpt]%andb_true_iff.
  set (tn := tmp_name tb "" n) in *.
  set (c := json_dumps data).
  assert (plain tn = true) as Hptn
    by (apply tmp_name_plain; auto using safe_no_slash).
  pose proof (fr_root _ _ Hf) as HR. pose proof (fr_work _ _ Hf) as HW.
  assert (real_dir t (R ++ [tb])) as HRT by by apply frame_table_real.
  assert (∀ t0 : tree, real_dir t0 (R ++ [tb]) →
            get self tb "" (mkWorld t0 (S n)) = (Ret None, mkWorld t0 (S n))
            ∧ get self tb "" (mkWorld t0 n) = (Ret None, mkWorld t0 n))
    as Hget.
  { intros t0 Hr0. rewrite !get_eq by done. cbn [files].
    rewrite joinpath_empty, (joinpath_plain _ _ Hpt). unfold read_file.
    change (child (root self) tb)
      with (mkPath (anchored (root self)) (R ++ [tb])).
    by rewrite (resolve_real_dir t0 true (mkPath _ (R ++ [tb]))). }
  set (t1 := <[W ++ [tn] := File c]> t).
  set (t2 := <[R ++ [tb; tn] := File c]> t).
  assert (t !! (W ++ [tn]) = None) as Htmp by apply Hf.
  assert (real_dir t1 (R ++ [tb])) as HRT1.
  { apply real_dir_insert; [done|].
    apply (real_dir_not_prefix t); [done| |by rewrite Htmp]. by destruct W. }
  assert (real_dir t1 W) as HW1.
  { apply real_dir_insert; [done|]. apply prefix_snoc_not. }
  assert (real_dir t2 (R ++ [tb])) as HRT2.
  { apply real_dir_insert; [done|]. rewrite <-snoc2.
    apply prefix_snoc_not. }
  assert (W ++ [tn] ≠ R ++ [tb; tn]) as Hne.
  { intros Heq. rewrite <-snoc2 in Heq.
    apply app_inj_tail in Heq as [Heq _]. rewrite Heq in HW.
    destruct (fr_apart _ _ Hf). rewrite Heq. by apply prefix_app_r. }
  assert (_write self tb "" data (mkWorld t n) = (Ret (), mkWorld t2 (S n)))
    as Hwrite.
  { unfold _write.
    erewrite bind_ret; [|by apply _target_f_table].
    rewrite (joinpath_plain _ _ Hpt).
    erewrite bind_ret; [|reflexivity]. cbn [files].
    assert (path_exists t (child (root self) tb) = true) as ->.
    { unfold path_exists. rewrite (resolve_table self) by done.
      by rewrite Ht. }
    cbn [negb].
    erewrite bind_ret; [|by apply _target_f_record].
    rewrite joinpath_empty, (joinpath_plain _ _ Hpt).
    erewrite bind_ret; [|reflexivity]. cbn [files clock].
    fold (tmp_name tb "" n). fold tn.
    rewrite (joinpath_plain _ _ Hptn). fold c.
    apply try_except_ret.
    erewrite bind_ret; cycle 1.
    { unfold syscall, write_file. cbn [files].
      rewrite resolve_child by auto using plain_not_dotdot.
      rewrite Htmp. reflexivity. }
    fold t1. unfold shutil_move.
    erewrite bind_ret; [|reflexivity]. cbn [files].
    assert (is_dir t1 (child (root self) tb) = true) as ->.
    { unfold is_dir.
      change (child (root self) tb)
        with (mkPath (anchored (root self)) (R ++ [tb])).
      by rewrite (resolve_real_dir t1 true (mkPath _ (R ++ [tb]))). }
    rewrite path_name_child.
    assert (resolve t1 true (child (child (root self) tb) tn)
            = Vacant (R ++ [tb; tn])
            ∧ resolve t1 false (child (child (root self) tb) tn)
              = Vacant (R ++ [tb; tn])) as [Hd1 Hd2].
    { rewrite !resolve_child by auto using plain_not_dotdot.
      cbn [parts child]. rewrite snoc2. unfold t1.
      rewrite lookup_insert_ne by done. by rewrite Hfree. }
    erewrite bind_ret; [|reflexivity]. cbn [files].
    unfold path_exists. rewrite Hd1.
    unfold syscall, os_rename. cbn [files clock].
    rewrite (resolve_child t1 false (workdir self) tn)
      by auto using plain_not_dotdot.
    unfold t1 at 1. rewrite lookup_insert_eq. rewrite Hd2.
    rewrite decide_False by done. unfold t1, t2.
    rewrite delete_insert_eq. by rewrite delete_id. }
  assert (_update_index self tb "" None (Some data) (mkWorld t2 (S n))
          = (Ret (), mkWorld t2 (S n))) as Hsync.
  { unfold _update_index. rewrite (joinpath_plain _ _ Hpt).
    erewrite bind_ret; [|by apply glob_eq].
    apply for_each_skip. intros idxdir Hin. cbn [files] in Hin.
    assert (is_dir t2 idxdir = false) as Hnd.
    { destruct (is_dir t2 (child (root self) tb)); [|by apply elem_of_nil in Hin].
      destruct (os_listdir t2 (child (root self) tb)) as [e|ns] eqn:Hls;
        [by apply elem_of_nil in Hin|].
      apply list_elem_of_fmap in Hin as (x & -> & [Hx _]%elem_of_bool_filter).
      unfold os_listdir in Hls.
      change (child (root self) tb)
        with (mkPath (anchored (root self)) (R ++ [tb])) in Hls.
      rewrite (resolve_real_dir t2 true (mkPath _ (R ++ [tb]))) in Hls
        by done.
      injection Hls as <-. apply elem_of_entries in Hx as [nd Hx].
      cbn [parts] in Hx. rewrite snoc2 in Hx.
      assert (plain x = true ∧ nd ≠ Dir) as [Hpx Hndir].
      { unfold t2 in Hx. destruct (decide (x = tn)) as [->|Hxt].
        - rewrite lookup_insert_eq in Hx. by injection Hx as <-.
        - rewrite lookup_insert_ne in Hx
            by (intros ?%app_inv_head; congruence).
          destruct (frame_entry self _ _ _ _ Hf Hx) as (_ & _ & ? & _).
          split; [done|]. intros ->. by apply (Hnoidx x). }
      unfold is_dir. rewrite resolve_child by auto using plain_not_dotdot.
      cbn [parts child]. rewrite snoc2, Hx.
      destruct nd as [c'| |tg]; [done|done|].
      unfold t2 in Hx. destruct (decide (x = tn)) as [->|Hxt].
      - by rewrite lookup_insert_eq in Hx.
      - rewrite lookup_insert_ne in Hx
          by (intros ?%app_inv_head; congruence).
        by destruct (frame_entry self _ _ _ _ Hf Hx)
          as (_ & _ & _ & [[? [=]]|[[=] _]]). }
    unfold mbind at 1, M_bind at 1, ask. cbn [files]. by rewrite Hnd. }
  exists (mkWorld t2 (S n)). split_and!; [|done| |].
  - unfold upsert. erewrite bind_ret; [|by apply (Hget t)].
    erewrite bind_ret; [|exact Hwrite]. exact Hsync.
  - by apply (Hget t2).
  - intros Hstn. rewrite get_eq by done. cbn [files].
    rewrite (joinpath_plain _ _ Hpt), (joinpath_plain _ _ Hptn).
    unfold read_file. rewrite resolve_child by auto using plain_not_dotdot.
    cbn [parts child]. rewrite snoc2. unfold t2.
    rewrite lookup_insert_eq. unfold c. by rewrite Hround.
Qed.

End EmptyKeyWrite.

(** ** Where the guarded paths lie *)

(** Joining a name that passes the guard adds one plain component, or
    none when the name is empty or a single dot. *)
Lemma joinpath_safe p s :
  safe s = true → p </> s = p ∨ (p </> s = child p s ∧ plain s = true).
Proof.
  intros Hs. destruct (decide (s = "")) as [->|Hne1].
  { left. apply joinpath_empty. }
  destruct (decide (s = ".")) as [->|Hne2].
  { left. apply joinpath_dot. }
  right. pose proof (safe_plain _ Hs Hne1 Hne2) as Hp.
  by rewrite (joinpath_plain _ _ Hp).
Qed.

Section GuardedPaths.
Context `{Runtime}.
Variable self : FSDB.

Local Abbreviation R := (parts (root self)).

(** X25: every path that [_target_f] returns lies at or below the root of
    the store, at most two names deep, and each name below the root is one
    plain component: it holds no slash and is neither empty, nor a dot, nor
    a double dot. [_target_f] changes nothing. *)
Theorem target_stays_below_root (table : string) (name : option string)
    (w w' : world) (p : PurePath) :
  _target_f self table name w = (Ret p, w') →
  w' = w ∧ anchored p = anchored (root self)
  ∧ ∃ l, parts p = R ++ l ∧ (List.length l ≤ 2)%nat
         ∧ Forall (λ n, plain n = true) l.
Proof.
  intros Hrun. destruct (safe table) eqn:Ht; cycle 1.
  { by rewrite _target_f_unsafe_table in Hrun. }
  assert (∃ l, parts (root self </> table) = R ++ l
               ∧ anchored (root self </> table) = anchored (root self)
               ∧ (List.length l ≤ 1)%nat ∧ Forall (λ n, plain n = true) l)
    as (l1 & Hl1 & Ha1 & Hlen1 & Hp1).
  { destruct (joinpath_safe (root self) table Ht) as [->|[-> Hp]].
    - exists []. rewrite app_nil_r. split_and!; try done. cbn. lia.
    - exists [table]. split_and!; try done. by constructor. }
  assert (name = None ∨ name = Some ""
          ∨ ∃ n, name = Some n ∧ n ≠ "") as [->|[->|(n & -> & Hn)]].
  { destruct name as [n|]; [|by left]. right.
    destruct (decide (n = "")) as [->|?]; eauto. }
  - rewrite _target_f_table in Hrun by done. injection Hrun as <- <-.
    split_and!; try done. exists l1. split_and!; try done. lia.
  - rewrite _target_f_record in Hrun by done. rewrite joinpath_empty in Hrun.
    injection Hrun as <- <-.
    split_and!; try done. exists l1. split_and!; try done. lia.
  - destruct (safe n) eqn:Hsn; cycle 1.
    { by rewrite _target_f_unsafe_name in Hrun. }
    rewrite _target_f_record in Hrun by done. injection Hrun as <- <-.
    destruct (joinpath_safe (root self </> table) n Hsn) as [->|[-> Hp]].
    + split_and!; try done. exists l1. split_and!; try done. lia.
    + split_and!; try done. exists (l1 ++ [n]). cbn [parts child].
      rewrite Hl1, <-app_assoc. split_and!; try done.
      * rewrite length_app. cbn. lia.
      * apply Forall_app. split; [done|]. by constructor.
Qed.

End GuardedPaths.

(** ** The indexes after each call *)

Section Synced.
Context `{Runtime}.
Variable self : FSDB.

Local Abbreviation R := (parts (root self)).

Hypothesis uuid_plain : ∀ n, Py.contains "/" (uuid1 n) = false.





End Synced.

Section IndexConsistency.
Context `{Runtime}.
Variable self : FSDB.

Local Abbreviation R := (parts (root self)).


End IndexConsistency.

(** ** Inserting a record *)


Section InsertRecord.
Context `{Runtime}.
Variable self : FSDB.

Local Abbreviation R := (parts (root self)).


End InsertRecord.

(** * The engine on examples *)

Module Checks.
Import Demo Examples.

(** C1: [drop] joins the table name to the root without validating it:
    [drop("../other")] removes the directory [/var/lib/other], which lies
    beside the root [/var/lib/fsdb], and returns [True], where [create] on
    the same name raises the ValueError of the path guard. *)
Theorem drop_escapes_root :
  safe "../other" = false
  ∧ create db "../other" beside
    = (Raise (ValueError "Unsafe key: ../other"), beside)
  ∧ files beside !! ["var"; "lib"; "other"; "secret"] = Some (File "data")
  ∧ drop db "../other" beside = (Ret true, fresh).
Proof. by vm_compute. Qed.

(** C6: with an index on [f], inserting at the free key [k] a document
    whose value for [f] is [../k] succeeds, and [get] then returns [None]:
    the value is joined to the index directory without validation, so the
    index entry is written over the record file. *)
Theorem insert_get_lost :
  json_loads (json_dumps (doc [("f", "../k")])) = Some (doc [("f", "../k")])
  ∧ safe "t" = true ∧ safe "k" = true
  ∧ (get db "t" "k" indexed).1 = Ret None
  ∧ (insert db "t" "k" (doc [("f", "../k")]) indexed).1 = Ret ()
  ∧ (get db "t" "k"
       (exec (insert db "t" "k" (doc [("f", "../k")])) indexed)).1
    = Ret None
  ∧ files (exec (insert db "t" "k" (doc [("f", "../k")])) indexed)
      !! ["var"; "lib"; "fsdb"; "t"; "k"]
    = Some (Symlink (mkPath false [".."; "k"])).
Proof. by vm_compute. Qed.

Lemma delete_keeps_empty_document_witness :
  safe "t" = true ∧ safe "k" = true
  ∧ read_file (files with_empty) (root db </> "t" </> "k") = inr "{}"
  ∧ json_loads "{}" = Some (∅ : gmap string string)
  ∧ delete db "t" "k" with_empty = (Ret false, with_empty).
Proof.
  assert (safe "t" = true) as H1 by done.
  assert (safe "k" = true) as H2 by done.
  assert (read_file (files with_empty) (root db </> "t" </> "k") = inr "{}")
    as H3 by by vm_compute.
  assert (json_loads "{}" = Some (∅ : gmap string string)) as H4
    by by vm_compute.
  refine (conj H1 (conj H2 (conj H3 (conj H4 _)))).
  apply (delete_keeps_empty_document db "t" "k" "{}" with_empty H1 H2 H3 H4).
Defined.

Lemma update_rejects_empty_document_witness :
  safe "t" = true ∧ safe "k" = true
  ∧ read_file (files with_empty) (root db </> "t" </> "k") = inr "{}"
  ∧ json_loads "{}" = Some (∅ : gmap string string)
  ∧ update db "t" "k" (doc [("f", "x")]) with_empty
    = (Raise (FileNotFoundError "Record k in t is missing"), with_empty).
Proof.
  assert (safe "t" = true) as H1 by done.
  assert (safe "k" = true) as H2 by done.
  assert (read_file (files with_empty) (root db </> "t" </> "k") = inr "{}")
    as H3 by by vm_compute.
  assert (json_loads "{}" = Some (∅ : gmap string string)) as H4
    by by vm_compute.
  refine (conj H1 (conj H2 (conj H3 (conj H4 _)))).
  apply (update_rejects_empty_document db "t" "k" "{}" (doc [("f", "x")])
           with_empty H1 H2 H3 H4).
Defined.

(** C7, as stated: nothing exists at the path of the key [a/b] of the
    table [t], and [get] does not return [None] as it does for the missing
    key [kk]: it raises the ValueError of the path guard. *)
Lemma get_unsafe_key_raises :
  path_exists (files with_record) (root db </> "t" </> "a/b") = false
  ∧ get db "t" "kk" with_record = (Ret None, with_record)
  ∧ get db "t" "a/b" with_record
    = (Raise (ValueError "Unsafe key: a/b"), with_record).
Proof. split_and!; vm_compute; reflexivity. Qed.

Lemma get_parsed_or_absent_witness :
  safe "t" = true ∧ safe "k" = true
  ∧ get db "t" "k" with_record = (Ret (Some (doc [("f", "x")])), with_record).
Proof.
  assert (safe "t" = true) as H1 by done.
  assert (safe "k" = true) as H2 by done.
  refine (conj H1 (conj H2 _)).
  apply (proj1 (proj1 (get_parsed_or_absent db "t" "k" with_record) H1 H2)
           "{f=x;}" (doc [("f", "x")])); by vm_compute.
Defined.


Lemma empty_key_is_table_directory_witness :
  safe "t" = true ∧ is_dir (files with_record) (root db </> "t") = true
  ∧ insert db "t" "" (doc [("f", "y")]) with_record
    = (Raise (FileExistsError "Record  already exists in t"), with_record)
  ∧ get db "t" "" with_record = (Ret None, with_record).
Proof.
  assert (safe "t" = true) as H1 by done.
  assert (is_dir (files with_record) (root db </> "t") = true) as H2
    by by vm_compute.
  refine (conj H1 (conj H2 _)).
  apply (empty_key_is_table_directory db "t" (doc [("f", "y")])
           with_record H1 H2).
Defined.

Lemma lspk_missing_or_names_witness :
  lspk db "nowhere" people
  = (Raise (FileNotFoundError "Table nowhere not found"), people).
Proof.
  apply (proj1 (lspk_missing_or_names db "nowhere" people)). by vm_compute.
Defined.

Lemma root_real (t : tree) :
  t !! ["var"] = Some Dir → t !! ["var"; "lib"] = Some Dir →
  t !! ["var"; "lib"; "fsdb"] = Some Dir →
  real_dir t (parts (root db)).
Proof.
  intros H1 H2 H3.
  change (parts (root db)) with ((([] ++ ["var"]) ++ ["lib"]) ++ ["fsdb"]).
  repeat (apply real_dir_snoc; [|done|done]). apply real_dir_nil.
Qed.

Lemma workdir_real (t : tree) :
  t !! ["tmp"] = Some Dir → t !! ["tmp"; "fsdb"] = Some Dir →
  real_dir t (parts (workdir db)).
Proof.
  intros H1 H2.
  change (parts (workdir db)) with (([] ++ ["tmp"]) ++ ["fsdb"]).
  repeat (apply real_dir_snoc; [|done|done]). apply real_dir_nil.
Qed.



(** *** The index of a shared value *)

Lemma uuid1_plain n : Py.contains "/" (uuid1 n) = false.
Proof.
  cbn [uuid1 runtime]. rewrite contains_char_app.
  change (Py.contains "/" "0000-") with false. cbn [orb].
  induction n as [|n IH]; [done|]. cbn [tally].
  by rewrite contains_char_cons, IH.
Qed.

Lemma fresh_keys l nd :
  files fresh !! l = Some nd →
  l ∈ [["var"]; ["var"; "lib"]; ["var"; "lib"; "fsdb"];
       ["tmp"]; ["tmp"; "fsdb"]].
Proof.
  intros Hl%elem_of_list_to_map_2.
  apply list_elem_of_fmap in Hl as (k & [= -> _] & Hk). done.
Qed.

Lemma fresh_store_ok : store_ok db (files fresh).
Proof.
  assert (∀ l nd, l ≠ [] →
            files fresh !! (parts (root db) ++ l) = Some nd → False) as Hno.
  { intros l nd Hl Hk%fresh_keys. cbn in Hk.
    repeat (apply elem_of_cons in Hk as [Hk|Hk]; [by simplify_list_eq|]).
    by apply elem_of_nil in Hk. }
  split; [split|].
  - by apply root_real.
  - by apply workdir_real.
  - intros n. destruct (files fresh !! _) as [nd|] eqn:Hk; [|done].
    apply fresh_keys in Hk. cbn in Hk.
    repeat (apply elem_of_cons in Hk as [Hk|Hk]; [by simplify_list_eq|]).
    by apply elem_of_nil in Hk.
  - intros [k Hk]. by simplify_list_eq.
  - intros l nd Hl Hk. by destruct (Hno l nd).
  - intros tb k d. unfold record_doc.
    destruct (files fresh !! _) as [nd|] eqn:Hk; [|done].
    by destruct (Hno [tb; k] nd).
  - intros tb i v k Hk. by destruct (Hno [tb; i; v] (link_to k)).
Qed.

Lemma doc_ok_one k v :
  plain v = true →
  json_loads (json_dumps (doc [(k, v)])) = Some (doc [(k, v)]) →
  doc_ok (doc [(k, v)]).
Proof.
  intros Hv Hround. split; [done|]. intros f val.
  unfold doc. cbn [list_to_map foldr uncurry].
  intros [[_ <-]|[_ []%lookup_empty_Some]]%lookup_insert_Some. done.
Qed.




End Checks.

(** * The engine on more examples *)

Module Runs.
Import Demo Examples Cases Checks.

Lemma reached_ok (os : list op) :
  Forall op_ok os → store_ok db (files (run_ops db os fresh)).
Proof.
  intros Hos. apply run_ops_preserves; [apply uuid1_plain|done|].
  apply fresh_store_ok.
Qed.

Lemma empty_doc_ok : doc_ok (∅ : document).
Proof. split; [by vm_compute|]. by intros f v ?%lookup_empty_Some. Qed.

Lemma indexed_pair_ok : Forall op_ok indexed_pair.
Proof.
  repeat constructor; try done; by apply doc_ok_one; [|vm_compute].
Qed.

Lemma indexed_table_ok : Forall op_ok indexed_table.
Proof. by repeat constructor. Qed.

Lemma plain_table_ok : Forall op_ok plain_table.
Proof.
  repeat constructor; try done; by apply doc_ok_one; [|vm_compute].
Qed.

Lemma doc_not_empty k v : doc [(k, v)] ≠ (∅ : document).
Proof.
  intros Heq. apply (f_equal (lookup k)) in Heq.
  unfold doc in Heq. cbn [list_to_map foldr uncurry] in Heq.
  by rewrite lookup_insert_eq, lookup_empty in Heq.
Qed.

Lemma way_clear_nothing l :
  Forall (λ n, String.eqb n ".." = false) l → way_clear ∅ l.
Proof. intros Hl. split; [done|]. intros q _ _. right. by intros. Qed.


Lemma unsafe_table_rejected_witness :
  safe "../x" = false ∧ rejected "../x" (create db "../x") fresh.
Proof.
  assert (safe "../x" = false) as H1 by done.
  refine (conj H1 _).
  apply (proj1 (unsafe_table_rejected db "../x" fresh H1)).
Defined.

Lemma unsafe_key_rejected_witness :
  safe "t" = true ∧ safe "a/b" = false
  ∧ rejected "a/b" (get db "t" "a/b") fresh.
Proof.
  assert (safe "t" = true) as H1 by done.
  assert (safe "a/b" = false) as H2 by done.
  refine (conj H1 (conj H2 _)).
  apply (proj1 (proj2 (unsafe_key_rejected db "t" "a/b" fresh H1 H2))).
Defined.

Lemma target_stays_below_root_witness :
  _target_f db "t" (Some "k") fresh = (Ret (root db </> "t" </> "k"), fresh)
  ∧ ∃ l, parts (root db </> "t" </> "k") = parts (root db) ++ l
         ∧ (List.length l ≤ 2)%nat ∧ Forall (λ n, plain n = true) l.
Proof.
  assert (_target_f db "t" (Some "k") fresh
          = (Ret (root db </> "t" </> "k"), fresh)) as H1 by done.
  refine (conj H1 _).
  apply (proj2 (proj2 (target_stays_below_root db "t" (Some "k") fresh fresh
                         _ H1))).
Defined.

Lemma init_makes_the_directories_witness :
  way_clear (files nothing) (parts (root db))
  ∧ way_clear (files nothing) (parts (workdir db))
  ∧ ∃ t', __init__ (root db) (workdir db) nothing
          = (Ret (mkFSDB (root db) (workdir db)), mkWorld t' 0)
          ∧ is_dir t' (root db) = true ∧ is_dir t' (workdir db) = true.
Proof.
  assert (way_clear (files nothing) (parts (root db))) as H1
    by (apply way_clear_nothing; by repeat constructor).
  assert (way_clear (files nothing) (parts (workdir db))) as H2
    by (apply way_clear_nothing; by repeat constructor).
  refine (conj H1 (conj H2 _)).
  destruct (init_makes_the_directories (root db) (workdir db) (files nothing)
              0 H1 H2) as (t' & Hrun & Hr & Hw & _).
  exists t'. exact (conj Hrun (conj Hr Hw)).
Defined.

Lemma constructed_store_in_order_witness :
  ∃ self w', __init__ (root db) (workdir db) nothing = (Ret self, w')
             ∧ self = mkFSDB (root db) (workdir db)
             ∧ store_ok self (files w')
             ∧ ∀ os, Forall op_ok os →
                 store_ok self (files (run_ops self os w')).
Proof.
  apply (constructed_store_in_order (root db) (workdir db) (files nothing) 0
           uuid1_plain).
  - apply way_clear_nothing. by repeat constructor.
  - apply way_clear_nothing. by repeat constructor.
  - intros [k Hk]. by simplify_list_eq.
  - intros [k Hk]. by simplify_list_eq.
  - by intros.
  - by intros.
Defined.

Lemma create_makes_the_table_witness :
  frame_ok db (files fresh) ∧ key_ok "t" = true
  ∧ ∃ w', create db "t" fresh = (Ret (), w')
          ∧ files w' !! (parts (root db) ++ ["t"]) = Some Dir.
Proof.
  pose proof (proj1 fresh_store_ok) as H1.
  assert (key_ok "t" = true) as H2 by done.
  refine (conj H1 (conj H2 _)).
  destruct (create_makes_the_table db "t" fresh H1 H2)
    as (w' & Hrun & _ & Hdir & _).
  exists w'. exact (conj Hrun Hdir).
Defined.

Lemma lsdb_lists_directories_witness :
  frame_ok db (files fresh)
  ∧ ∃ ns, lsdb db fresh = (Ret ns, fresh) ∧ NoDup ns
          ∧ ∀ n, n ∈ ns ↔ files fresh !! (parts (root db) ++ [n]) = Some Dir.
Proof.
  pose proof (proj1 fresh_store_ok) as H1.
  refine (conj H1 _).
  apply (proj2 (proj2 (lsdb_lists_directories db fresh)) H1).
Defined.

Lemma drop_removes_the_table_witness :
  frame_ok db (files fresh) ∧ key_ok "t" = true
  ∧ files fresh !! (parts (root db) ++ ["t"]) = None
  ∧ drop db "t" fresh = (Ret false, fresh).
Proof.
  pose proof (proj1 fresh_store_ok) as H1.
  assert (key_ok "t" = true) as H2 by done.
  assert (files fresh !! (parts (root db) ++ ["t"]) = None) as H3
    by by vm_compute.
  refine (conj H1 (conj H2 (conj H3 _))).
  apply (proj1 (drop_removes_the_table db "t" fresh H1 H2) H3).
Defined.

Lemma drop_of_empty_name_removes_root_witness :
  real_dir (files people) (parts (root db)) ∧ parts (root db) ≠ []
  ∧ drop db "" people
    = (Ret true, mkWorld (prune (files people) (parts (root db)))
                         (clock people)).
Proof.
  assert (real_dir (files people) (parts (root db))) as H1
    by by apply root_real.
  assert (parts (root db) ≠ []) as H2 by done.
  refine (conj H1 (conj H2 _)).
  apply (proj1 (proj2 (drop_of_empty_name_removes_root db "" people
                         (or_introl eq_refl) H1 H2))).
Defined.

Lemma insert_then_get_witness :
  store_ok db (files one_table) ∧ key_ok "t" = true ∧ pk_ok "k" = true
  ∧ doc_ok (doc [("f", "x")])
  ∧ ∃ w', insert db "t" "k" (doc [("f", "x")]) one_table = (Ret (), w')
          ∧ get db "t" "k" w' = (Ret (Some (doc [("f", "x")])), w').
Proof.
  assert (store_ok db (files one_table)) as H1
    by (apply (reached_ok [Create "t"]); by repeat constructor).
  assert (key_ok "t" = true) as H2 by done.
  assert (pk_ok "k" = true) as H3 by done.
  assert (doc_ok (doc [("f", "x")])) as H4
    by (by apply doc_ok_one; [|vm_compute]).
  refine (conj H1 (conj H2 (conj H3 (conj H4 _)))).
  destruct (insert_then_get db uuid1_plain "t" "k" (doc [("f", "x")])
              one_table H1 H2 H3 H4)
    as (w' & Hrun & _ & Hget & _); [by vm_compute|by vm_compute|].
  exists w'. exact (conj Hrun Hget).
Defined.

Lemma upsert_then_get_witness :
  store_ok db (files with_record) ∧ key_ok "t" = true ∧ pk_ok "k" = true
  ∧ doc_ok (doc [("f", "y")])
  ∧ ∃ w', upsert db "t" "k" (doc [("f", "y")]) with_record = (Ret (), w')
          ∧ get db "t" "k" w' = (Ret (Some (doc [("f", "y")])), w').
Proof.
  assert (store_ok db (files with_record)) as H1 by apply
    (reached_ok plain_table plain_table_ok).
  assert (key_ok "t" = true) as H2 by done.
  assert (pk_ok "k" = true) as H3 by done.
  assert (doc_ok (doc [("f", "y")])) as H4
    by (by apply doc_ok_one; [|vm_compute]).
  refine (conj H1 (conj H2 (conj H3 (conj H4 _)))).
  destruct (upsert_then_get db uuid1_plain "t" "k" (doc [("f", "y")])
              with_record H1 H2 H3 H4)
    as (w' & Hrun & _ & Hget & _); [by vm_compute|].
  exists w'. exact (conj Hrun Hget).
Defined.

Lemma update_missing_or_replaces_witness :
  store_ok db (files with_record) ∧ key_ok "t" = true ∧ pk_ok "k" = true
  ∧ doc_ok (doc [("f", "y")])
  ∧ get db "t" "k" with_record = (Ret (Some (doc [("f", "x")])), with_record)
  ∧ ∃ w', update db "t" "k" (doc [("f", "y")]) with_record = (Ret (), w')
          ∧ get db "t" "k" w' = (Ret (Some (doc [("f", "y")])), w').
Proof.
  assert (store_ok db (files with_record)) as H1 by apply
    (reached_ok plain_table plain_table_ok).
  assert (key_ok "t" = true) as H2 by done.
  assert (pk_ok "k" = true) as H3 by done.
  assert (doc_ok (doc [("f", "y")])) as H4
    by (by apply doc_ok_one; [|vm_compute]).
  assert (get db "t" "k" with_record
          = (Ret (Some (doc [("f", "x")])), with_record)) as H5
    by by vm_compute.
  refine (conj H1 (conj H2 (conj H3 (conj H4 (conj H5 _))))).
  destruct (proj2 (update_missing_or_replaces db uuid1_plain "t" "k"
                     (doc [("f", "y")]) with_record)
              H1 H2 H3 H4 (doc [("f", "x")]) H5 (doc_not_empty "f" "x"))
    as (w' & Hrun & _ & Hget & _).
  exists w'. exact (conj Hrun Hget).
Defined.

Lemma writes_need_the_table_witness :
  frame_ok db (files fresh) ∧ key_ok "t" = true ∧ pk_ok "k" = true
  ∧ files fresh !! (parts (root db) ++ ["t"]) = None
  ∧ upsert db "t" "k" (doc [("f", "x")]) fresh
    = (Raise (FileNotFoundError "Table t does not exist"), fresh).
Proof.
  pose proof (proj1 fresh_store_ok) as H1.
  assert (key_ok "t" = true) as H2 by done.
  assert (pk_ok "k" = true) as H3 by done.
  assert (files fresh !! (parts (root db) ++ ["t"]) = None) as H4
    by by vm_compute.
  refine (conj H1 (conj H2 (conj H3 (conj H4 _)))).
  apply (proj1 (proj2 (writes_need_the_table db "t" "k" (doc [("f", "x")])
                         fresh H1 H2 H3 H4))).
Defined.

Lemma delete_absent_or_removes_witness :
  store_ok db (files with_record) ∧ key_ok "t" = true ∧ pk_ok "k" = true
  ∧ get db "t" "k" with_record = (Ret (Some (doc [("f", "x")])), with_record)
  ∧ ∃ w', delete db "t" "k" with_record = (Ret true, w')
          ∧ get db "t" "k" w' = (Ret None, w')
          ∧ delete db "t" "k" w' = (Ret false, w').
Proof.
  assert (store_ok db (files with_record)) as H1 by apply
    (reached_ok plain_table plain_table_ok).
  assert (key_ok "t" = true) as H2 by done.
  assert (pk_ok "k" = true) as H3 by done.
  assert (get db "t" "k" with_record
          = (Ret (Some (doc [("f", "x")])), with_record)) as H4
    by by vm_compute.
  refine (conj H1 (conj H2 (conj H3 (conj H4 _)))).
  destruct (proj2 (delete_absent_or_removes db "t" "k" with_record) H1 H2 H3
              (doc [("f", "x")]) H4 (doc_not_empty "f" "x"))
    as (w' & Hrun & _ & Hget & Hagain & _).
  exists w'. exact (conj Hrun (conj Hget Hagain)).
Defined.

Lemma failed_write_leaves_no_trace_witness :
  safe "t" = true ∧ safe "k" = true
  ∧ real_dir (files blocked) (parts (workdir db))
  ∧ _write db "t" "k" (doc [("f", "x")]) blocked
    = (Raise (OSError ENOTDIR), mkWorld (files blocked) 1)
  ∧ files (mkWorld (files blocked) 1) = files blocked.
Proof.
  assert (safe "t" = true) as H1 by done.
  assert (safe "k" = true) as H2 by done.
  assert (real_dir (files blocked) (parts (workdir db))) as H3
    by by apply workdir_real.
  assert (_write db "t" "k" (doc [("f", "x")]) blocked
          = (Raise (OSError ENOTDIR), mkWorld (files blocked) 1)) as H4
    by by vm_compute.
  refine (conj H1 (conj H2 (conj H3 (conj H4 _)))).
  apply (failed_write_leaves_no_trace db "t" "k" (doc [("f", "x")]) blocked
           (mkWorld (files blocked) 1) (OSError ENOTDIR)
           H1 H2 (uuid1_plain 0) H3); [by vm_compute|exact H4].
Defined.

Lemma one_table_no_index x :
  files one_table !! (parts (root db) ++ ["t"; x]) ≠ Some Dir.
Proof.
  intros Hl.
  assert (x ∈ entries (files one_table) (parts (root db) ++ ["t"])) as Hx.
  { apply elem_of_entries. rewrite snoc2, Hl. eauto. }
  assert (entries (files one_table) (parts (root db) ++ ["t"]) = [])
    as Heq by by vm_compute.
  rewrite Heq in Hx. by apply elem_of_nil in Hx.
Qed.

Lemma upsert_of_empty_key_keeps_temporary_name_witness :
  frame_ok db (files one_table) ∧ key_ok "t" = true
  ∧ ∃ w', upsert db "t" "" (doc [("f", "x")]) one_table = (Ret (), w')
          ∧ get db "t" "" w' = (Ret None, w')
          ∧ get db "t" (tmp_name "t" "" (clock one_table)) w'
            = (Ret (Some (doc [("f", "x")])), w').
Proof.
  assert (frame_ok db (files one_table)) as H1.
  { apply (reached_ok [Create "t"]). by repeat constructor. }
  assert (key_ok "t" = true) as H2 by done.
  refine (conj H1 (conj H2 _)).
  destruct (upsert_of_empty_key_keeps_temporary_name db "t"
              (doc [("f", "x")]) one_table H1 H2)
    as (w' & Hrun & _ & Hget & Htmp);
    [by vm_compute|apply one_table_no_index|apply uuid1_plain
    |by vm_compute|by vm_compute|].
  exists w'. exact (conj Hrun (conj Hget (Htmp eq_refl))).
Defined.

Lemma find_returns_current_record_witness :
  store_ok db (files two_records) ∧ key_ok "t" = true ∧ field_ok "f" = true
  ∧ plain "x" = true
  ∧ ∃ r, find db "t" "f" "x" two_records = (Ret r, two_records)
         ∧ (is_Some r ↔
            is_Some (files two_records
                       !! (parts (root db) ++ ["t"; "@" +:+ "f"; "x"]))).
Proof.
  pose proof (reached_ok indexed_pair indexed_pair_ok) as H1.
  assert (key_ok "t" = true) as H2 by done.
  assert (field_ok "f" = true) as H3 by done.
  assert (plain "x" = true) as H4 by done.
  refine (conj H1 (conj H2 (conj H3 (conj H4 _)))).
  destruct (find_returns_current_record db "t" "f" "x" two_records
              H1 H2 H3 H4) as (r & Hrun & Hiff & _).
  exists r. exact (conj Hrun Hiff).
Defined.

Lemma written_value_is_found_witness :
  store_ok db (files indexed) ∧ key_ok "t" = true ∧ pk_ok "k" = true
  ∧ doc_ok (doc [("f", "x")]) ∧ field_ok "f" = true
  ∧ has_index db "t" "f" indexed = (Ret true, indexed)
  ∧ find db "t" "f" "x" (exec (insert db "t" "k" (doc [("f", "x")])) indexed)
    = (Ret (Some (doc [("f", "x")])),
       exec (insert db "t" "k" (doc [("f", "x")])) indexed).
Proof.
  pose proof (reached_ok indexed_table indexed_table_ok) as H1.
  assert (key_ok "t" = true) as H2 by done.
  assert (pk_ok "k" = true) as H3 by done.
  assert (doc_ok (doc [("f", "x")])) as H4
    by (by apply doc_ok_one; [|vm_compute]).
  assert (field_ok "f" = true) as H5 by done.
  assert (has_index db "t" "f" indexed = (Ret true, indexed)) as H6
    by by vm_compute.
  refine (conj H1 (conj H2 (conj H3 (conj H4 (conj H5 (conj H6 _)))))).
  apply (written_value_is_found db uuid1_plain "t" "k" "f" (doc [("f", "x")])
           "x" (Insert "t" "k" (doc [("f", "x")])) indexed _
           H1 H2 H3 H4 H5 H6); [by vm_compute|by left|by vm_compute].
Defined.

Lemma create_index_covers_the_table_witness :
  store_ok db (files with_record) ∧ key_ok "t" = true ∧ field_ok "f" = true
  ∧ ∃ w', create_index db "t" "f" with_record = (Ret (), w')
          ∧ has_index db "t" "f" w' = (Ret true, w').
Proof.
  assert (store_ok db (files with_record)) as H1 by apply
    (reached_ok plain_table plain_table_ok).
  assert (key_ok "t" = true) as H2 by done.
  assert (field_ok "f" = true) as H3 by done.
  refine (conj H1 (conj H2 (conj H3 _))).
  destruct (create_index_covers_the_table db "t" "f" with_record H1 H2 H3)
    as (w' & Hrun & _ & Hidx & _).
  - by vm_compute.
  - assert (files with_record !! (parts (root db) ++ ["t"; "@" +:+ "f"])
            = None) as -> by by vm_compute.
    done.
  - exists w'. exact (conj Hrun Hidx).
Defined.

Lemma create_index_needs_the_table_witness :
  frame_ok db (files fresh) ∧ key_ok "t" = true ∧ field_ok "f" = true
  ∧ files fresh !! (parts (root db) ++ ["t"]) = None
  ∧ create_index db "t" "f" fresh = (Raise (OSError ENOENT), fresh).
Proof.
  pose proof (proj1 fresh_store_ok) as H1.
  assert (key_ok "t" = true) as H2 by done.
  assert (field_ok "f" = true) as H3 by done.
  assert (files fresh !! (parts (root db) ++ ["t"]) = None) as H4
    by by vm_compute.
  refine (conj H1 (conj H2 (conj H3 (conj H4 _)))).
  apply (create_index_needs_the_table db "t" "f" fresh H1 H2 H3 H4).
Defined.

Lemma scan_yields_the_records_witness :
  frame_ok db (files two_records) ∧ key_ok "t" = true
  ∧ ∃ r, scan db "t" "*" two_records = (Ret r, two_records)
         ∧ NoDup r.*1
         ∧ ∀ pk d, (pk, d) ∈ r ↔
             get db "t" pk two_records = (Ret (Some d), two_records)
             ∧ Py.contains ":" pk = false.
Proof.
  pose proof (proj1 (reached_ok indexed_pair indexed_pair_ok)) as H1.
  assert (key_ok "t" = true) as H2 by done.
  refine (conj H1 (conj H2 _)).
  apply (scan_yields_the_records db "t" two_records H1 H2).
Defined.

Lemma scan_pattern_selects_witness :
  safe "people" = true ∧ one_segment "a*" = true
  ∧ ∃ r, scan db "people" "*" people = (Ret r, people)
         ∧ scan db "people" "a*" people
           = (Ret (List.filter (λ kd, fnmatch "a*" kd.1) r), people).
Proof.
  assert (safe "people" = true) as H1 by done.
  assert (one_segment "a*" = true) as H2 by done.
  refine (conj H1 (conj H2 _)).
  apply (scan_pattern_selects db "people" "a*" people H1 H2).
Defined.

Lemma missing_table_reads_empty_witness :
  is_dir (files people) (root db </> "nowhere") = false
  ∧ scan db "nowhere" "*" people = (Ret [], people).
Proof.
  assert (is_dir (files people) (root db </> "nowhere") = false) as H1
    by by vm_compute.
  refine (conj H1 _).
  apply (proj1 (missing_table_reads_empty db "nowhere" people H1));
    reflexivity.
Defined.

Lemma link_stores_a_record_witness :
  store_ok db (files two_records) ∧ key_ok "t" = true ∧ pk_ok "k1" = true
  ∧ key_ok "k2" = true ∧ doc_ok (link_doc None)
  ∧ ∃ w', link db "t" "k1" "t" "k2" None two_records = (Ret (), w')
          ∧ get db "t" ("k1" +:+ ":" +:+ "k2") w'
            = (Ret (Some (link_doc None)), w').
Proof.
  pose proof (reached_ok indexed_pair indexed_pair_ok) as H1.
  assert (key_ok "t" = true) as H2 by done.
  assert (pk_ok "k1" = true) as H3 by done.
  assert (key_ok "k2" = true) as H4 by done.
  assert (doc_ok (link_doc None)) as H5 by apply empty_doc_ok.
  refine (conj H1 (conj H2 (conj H3 (conj H4 (conj H5 _))))).
  destruct (proj2 (proj2 (link_stores_a_record db uuid1_plain
                            "t" "k1" "t" "k2" None two_records))
              H1 H2 H3 H2 H4 H5)
    as (w' & Hrun & _ & Hget & _); [by vm_compute|by vm_compute|].
  exists w'. exact (conj Hrun Hget).
Defined.

End Runs.
